(** * REST client history subsystem: [Api.jsx] and [Api1.jsx]

    A shallow embedding of the two variants of the [RestClient] component:
    the history loader with its page cache, the request executor, the
    statistics aggregator and the three mutations of the key-value store.
    [Api.jsx] talks to the injected [window.storage] object, [Api1.jsx]
    to [localStorage]. *)

From Stdlib Require Import ZArith QArith Qround String Ascii List Sorted Permutation Lia.
From stdpp Require Import base tactics option list sorting strings pretty gmap.

Set Warnings "-register-all".
Local Open Scope string_scope.
Local Open Scope list_scope.
Local Open Scope Z_scope.

(** ** JavaScript built-ins used by the component *)

Module JS.

(** [Array.prototype.sort(comparefn)]: a stable sort; a result of
    [comparefn a b] that is negative or zero leaves [a] before [b]. *)
Fixpoint Array_sort_insert {A : Type} (comparefn : A -> A -> Z) (x : A) (l : list A) : list A :=
  match l with
  | [] => [x]
  | y :: l' =>
      if comparefn x y <=? 0 then x :: y :: l'
      else y :: Array_sort_insert comparefn x l'
  end.

Definition Array_sort {A : Type} (comparefn : A -> A -> Z) (l : list A) : list A :=
  foldr (Array_sort_insert comparefn) [] l.

(** The index clamping of [Array.prototype.slice]: a negative index
    counts from the end. *)
Definition relative_index (len i : Z) : Z :=
  if i <? 0 then Z.max (len + i) 0 else Z.min i len.

(** [arr.slice(start, end)]. *)
Definition Array_slice {A : Type} (l : list A) (start stop : Z) : list A :=
  let len := Z.of_nat (length l) in
  let k := relative_index len start in
  let final := relative_index len stop in
  take (Z.to_nat (final - k)) (drop (Z.to_nat k) l).

(** [arr.slice(start)]: the end defaults to the length. *)
Definition Array_slice_from {A : Type} (l : list A) (start : Z) : list A :=
  Array_slice l start (Z.of_nat (length l)).

(** [s.startsWith(p)]. *)
Definition String_startsWith (s p : string) : bool := String.prefix p s.

(** [s.includes(sub)]. *)
Fixpoint String_includes (s sub : string) : bool :=
  String.prefix sub s ||
  match s with
  | EmptyString => false
  | String _ s' => String_includes s' sub
  end.

(** [Math.round]: the nearest integer, halves towards plus infinity. *)
Definition Math_round (x : Q) : Z := Qfloor (x + (1 # 2)).

(** An exception value: [error.name] and [error.message]. *)
Record Error := { name : string; message : string }.

(** [new Error(msg)]. *)
Definition new_Error (msg : string) : Error := {| name := "Error"; message := msg |}.

End JS.

(** ** Ordering by a numeric key

    The comparator [(a, b) => key(b) - key(a)] and the order it sorts
    into: no later element has a larger key. *)
Definition by_key_desc {A : Type} (key : A -> Z) (a b : A) : Z := key b - key a.

Definition descending {A : Type} (key : A -> Z) (a b : A) : Prop := key b <= key a.

(** ** Data model *)

(** The methods of the method selector. *)
Inductive Method := GET | POST | PUT | DELETE | PATCH | HEAD | OPTIONS.

Global Instance Method_eq_dec : EqDecision Method.
Proof. solve_decision. Defined.

(** [['POST', 'PUT', 'PATCH'].includes(method)]. *)
Definition has_body (m : Method) : bool :=
  match m with POST | PUT | PATCH => true | _ => false end.

(** A value produced by [JSON.parse]. *)
Inductive Json :=
  | JNull
  | JBool (b : bool)
  | JNumber (n : Q)
  | JString (s : string)
  | JArray (l : list Json)
  | JObject (fields : list (string * Json)).

(** Truthiness of a string and of a parsed value. *)
Definition truthy_string (s : string) : bool :=
  match s with EmptyString => false | _ => true end.

Definition truthy (v : Json) : bool :=
  match v with
  | JNull => false
  | JBool b => b
  | JNumber n => negb (Qeq_bool n 0)
  | JString s => truthy_string s
  | JArray _ | JObject _ => true
  end.

(** [x || d] on numbers: zero is falsy. *)
Definition number_or (x d : Z) : Z := if x =? 0 then d else x.

(** The [headers] field of a history item: [Api.jsx] keeps the text of the
    form field, [Api1.jsx] the parsed object. *)
Inductive Headers :=
  | HeadersText (s : string)
  | HeadersObject (v : Json).

(** A history item as [sendRequest] builds it and [saveToHistory] completes
    it with [id]. [timestamp] is the ISO-8601 text identified with the time
    value that [new Date(timestamp)] denotes, in milliseconds: the records
    are those [saveToHistory] wrote, whose timestamps come from
    [new Date().toISOString()] and always denote one. *)
Module Item.
Record HistoryEntry := {
  method : Method;
  url : string;
  headers : Headers;
  body : string;
  response : string;
  statusCode : Z;
  duration : Z;
  timestamp : Z;
  id : Z
}.
End Item.
Abbreviation HistoryEntry := Item.HistoryEntry.

(** The comparator of both loaders:
    [(a, b) => new Date(b.timestamp) - new Date(a.timestamp)]. *)
Definition newest_first (a b : HistoryEntry) : Z :=
  Item.timestamp b - Item.timestamp a.

(** ** The platform

    The parsers and printers of the host are taken as given: every theorem
    below holds for all of them. [JSON_parse_entry] is [JSON.parse] on the
    text of a stored record and [JSON_stringify_entry] is [JSON.stringify]
    on a history item; [None] stands for a thrown [SyntaxError], and for
    a text that denotes [null], which the loaders drop the same way. *)
Class Platform := {
  JSON_parse : string -> option Json;
  JSON_stringify : Json -> string;
  JSON_stringify_pretty : Json -> string;
  JSON_parse_entry : string -> option HistoryEntry;
  JSON_stringify_entry : HistoryEntry -> string;
  String_trim : string -> string;
  URL_valid : string -> bool
}.

(** ** The key-value store

    Both stores are kept as the list of their bindings in enumeration
    order ([localStorage.key(i)]); a new key is enumerated last. *)
Module Storage.
Abbreviation t := (list (string * string)).

Definition keys (st : t) : list string := map fst st.

Definition getItem (key : string) (st : t) : option string :=
  snd <$> List.find (fun kv => String.eqb (fst kv) key) st.

Definition setItem (key value : string) (st : t) : t :=
  if existsb (fun kv => String.eqb (fst kv) key) st
  then map (fun kv => if String.eqb (fst kv) key then (key, value) else kv) st
  else st ++ [(key, value)].

Definition removeItem (key : string) (st : t) : t :=
  List.filter (fun kv => negb (String.eqb (fst kv) key)) st.
End Storage.

(** The reserved prefix of history records. *)
Definition request_prefix : string := "request:".

(** ** Effects

    A handler is a state transformer that completes normally or throws. *)
Module Eff.
Inductive Completion (A : Type) : Type :=
  | Normal (a : A)
  | Throw (e : JS.Error).
Arguments Normal {A} a.
Arguments Throw {A} e.

Definition M (S A : Type) : Type := S -> Completion A * S.

Section Ops.
Context {S : Type}.

Definition ret {A} (a : A) : M S A := fun s => (Normal a, s).

Definition bind {A B} (m : M S A) (k : A -> M S B) : M S B :=
  fun s =>
    match m s with
    | (Normal a, s') => k a s'
    | (Throw e, s') => (Throw e, s')
    end.

Definition throw {A} (e : JS.Error) : M S A := fun s => (Throw e, s).

Definition lift {A} (c : Completion A) : M S A := fun s => (c, s).

Definition gets {A} (f : S -> A) : M S A := fun s => (Normal (f s), s).

Definition modify (f : S -> S) : M S unit := fun s => (Normal tt, f s).

(** [try { body } catch (error) { handler }]. *)
Definition try_catch {A} (body : M S A) (handler : JS.Error -> M S A) : M S A :=
  fun s =>
    match body s with
    | (Normal a, s') => (Normal a, s')
    | (Throw e, s') => handler e s'
    end.

(** [try { body } finally { fin }]. *)
Definition try_finally {A} (body : M S A) (fin : M S unit) : M S A :=
  fun s =>
    let '(r, s') := body s in
    match fin s' with
    | (Normal _, s'') => (r, s'')
    | (Throw e, s'') => (Throw e, s'')
    end.

(** The state a handler leaves behind. *)
Definition exec {A} (m : M S A) (s : S) : S := snd (m s).
End Ops.

Global Instance M_ret {S} : MRet (M S) := fun A a => ret a.
Global Instance M_bind {S} : MBind (M S) := fun A B k m => bind m k.
End Eff.
Import Eff.

(** An observable effect of a handler, in the order issued. *)
Record FetchOptions := {
  fetch_method : Method;
  fetch_headers : Json;
  fetch_body : option string
}.

Inductive Effect :=
  | Fetch (url : string) (options : FetchOptions)
  | StorageSet (key value : string)
  | StorageDelete (key : string)
  | ConsoleError (label : string).

(** The response object of [fetch]. *)
Module Response.
Record t := {
  status : Z;
  content_type : option string;
  json : Completion Json;
  text : Completion string
}.
End Response.

Inductive FetchReply :=
  | FetchRejects (e : JS.Error)
  | FetchResolves (r : Response.t).

(** The form fields a send reads. *)
Module Form.
Record t := { method : Method; url : string; headers : string; body : string }.
End Form.

(** The statistics panel. *)
Module Stats.
Record MethodStat := { method : Method; count : Z }.
Record t := { total : Z; avgDuration : Z; methodStats : list MethodStat }.
End Stats.

(** [s || d] on strings: the empty string is falsy. *)
Definition string_or (s d : string) : string := if truthy_string s then s else d.

(** The two characters of the sample bodies that a literal cannot hold. *)
Definition quot : string := String "034"%char EmptyString.

Definition newline : string := String "010"%char EmptyString.

Definition quoted (s : string) : string := quot +:+ s +:+ quot.

(** The JSON text of the sample posts, as the source lays it out:
    [{\n<indent>"title": "<title>",\n<indent>"body": "<body>",\n<indent>"userId": 1\n}]. *)
Definition post_json (indent title body : string) : string :=
  "{" +:+ newline
  +:+ indent +:+ quoted "title" +:+ ": " +:+ quoted title +:+ "," +:+ newline
  +:+ indent +:+ quoted "body" +:+ ": " +:+ quoted body +:+ "," +:+ newline
  +:+ indent +:+ quoted "userId" +:+ ": 1" +:+ newline
  +:+ "}".

(** A call of [window.scrollTo]. *)
Record Scroll := { scroll_top : Z; scroll_behavior : string }.

(** ** The status badge

    [getStatusColor] and [getStatusText] read the same in both files. *)
Definition getStatusColor (status : Z) : string :=
  if status =? 0 then "text-gray-600 bg-gray-50"
  else if (200 <=? status) && (status <? 300) then "text-green-600 bg-green-50"
  else if (300 <=? status) && (status <? 400) then "text-blue-600 bg-blue-50"
  else if (400 <=? status) && (status <? 500) then "text-orange-600 bg-orange-50"
  else "text-red-600 bg-red-50".

Definition getStatusText (status : Z) : string :=
  if status =? 0 then "Network Error"
  else if (200 <=? status) && (status <? 300) then "Success"
  else if (300 <=? status) && (status <? 400) then "Redirect"
  else if (400 <=? status) && (status <? 500) then "Client Error"
  else "Server Error".

(** ** [Api1.jsx]: the variant over [localStorage] *)

Module Api1.

(** What the world answers during one handler call. *)
Record Env := {
  Date_now : Z;                (* Date.now() *)
  new_Date : Z;                (* new Date(), as a time value *)
  performance_start : Q;       (* performance.now() on entry *)
  performance_end : Q;         (* performance.now() after fetch *)
  performance_catch : Q;       (* performance.now() in the catch block *)
  fetch_reply : FetchReply;
  setItem_throws : bool        (* localStorage.setItem exceeds the quota *)
}.

(** A value of [historyCache]. *)
Module Cached.
Record t := { items : list HistoryEntry; hasMore : bool }.
End Cached.

(** The object [sendRequest] hands to [saveToHistory]. *)
Module RequestData.
Record t := {
  method : Method;
  url : string;
  headers : Json;
  body : string;
  response : string;
  statusCode : Z;
  duration : Z
}.
End RequestData.

(** The component state, the store and the effects issued so far. *)
Record State := {
  localStorage : Storage.t;
  historyCache : gmap string Cached.t;
  history : list HistoryEntry;
  page : Z;
  isLoadingHistory : bool;
  totalCount : Z;
  hasMore : bool;
  stats : option Stats.t;
  response : string;
  statusCode : option Z;
  duration : option Z;
  loading : bool;
  effects : list Effect
}.

Definition with_localStorage (v : Storage.t) (s : State) : State :=
  {| localStorage := v; historyCache := historyCache s; history := history s;
     page := page s; isLoadingHistory := isLoadingHistory s;
     totalCount := totalCount s; hasMore := hasMore s; stats := stats s;
     response := response s; statusCode := statusCode s;
     duration := duration s; loading := loading s; effects := effects s |}.

Definition with_historyCache (v : gmap string Cached.t) (s : State) : State :=
  {| localStorage := localStorage s; historyCache := v; history := history s;
     page := page s; isLoadingHistory := isLoadingHistory s;
     totalCount := totalCount s; hasMore := hasMore s; stats := stats s;
     response := response s; statusCode := statusCode s;
     duration := duration s; loading := loading s; effects := effects s |}.

Definition with_history (v : list HistoryEntry) (s : State) : State :=
  {| localStorage := localStorage s; historyCache := historyCache s; history := v;
     page := page s; isLoadingHistory := isLoadingHistory s;
     totalCount := totalCount s; hasMore := hasMore s; stats := stats s;
     response := response s; statusCode := statusCode s;
     duration := duration s; loading := loading s; effects := effects s |}.

Definition with_page (v : Z) (s : State) : State :=
  {| localStorage := localStorage s; historyCache := historyCache s; history := history s;
     page := v; isLoadingHistory := isLoadingHistory s;
     totalCount := totalCount s; hasMore := hasMore s; stats := stats s;
     response := response s; statusCode := statusCode s;
     duration := duration s; loading := loading s; effects := effects s |}.

Definition with_isLoadingHistory (v : bool) (s : State) : State :=
  {| localStorage := localStorage s; historyCache := historyCache s; history := history s;
     page := page s; isLoadingHistory := v;
     totalCount := totalCount s; hasMore := hasMore s; stats := stats s;
     response := response s; statusCode := statusCode s;
     duration := duration s; loading := loading s; effects := effects s |}.

Definition with_totalCount (v : Z) (s : State) : State :=
  {| localStorage := localStorage s; historyCache := historyCache s; history := history s;
     page := page s; isLoadingHistory := isLoadingHistory s;
     totalCount := v; hasMore := hasMore s; stats := stats s;
     response := response s; statusCode := statusCode s;
     duration := duration s; loading := loading s; effects := effects s |}.

Definition with_hasMore (v : bool) (s : State) : State :=
  {| localStorage := localStorage s; historyCache := historyCache s; history := history s;
     page := page s; isLoadingHistory := isLoadingHistory s;
     totalCount := totalCount s; hasMore := v; stats := stats s;
     response := response s; statusCode := statusCode s;
     duration := duration s; loading := loading s; effects := effects s |}.

Definition with_stats (v : option Stats.t) (s : State) : State :=
  {| localStorage := localStorage s; historyCache := historyCache s; history := history s;
     page := page s; isLoadingHistory := isLoadingHistory s;
     totalCount := totalCount s; hasMore := hasMore s; stats := v;
     response := response s; statusCode := statusCode s;
     duration := duration s; loading := loading s; effects := effects s |}.

Definition with_response (v : string) (s : State) : State :=
  {| localStorage := localStorage s; historyCache := historyCache s; history := history s;
     page := page s; isLoadingHistory := isLoadingHistory s;
     totalCount := totalCount s; hasMore := hasMore s; stats := stats s;
     response := v; statusCode := statusCode s;
     duration := duration s; loading := loading s; effects := effects s |}.

Definition with_statusCode (v : option Z) (s : State) : State :=
  {| localStorage := localStorage s; historyCache := historyCache s; history := history s;
     page := page s; isLoadingHistory := isLoadingHistory s;
     totalCount := totalCount s; hasMore := hasMore s; stats := stats s;
     response := response s; statusCode := v;
     duration := duration s; loading := loading s; effects := effects s |}.

Definition with_duration (v : option Z) (s : State) : State :=
  {| localStorage := localStorage s; historyCache := historyCache s; history := history s;
     page := page s; isLoadingHistory := isLoadingHistory s;
     totalCount := totalCount s; hasMore := hasMore s; stats := stats s;
     response := response s; statusCode := statusCode s;
     duration := v; loading := loading s; effects := effects s |}.

Definition with_loading (v : bool) (s : State) : State :=
  {| localStorage := localStorage s; historyCache := historyCache s; history := history s;
     page := page s; isLoadingHistory := isLoadingHistory s;
     totalCount := totalCount s; hasMore := hasMore s; stats := stats s;
     response := response s; statusCode := statusCode s;
     duration := duration s; loading := v; effects := effects s |}.

Definition with_effects (v : list Effect) (s : State) : State :=
  {| localStorage := localStorage s; historyCache := historyCache s; history := history s;
     page := page s; isLoadingHistory := isLoadingHistory s;
     totalCount := totalCount s; hasMore := hasMore s; stats := stats s;
     response := response s; statusCode := statusCode s;
     duration := duration s; loading := loading s; effects := v |}.

(** The state of a freshly mounted component over a given store. *)
Definition initial (ls : Storage.t) : State :=
  {| localStorage := ls; historyCache := ∅; history := []; page := 1;
     isLoadingHistory := false; totalCount := 0; hasMore := false;
     stats := None; response := ""; statusCode := None; duration := None;
     loading := false; effects := [] |}.

(** The setters of [useState] and the effects. *)
Definition setHistory (v : list HistoryEntry) : M State unit := modify (with_history v).
Definition setPage (v : Z) : M State unit := modify (with_page v).
Definition setIsLoadingHistory (v : bool) : M State unit := modify (with_isLoadingHistory v).
Definition setTotalCount (v : Z) : M State unit := modify (with_totalCount v).
Definition setHasMore (v : bool) : M State unit := modify (with_hasMore v).
Definition setStats (v : Stats.t) : M State unit := modify (with_stats (Some v)).
Definition setResponse (v : string) : M State unit := modify (with_response v).
Definition setStatusCode (v : option Z) : M State unit := modify (with_statusCode v).
Definition setDuration (v : option Z) : M State unit := modify (with_duration v).
Definition setLoading (v : bool) : M State unit := modify (with_loading v).

Definition emit (e : Effect) : M State unit :=
  modify (fun s => with_effects (effects s ++ [e]) s).

Definition console_error (label : string) : M State unit := emit (ConsoleError label).

Definition ITEMS_PER_PAGE : Z := 20.

Definition zero_stats : Stats.t :=
  {| Stats.total := 0; Stats.avgDuration := 0; Stats.methodStats := [] |}.

(** [acc[method] = (acc[method] || 0) + 1] on an object whose keys are
    kept in creation order. *)
Fixpoint count_method (acc : list (Method * Z)) (m : Method) : list (Method * Z) :=
  match acc with
  | [] => [(m, number_or 0 0 + 1)]
  | (m', c) :: acc' =>
      if decide (m' = m) then (m', number_or c 0 + 1) :: acc'
      else (m', c) :: count_method acc' m
  end.

Definition computeStats (historyData : list HistoryEntry) : Stats.t :=
  if (length historyData =? 0)%nat then zero_stats
  else
    let total := Z.of_nat (length historyData) in
    let avgDuration :=
      JS.Math_round
        (inject_Z (foldl (fun sum item => sum + number_or (Item.duration item) 0) 0 historyData)
         / inject_Z total) in
    let methodCounts :=
      foldl (fun acc item => count_method acc (Item.method item)) [] historyData in
    let methodStats :=
      JS.Array_slice
        (JS.Array_sort (fun a b => Stats.count b - Stats.count a)
           (map (fun '(method, count) => {| Stats.method := method; Stats.count := count |})
              methodCounts))
        0 3 in
    {| Stats.total := total; Stats.avgDuration := avgDuration; Stats.methodStats := methodStats |}.

(** The loop over [localStorage.key(i)]. *)
Definition getRequestKeys (ls : Storage.t) : list string :=
  List.filter (fun key => truthy_string key && JS.String_startsWith key request_prefix)
    (Storage.keys ls).

Section Component.
Context `{Platform}.

(** The body of the [keys.map] callback: a record that is absent, empty
    or does not parse yields [null]. *)
Definition readItem (ls : Storage.t) (key : string) : option HistoryEntry :=
  match Storage.getItem key ls with
  | Some itemStr => if truthy_string itemStr then JSON_parse_entry itemStr else None
  | None => None
  end.

Definition loadStats : M State unit :=
  try_catch
    (keys ← gets (fun s => getRequestKeys (localStorage s));
     if (length keys =? 0)%nat then
       setStats zero_stats;; setTotalCount 0
     else
       let recentKeys := JS.Array_slice_from keys (-100) in
       historyData ← gets (fun s => map (readItem (localStorage s)) recentKeys);
       let filteredData := omap id historyData in
       let computed := computeStats filteredData in
       setStats computed;;
       setTotalCount (Z.of_nat (length keys)))
    (fun error =>
       console_error "Failed to load stats:";;
       setStats zero_stats;;
       setTotalCount 0).

Definition cacheKey (pageNum : Z) : string := "page_" +:+ pretty pageNum.

Definition loadHistory (pageNum : Z) (append : bool) : M State unit :=
  cache ← gets historyCache;
  match cache !! cacheKey pageNum, append with
  | Some cached, false =>
      setHistory (Cached.items cached);;
      setHasMore (Cached.hasMore cached)
  | _, _ =>
      setIsLoadingHistory true;;
      try_finally
        (try_catch
           (keys ← gets (fun s => getRequestKeys (localStorage s));
            if (length keys =? 0)%nat then
              setHistory [];; setTotalCount 0;; setHasMore false
            else
              historyData ← gets (fun s => map (readItem (localStorage s)) keys);
              let sorted := JS.Array_sort newest_first (omap id historyData) in
              setTotalCount (Z.of_nat (length sorted));;
              let startIndex := (pageNum - 1) * ITEMS_PER_PAGE in
              let endIndex := startIndex + ITEMS_PER_PAGE in
              let paginatedItems := JS.Array_slice sorted startIndex endIndex in
              let hasMoreItems := endIndex <? Z.of_nat (length sorted) in
              modify (fun s =>
                with_historyCache
                  (<[cacheKey pageNum :=
                      {| Cached.items := paginatedItems; Cached.hasMore := hasMoreItems |}]>
                     (historyCache s)) s);;
              (if append && (1 <? pageNum)
               then modify (fun s => with_history (history s ++ paginatedItems) s)
               else setHistory paginatedItems);;
              setHasMore hasMoreItems)
           (fun error =>
              console_error "Failed to load history:";;
              setHistory []))
        (setIsLoadingHistory false)
  end.

(** The handlers below also consult the world. *)
Variable env : Env.

Definition localStorage_setItem (key value : string) : M State unit :=
  emit (StorageSet key value);;
  if setItem_throws env
  then throw {| JS.name := "QuotaExceededError"; JS.message := "The quota has been exceeded." |}
  else modify (fun s => with_localStorage (Storage.setItem key value (localStorage s)) s).

Definition localStorage_removeItem (key : string) : M State unit :=
  emit (StorageDelete key);;
  modify (fun s => with_localStorage (Storage.removeItem key (localStorage s)) s).

(** [historyCache.current.clear()]. *)
Definition historyCache_clear : M State unit := modify (with_historyCache ∅).

(** [keys.forEach(f)]. *)
Definition forEach {A} (f : A -> M State unit) (l : list A) : M State unit :=
  foldr (fun x k => f x;; k) (mret tt) l.

(** [{ ...requestData, id, timestamp: new Date().toISOString() }]. *)
Definition itemWithId (requestData : RequestData.t) (id : Z) : HistoryEntry :=
  {| Item.method := RequestData.method requestData;
     Item.url := RequestData.url requestData;
     Item.headers := HeadersObject (RequestData.headers requestData);
     Item.body := RequestData.body requestData;
     Item.response := RequestData.response requestData;
     Item.statusCode := RequestData.statusCode requestData;
     Item.duration := RequestData.duration requestData;
     Item.timestamp := new_Date env;
     Item.id := id |}.

Definition saveToHistory (requestData : RequestData.t) : M State unit :=
  try_catch
    (let timestamp := Date_now env in
     let id := timestamp in
     localStorage_setItem ("request:" +:+ pretty id)
       (JSON_stringify_entry (itemWithId requestData id));;
     historyCache_clear;;
     setPage 1;;
     loadHistory 1 false;;
     loadStats)
    (fun error => console_error "Failed to save history:").

(** The validation at the head of [sendRequest]'s [try] block; it
    yields the parsed headers and the parsed body ([null] when no body
    is parsed). *)
Definition validate (form : Form.t) : Completion (Json * Json) :=
  match JSON_parse (Form.headers form) with
  | None => Throw (JS.new_Error "Invalid JSON in headers")
  | Some parsedHeaders =>
      match
        (if truthy_string (String_trim (Form.body form)) && has_body (Form.method form)
         then match JSON_parse (Form.body form) with
              | None => Throw (JS.new_Error "Invalid JSON in body")
              | Some v => Normal v
              end
         else Normal JNull)
      with
      | Throw e => Throw e
      | Normal parsedBody =>
          if negb (truthy_string (String_trim (Form.url form)))
          then Throw (JS.new_Error "URL is required")
          else if negb (URL_valid (Form.url form))
          then Throw (JS.new_Error "Invalid URL format")
          else Normal (parsedHeaders, parsedBody)
      end
  end.

(** The options handed to [fetch]: the body is sent for POST, PUT and
    PATCH when the parsed body is truthy. *)
Definition fetchOptionsOf (form : Form.t) (parsedHeaders parsedBody : Json) : FetchOptions :=
  {| fetch_method := Form.method form;
     fetch_headers := parsedHeaders;
     fetch_body :=
       if truthy parsedBody && has_body (Form.method form)
       then Some (JSON_stringify parsedBody) else None |}.

(** Reading the response by its declared content type: [response.json()]
    for a JSON type, [response.text()] otherwise. *)
Definition readBody (response : Response.t) : Completion Json :=
  match Response.content_type response with
  | Some contentType =>
      if truthy_string contentType && JS.String_includes contentType "application/json"
      then Response.json response
      else match Response.text response with
           | Normal text => Normal (JString text)
           | Throw e => Throw e
           end
  | None =>
      match Response.text response with
      | Normal text => Normal (JString text)
      | Throw e => Throw e
      end
  end.

(** The body shown and recorded for a failure:
    [JSON.stringify({ error, details, type }, null, 2)]. *)
Definition errorBody (error : JS.Error) : string :=
  JSON_stringify_pretty
    (JObject [("error", JString (JS.message error));
              ("details", JString "Request failed. Check console for details.");
              ("type", JString (JS.name error))]).

Definition fetch (url : string) (options : FetchOptions) : M State Response.t :=
  emit (Fetch url options);;
  match fetch_reply env with
  | FetchRejects e => throw e
  | FetchResolves r => mret r
  end.

Definition sendRequest (form : Form.t) : M State unit :=
  setLoading true;;
  setResponse "";;
  setStatusCode None;;
  setDuration None;;
  let startTime := performance_start env in
  try_finally
    (try_catch
       ('(parsedHeaders, parsedBody) ← lift (validate form);
        let fetchOptions := fetchOptionsOf form parsedHeaders parsedBody in
        response ← fetch (Form.url form) fetchOptions;
        let endTime := performance_end env in
        let requestDuration := JS.Math_round (endTime - startTime) in
        responseData ← lift (readBody response);
        let formattedResponse :=
          match responseData with
          | JString s => s
          | v => JSON_stringify_pretty v
          end in
        setResponse formattedResponse;;
        setStatusCode (Some (Response.status response));;
        setDuration (Some requestDuration);;
        saveToHistory
          {| RequestData.method := Form.method form;
             RequestData.url := Form.url form;
             RequestData.headers := parsedHeaders;
             RequestData.body := Form.body form;
             RequestData.response := formattedResponse;
             RequestData.statusCode := Response.status response;
             RequestData.duration := requestDuration |})
       (fun error =>
          let endTime := performance_catch env in
          let requestDuration := JS.Math_round (endTime - startTime) in
          let errorResponse := errorBody error in
          setResponse errorResponse;;
          setStatusCode
            (Some (if JS.String_includes (JS.message error) "CORS"
                      || String.eqb (JS.name error) "TypeError"
                   then 0 else 400));;
          setDuration (Some requestDuration);;
          let parsedHeaders :=
            match JSON_parse (Form.headers form) with
            | Some v => v
            | None => JObject []
            end in
          saveToHistory
            {| RequestData.method := Form.method form;
               RequestData.url := Form.url form;
               RequestData.headers := parsedHeaders;
               RequestData.body := Form.body form;
               RequestData.response := errorResponse;
               RequestData.statusCode := 400;
               RequestData.duration := requestDuration |}))
    (setLoading false).

Definition deleteHistoryItem (id : Z) : M State unit :=
  try_catch
    (let key := "request:" +:+ pretty id in
     localStorage_removeItem key;;
     historyCache_clear;;
     setPage 1;;
     loadHistory 1 false;;
     loadStats)
    (fun error => console_error "Failed to delete:").

Definition clearAllHistory : M State unit :=
  try_catch
    (keys ← gets (fun s => getRequestKeys (localStorage s));
     forEach localStorage_removeItem keys;;
     historyCache_clear;;
     setHistory [];;
     setTotalCount 0;;
     setPage 1;;
     setHasMore false;;
     loadStats)
    (fun error => console_error "Failed to clear history:").

Definition refreshHistory : M State unit :=
  historyCache_clear;;
  setPage 1;;
  loadHistory 1 false;;
  loadStats.

(** The initial effect. *)
Definition mount : M State unit := loadHistory 1 false;; loadStats.

(** The callback of the intersection observer; the observer is only
    installed while more pages remain and no load is running. *)
Definition observerCallback (isIntersecting : bool) : M State unit :=
  installed ← gets (fun s => hasMore s && negb (isLoadingHistory s));
  more ← gets hasMore;
  current ← gets page;
  if installed && isIntersecting && more then
    let nextPage := current + 1 in
    setPage nextPage;;
    loadHistory nextPage true
  else mret tt.

(** *** Notions used in the statements *)

(** The successfully parsed records of the store, in key order, and their
    arrangement by the loader's comparator. *)
Definition storedEntries (ls : Storage.t) : list HistoryEntry :=
  omap (readItem ls) (getRequestKeys ls).

Definition sortedEntries (ls : Storage.t) : list HistoryEntry :=
  JS.Array_sort newest_first (storedEntries ls).

(** The error the [try] block of [sendRequest] throws, if any: from the
    validation, from [fetch], or from reading the response. *)
Definition thrown (form : Form.t) : option JS.Error :=
  match validate form with
  | Throw e => Some e
  | Normal _ =>
      match fetch_reply env with
      | FetchRejects e => Some e
      | FetchResolves response =>
          match readBody response with
          | Throw e => Some e
          | Normal _ => None
          end
      end
  end.

(** The network calls a send issues: one when the validation passes. *)
Definition fetches (form : Form.t) : list Effect :=
  match validate form with
  | Throw _ => []
  | Normal (parsedHeaders, parsedBody) =>
      [Fetch (Form.url form) (fetchOptionsOf form parsedHeaders parsedBody)]
  end.

(** The state in which the [catch] block of [sendRequest] starts: the
    response panel is reset and the network call, if any, has been issued. *)
Definition before_catch (form : Form.t) (s : State) : State :=
  let s0 := with_duration None (with_statusCode None
              (with_response "" (with_loading true s))) in
  match fetches form with
  | [] => s0
  | issued => with_effects (effects s0 ++ issued) s0
  end.

(** The item the catch block of [sendRequest] records for an error. *)
Definition failureItem (form : Form.t) (error : JS.Error) : RequestData.t :=
  {| RequestData.method := Form.method form;
     RequestData.url := Form.url form;
     RequestData.headers :=
       match JSON_parse (Form.headers form) with
       | Some v => v
       | None => JObject []
       end;
     RequestData.body := Form.body form;
     RequestData.response := errorBody error;
     RequestData.statusCode := 400;
     RequestData.duration :=
       JS.Math_round (performance_catch env - performance_start env) |}.

(** The page cache agrees with the store: a cached page is the page a
    load would compute. *)
Definition cache_coherent (s : State) : Prop :=
  forall pageNum cached,
    historyCache s !! cacheKey pageNum = Some cached ->
    Cached.items cached =
      JS.Array_slice (sortedEntries (localStorage s))
        ((pageNum - 1) * ITEMS_PER_PAGE) ((pageNum - 1) * ITEMS_PER_PAGE + ITEMS_PER_PAGE)
    /\ Cached.hasMore cached =
      ((pageNum - 1) * ITEMS_PER_PAGE + ITEMS_PER_PAGE
         <? Z.of_nat (length (sortedEntries (localStorage s)))).
End Component.

(** *** The request form and the panels

    The cells of [useState] that the state above leaves out: the four
    fields of the request form and the flags of the two panels. *)
Record Panel := {
  form : Form.t;
  showHistory : bool;
  showStats : bool
}.

(** The whole component, with the calls of [window.scrollTo] it made. *)
Record Component := {
  panel : Panel;
  state : State;
  scrolls : list Scroll
}.

Definition with_form (v : Form.t) (c : Component) : Component :=
  {| panel := {| form := v; showHistory := showHistory (panel c);
                 showStats := showStats (panel c) |};
     state := state c; scrolls := scrolls c |}.

Definition setMethod (v : Method) : M Component unit :=
  modify (fun c =>
    with_form {| Form.method := v; Form.url := Form.url (form (panel c));
                 Form.headers := Form.headers (form (panel c));
                 Form.body := Form.body (form (panel c)) |} c).

Definition setUrl (v : string) : M Component unit :=
  modify (fun c =>
    with_form {| Form.method := Form.method (form (panel c)); Form.url := v;
                 Form.headers := Form.headers (form (panel c));
                 Form.body := Form.body (form (panel c)) |} c).

Definition setHeaders (v : string) : M Component unit :=
  modify (fun c =>
    with_form {| Form.method := Form.method (form (panel c));
                 Form.url := Form.url (form (panel c));
                 Form.headers := v;
                 Form.body := Form.body (form (panel c)) |} c).

Definition setBody (v : string) : M Component unit :=
  modify (fun c =>
    with_form {| Form.method := Form.method (form (panel c));
                 Form.url := Form.url (form (panel c));
                 Form.headers := Form.headers (form (panel c));
                 Form.body := v |} c).

Definition setShowHistory (v : bool) : M Component unit :=
  modify (fun c =>
    {| panel := {| form := form (panel c); showHistory := v;
                   showStats := showStats (panel c) |};
       state := state c; scrolls := scrolls c |}).

Definition setShowStats (v : bool) : M Component unit :=
  modify (fun c =>
    {| panel := {| form := form (panel c); showHistory := showHistory (panel c);
                   showStats := v |};
       state := state c; scrolls := scrolls c |}).

Definition window_scrollTo (top : Z) (behavior : string) : M Component unit :=
  modify (fun c =>
    {| panel := panel c; state := state c;
       scrolls := scrolls c ++ [{| scroll_top := top; scroll_behavior := behavior |}] |}).

(** A handler of the state above, run on the component. *)
Definition inState {A} (m : M State A) : M Component A :=
  fun c =>
    let '(r, s) := m (state c) in
    (r, {| panel := panel c; state := s; scrolls := scrolls c |}).

Section Panels.
Context `{Platform}.

Definition loadHistoryItem (item : HistoryEntry) : M Component unit :=
  setMethod (Item.method item);;
  setUrl (Item.url item);;
  setHeaders
    (match Item.headers item with
     | HeadersObject v => if truthy v then JSON_stringify_pretty v else "{}"
     | HeadersText text =>
         if truthy_string text then JSON_stringify_pretty (JString text) else "{}"
     end);;
  setBody (string_or (Item.body item) "");;
  inState (setResponse (string_or (Item.response item) ""));;
  inState (setStatusCode (Some (Item.statusCode item)));;
  inState (setDuration (Some (Item.duration item)));;
  setShowHistory false;;
  window_scrollTo 0 "smooth".

Definition insertSampleData (type : string) : M Component unit :=
  if String.eqb type "post-create" then
    setMethod POST;;
    setUrl "https://jsonplaceholder.typicode.com/posts";;
    setBody (post_json " " "New Post" "This is my post content")
  else if String.eqb type "post-get" then
    setMethod GET;;
    setUrl "https://jsonplaceholder.typicode.com/posts/1";;
    setBody ""
  else if String.eqb type "post-update" then
    setMethod PUT;;
    setUrl "https://jsonplaceholder.typicode.com/posts/1";;
    setBody (post_json " " "Updated Post" "Updated content")
  else if String.eqb type "post-delete" then
    setMethod DELETE;;
    setUrl "https://jsonplaceholder.typicode.com/posts/1";;
    setBody ""
  else if String.eqb type "users" then
    setMethod GET;;
    setUrl "https://jsonplaceholder.typicode.com/users";;
    setBody ""
  else mret tt.

(** The button of the statistics panel:
    [setShowStats(!showStats); if (!stats) loadStats()]. *)
Definition clickStats : M Component unit :=
  shown ← gets (fun c => showStats (panel c));
  setShowStats (negb shown);;
  loaded ← gets (fun c => stats (state c));
  match loaded with
  | None => inState loadStats
  | Some _ => mret tt
  end.

(** The delete button of a row: [deleteHistoryItem(item.id)]. *)
Definition clickDelete (item : HistoryEntry) : M Component unit :=
  inState (deleteHistoryItem (Item.id item)).

(** The send button: [sendRequest] reads the form from the cells. *)
Definition clickSend (env : Env) : M Component unit :=
  current ← gets (fun c => form (panel c));
  inState (sendRequest env current).

(** *** Further notions used in the statements *)

(** The item the [try] block of [sendRequest] records for an answer. *)
Definition answerItem (env : Env) (form : Form.t) (parsedHeaders : Json)
    (response : Response.t) (responseData : Json) : RequestData.t :=
  {| RequestData.method := Form.method form;
     RequestData.url := Form.url form;
     RequestData.headers := parsedHeaders;
     RequestData.body := Form.body form;
     RequestData.response :=
       match responseData with
       | JString s => s
       | v => JSON_stringify_pretty v
       end;
     RequestData.statusCode := Response.status response;
     RequestData.duration :=
       JS.Math_round (performance_end env - performance_start env) |}.

(** The sample [loadStats] aggregates: the parsed records of the last
    100 request keys. *)
Definition recentEntries (ls : Storage.t) : list HistoryEntry :=
  omap (readItem ls)
    (drop (length (getRequestKeys ls) - 100) (getRequestKeys ls)).

(** The list shows the newest [20 * page] entries of the store, and the
    flag tells whether the store holds more. *)
Definition list_current (s : State) : Prop :=
  1 <= page s
  /\ history s = take (20 * Z.to_nat (page s)) (sortedEntries (localStorage s))
  /\ hasMore s = (page s * 20 <? Z.of_nat (length (sortedEntries (localStorage s))))
  /\ isLoadingHistory s = false.

(** The statistics are those of the store as it is. *)
Definition stats_current (s : State) : Prop :=
  stats s = Some (computeStats (recentEntries (localStorage s))).
End Panels.
End Api1.

(** ** [Api.jsx]: the variant over the injected [window.storage] *)

Module Api.

(** The answer of [window.storage.list]. *)
Inductive ListReply :=
  | ListRejects (e : JS.Error)
  | ListNull
  | ListKeys.

(** What the world answers during one handler call. *)
Record Env := {
  Date_now : Z;
  new_Date : Z;
  performance_start : Q;
  performance_end : Q;
  performance_catch : Q;
  fetch_reply : FetchReply;
  storage_list_reply : ListReply;
  storage_get_rejects : string -> bool;
  storage_set_rejects : bool;
  storage_delete_rejects : string -> bool
}.

Module Cached.
Record t := { items : list HistoryEntry; total : Z; hasMore : bool }.
End Cached.

Module RequestData.
Record t := {
  method : Method;
  url : string;
  headers : string;
  body : string;
  response : string;
  statusCode : Z;
  duration : Z;
  timestamp : Z
}.
End RequestData.

Record State := {
  storage : Storage.t;
  historyCache : gmap string Cached.t;
  history : list HistoryEntry;
  page : Z;
  isLoadingHistory : bool;
  totalCount : Z;
  hasMore : bool;
  response : string;
  statusCode : option Z;
  duration : option Z;
  loading : bool;
  effects : list Effect
}.

Definition with_storage (v : Storage.t) (s : State) : State :=
  {| storage := v; historyCache := historyCache s; history := history s;
     page := page s; isLoadingHistory := isLoadingHistory s;
     totalCount := totalCount s; hasMore := hasMore s;
     response := response s; statusCode := statusCode s;
     duration := duration s; loading := loading s; effects := effects s |}.

Definition with_historyCache (v : gmap string Cached.t) (s : State) : State :=
  {| storage := storage s; historyCache := v; history := history s;
     page := page s; isLoadingHistory := isLoadingHistory s;
     totalCount := totalCount s; hasMore := hasMore s;
     response := response s; statusCode := statusCode s;
     duration := duration s; loading := loading s; effects := effects s |}.

Definition with_history (v : list HistoryEntry) (s : State) : State :=
  {| storage := storage s; historyCache := historyCache s; history := v;
     page := page s; isLoadingHistory := isLoadingHistory s;
     totalCount := totalCount s; hasMore := hasMore s;
     response := response s; statusCode := statusCode s;
     duration := duration s; loading := loading s; effects := effects s |}.

Definition with_page (v : Z) (s : State) : State :=
  {| storage := storage s; historyCache := historyCache s; history := history s;
     page := v; isLoadingHistory := isLoadingHistory s;
     totalCount := totalCount s; hasMore := hasMore s;
     response := response s; statusCode := statusCode s;
     duration := duration s; loading := loading s; effects := effects s |}.

Definition with_isLoadingHistory (v : bool) (s : State) : State :=
  {| storage := storage s; historyCache := historyCache s; history := history s;
     page := page s; isLoadingHistory := v;
     totalCount := totalCount s; hasMore := hasMore s;
     response := response s; statusCode := statusCode s;
     duration := duration s; loading := loading s; effects := effects s |}.

Definition with_totalCount (v : Z) (s : State) : State :=
  {| storage := storage s; historyCache := historyCache s; history := history s;
     page := page s; isLoadingHistory := isLoadingHistory s;
     totalCount := v; hasMore := hasMore s;
     response := response s; statusCode := statusCode s;
     duration := duration s; loading := loading s; effects := effects s |}.

Definition with_hasMore (v : bool) (s : State) : State :=
  {| storage := storage s; historyCache := historyCache s; history := history s;
     page := page s; isLoadingHistory := isLoadingHistory s;
     totalCount := totalCount s; hasMore := v;
     response := response s; statusCode := statusCode s;
     duration := duration s; loading := loading s; effects := effects s |}.

Definition with_response (v : string) (s : State) : State :=
  {| storage := storage s; historyCache := historyCache s; history := history s;
     page := page s; isLoadingHistory := isLoadingHistory s;
     totalCount := totalCount s; hasMore := hasMore s;
     response := v; statusCode := statusCode s;
     duration := duration s; loading := loading s; effects := effects s |}.

Definition with_statusCode (v : option Z) (s : State) : State :=
  {| storage := storage s; historyCache := historyCache s; history := history s;
     page := page s; isLoadingHistory := isLoadingHistory s;
     totalCount := totalCount s; hasMore := hasMore s;
     response := response s; statusCode := v;
     duration := duration s; loading := loading s; effects := effects s |}.

Definition with_duration (v : option Z) (s : State) : State :=
  {| storage := storage s; historyCache := historyCache s; history := history s;
     page := page s; isLoadingHistory := isLoadingHistory s;
     totalCount := totalCount s; hasMore := hasMore s;
     response := response s; statusCode := statusCode s;
     duration := v; loading := loading s; effects := effects s |}.

Definition with_loading (v : bool) (s : State) : State :=
  {| storage := storage s; historyCache := historyCache s; history := history s;
     page := page s; isLoadingHistory := isLoadingHistory s;
     totalCount := totalCount s; hasMore := hasMore s;
     response := response s; statusCode := statusCode s;
     duration := duration s; loading := v; effects := effects s |}.

Definition with_effects (v : list Effect) (s : State) : State :=
  {| storage := storage s; historyCache := historyCache s; history := history s;
     page := page s; isLoadingHistory := isLoadingHistory s;
     totalCount := totalCount s; hasMore := hasMore s;
     response := response s; statusCode := statusCode s;
     duration := duration s; loading := loading s; effects := v |}.

Definition initial (st : Storage.t) : State :=
  {| storage := st; historyCache := ∅; history := []; page := 1;
     isLoadingHistory := false; totalCount := 0; hasMore := false;
     response := ""; statusCode := None; duration := None;
     loading := false; effects := [] |}.

Definition setHistory (v : list HistoryEntry) : M State unit := modify (with_history v).
Definition setPage (v : Z) : M State unit := modify (with_page v).
Definition setIsLoadingHistory (v : bool) : M State unit := modify (with_isLoadingHistory v).
Definition setTotalCount (v : Z) : M State unit := modify (with_totalCount v).
Definition setHasMore (v : bool) : M State unit := modify (with_hasMore v).
Definition setResponse (v : string) : M State unit := modify (with_response v).
Definition setStatusCode (v : option Z) : M State unit := modify (with_statusCode v).
Definition setDuration (v : option Z) : M State unit := modify (with_duration v).
Definition setLoading (v : bool) : M State unit := modify (with_loading v).

Definition emit (e : Effect) : M State unit :=
  modify (fun s => with_effects (effects s ++ [e]) s).

Definition console_error (label : string) : M State unit := emit (ConsoleError label).

Definition historyCache_clear : M State unit := modify (with_historyCache ∅).

Definition ITEMS_PER_PAGE : Z := 20.

Definition cacheKey (pageNum : Z) : string := "page_" +:+ pretty pageNum.

(** [Promise.all(ps)]: every promise has been started, so the effects of
    all of them take place; the result rejects with the first rejection. *)
Fixpoint Promise_all {A} (ps : list (M State A)) : M State (list A) :=
  fun s =>
    match ps with
    | [] => (Normal [], s)
    | p :: ps' =>
        let '(r, s1) := p s in
        let '(rs, s2) := Promise_all ps' s1 in
        (match r, rs with
         | Throw e, _ => Throw e
         | Normal _, Throw e => Throw e
         | Normal a, Normal l => Normal (a :: l)
         end, s2)
    end.

Section Component.
Context `{Platform}.
Variable env : Env.

(** The collaborator [window.storage]: [list] answers with the keys
    that begin with the prefix, and each operation may reject. *)
Definition storage_list (prefix : string) : M State (option (list string)) :=
  match storage_list_reply env with
  | ListRejects e => throw e
  | ListNull => mret None
  | ListKeys =>
      keys ← gets (fun s =>
        List.filter (fun key => JS.String_startsWith key prefix) (Storage.keys (storage s)));
      mret (Some keys)
  end.

Definition storage_error (op : string) : JS.Error :=
  {| JS.name := "Error"; JS.message := op |}.

Definition storage_set (key value : string) : M State unit :=
  emit (StorageSet key value);;
  if storage_set_rejects env then throw (storage_error "set")
  else modify (fun s => with_storage (Storage.setItem key value (storage s)) s).

Definition storage_delete (key : string) : M State unit :=
  emit (StorageDelete key);;
  if storage_delete_rejects env key then throw (storage_error "delete")
  else modify (fun s => with_storage (Storage.removeItem key (storage s)) s).

(** The body of the [result.keys.map] callback: a rejected read, an
    absent record and a record that does not parse all yield [null]. *)
Definition readItem (st : Storage.t) (key : string) : option HistoryEntry :=
  if storage_get_rejects env key then None
  else match Storage.getItem key st with
       | Some value => JSON_parse_entry value
       | None => None
       end.

Definition loadHistory (pageNum : Z) (append : bool) : M State unit :=
  cache ← gets historyCache;
  match cache !! cacheKey pageNum, append with
  | Some cached, false =>
      setHistory (Cached.items cached);;
      setTotalCount (Cached.total cached);;
      setHasMore (Cached.hasMore cached)
  | _, _ =>
      setIsLoadingHistory true;;
      try_finally
        (try_catch
           (result ← storage_list "request:";
            match result with
            | Some keys =>
                historyData ← gets (fun s => map (readItem (storage s)) keys);
                let sorted := JS.Array_sort newest_first (omap id historyData) in
                setTotalCount (Z.of_nat (length sorted));;
                let startIndex := (pageNum - 1) * ITEMS_PER_PAGE in
                let endIndex := startIndex + ITEMS_PER_PAGE in
                let paginatedItems := JS.Array_slice sorted startIndex endIndex in
                let hasMoreItems := endIndex <? Z.of_nat (length sorted) in
                modify (fun s =>
                  with_historyCache
                    (<[cacheKey pageNum :=
                        {| Cached.items := paginatedItems;
                           Cached.total := Z.of_nat (length sorted);
                           Cached.hasMore := hasMoreItems |}]>
                       (historyCache s)) s);;
                (if append && (1 <? pageNum)
                 then modify (fun s => with_history (history s ++ paginatedItems) s)
                 else setHistory paginatedItems);;
                setHasMore hasMoreItems
            | None => mret tt
            end)
           (fun error =>
              console_error "Failed to load history:";;
              setHistory []))
        (setIsLoadingHistory false)
  end.

(** [{ ...requestData, id: timestamp }]. *)
Definition itemWithId (requestData : RequestData.t) (timestamp : Z) : HistoryEntry :=
  {| Item.method := RequestData.method requestData;
     Item.url := RequestData.url requestData;
     Item.headers := HeadersText (RequestData.headers requestData);
     Item.body := RequestData.body requestData;
     Item.response := RequestData.response requestData;
     Item.statusCode := RequestData.statusCode requestData;
     Item.duration := RequestData.duration requestData;
     Item.timestamp := RequestData.timestamp requestData;
     Item.id := timestamp |}.

Definition saveToHistory (requestData : RequestData.t) : M State unit :=
  try_catch
    (let timestamp := Date_now env in
     let id := "request:" +:+ pretty timestamp in
     storage_set id (JSON_stringify_entry (itemWithId requestData timestamp));;
     historyCache_clear;;
     setPage 1;;
     loadHistory 1 false)
    (fun error => console_error "Failed to save history:").

Definition validate (form : Form.t) : Completion (Json * Json) :=
  match JSON_parse (Form.headers form) with
  | None => Throw (JS.new_Error "Invalid JSON in headers")
  | Some parsedHeaders =>
      match
        (if truthy_string (String_trim (Form.body form)) && has_body (Form.method form)
         then match JSON_parse (Form.body form) with
              | None => Throw (JS.new_Error "Invalid JSON in body")
              | Some v => Normal v
              end
         else Normal JNull)
      with
      | Throw e => Throw e
      | Normal parsedBody =>
          if negb (truthy_string (String_trim (Form.url form)))
          then Throw (JS.new_Error "URL is required")
          else if negb (URL_valid (Form.url form))
          then Throw (JS.new_Error "Invalid URL format")
          else Normal (parsedHeaders, parsedBody)
      end
  end.

(** The options handed to [fetch]: the body is sent for POST, PUT and
    PATCH when the parsed body is truthy. *)
Definition fetchOptionsOf (form : Form.t) (parsedHeaders parsedBody : Json) : FetchOptions :=
  {| fetch_method := Form.method form;
     fetch_headers := parsedHeaders;
     fetch_body :=
       if truthy parsedBody && has_body (Form.method form)
       then Some (JSON_stringify parsedBody) else None |}.

(** Reading the response by its declared content type: [response.json()]
    for a JSON type, [response.text()] otherwise. *)
Definition readBody (response : Response.t) : Completion Json :=
  match Response.content_type response with
  | Some contentType =>
      if truthy_string contentType && JS.String_includes contentType "application/json"
      then Response.json response
      else match Response.text response with
           | Normal text => Normal (JString text)
           | Throw e => Throw e
           end
  | None =>
      match Response.text response with
      | Normal text => Normal (JString text)
      | Throw e => Throw e
      end
  end.

(** The body shown and recorded for a failure:
    [JSON.stringify({ error, details, type }, null, 2)]. *)
Definition errorBody (error : JS.Error) : string :=
  JSON_stringify_pretty
    (JObject [("error", JString (JS.message error));
              ("details", JString "Request failed. Check console for details.");
              ("type", JString (JS.name error))]).

Definition fetch (url : string) (options : FetchOptions) : M State Response.t :=
  emit (Fetch url options);;
  match fetch_reply env with
  | FetchRejects e => throw e
  | FetchResolves r => mret r
  end.

Definition sendRequest (form : Form.t) : M State unit :=
  setLoading true;;
  setResponse "";;
  setStatusCode None;;
  setDuration None;;
  let startTime := performance_start env in
  try_finally
    (try_catch
       ('(parsedHeaders, parsedBody) ← lift (validate form);
        let fetchOptions := fetchOptionsOf form parsedHeaders parsedBody in
        response ← fetch (Form.url form) fetchOptions;
        let endTime := performance_end env in
        let requestDuration := JS.Math_round (endTime - startTime) in
        responseData ← lift (readBody response);
        let formattedResponse :=
          match responseData with
          | JString s => s
          | v => JSON_stringify_pretty v
          end in
        setResponse formattedResponse;;
        setStatusCode (Some (Response.status response));;
        setDuration (Some requestDuration);;
        saveToHistory
          {| RequestData.method := Form.method form;
             RequestData.url := Form.url form;
             RequestData.headers := Form.headers form;
             RequestData.body := Form.body form;
             RequestData.response := formattedResponse;
             RequestData.statusCode := Response.status response;
             RequestData.duration := requestDuration;
             RequestData.timestamp := new_Date env |})
       (fun error =>
          let endTime := performance_catch env in
          let requestDuration := JS.Math_round (endTime - startTime) in
          let errorResponse := errorBody error in
          setResponse errorResponse;;
          setStatusCode
            (Some (if JS.String_includes (JS.message error) "CORS" then 0 else 400));;
          setDuration (Some requestDuration);;
          saveToHistory
            {| RequestData.method := Form.method form;
               RequestData.url := Form.url form;
               RequestData.headers := Form.headers form;
               RequestData.body := Form.body form;
               RequestData.response := errorResponse;
               RequestData.statusCode := 400;
               RequestData.duration := requestDuration;
               RequestData.timestamp := new_Date env |}))
    (setLoading false).

Definition deleteHistoryItem (id : Z) : M State unit :=
  try_catch
    (let key := "request:" +:+ pretty id in
     storage_delete key;;
     historyCache_clear;;
     setPage 1;;
     loadHistory 1 false)
    (fun error => console_error "Failed to delete:").

Definition clearAllHistory : M State unit :=
  try_catch
    (result ← storage_list "request:";
     match result with
     | Some keys => Promise_all (map storage_delete keys);; mret tt
     | None => mret tt
     end;;
     historyCache_clear;;
     setHistory [];;
     setTotalCount 0;;
     setPage 1;;
     setHasMore false)
    (fun error => console_error "Failed to clear history:").

Definition refreshHistory : M State unit :=
  historyCache_clear;;
  setPage 1;;
  loadHistory 1 false.

Definition mount : M State unit := loadHistory 1 false.

Definition observerCallback (isIntersecting : bool) : M State unit :=
  installed ← gets (fun s => hasMore s && negb (isLoadingHistory s));
  more ← gets hasMore;
  current ← gets page;
  if installed && isIntersecting && more then
    let nextPage := current + 1 in
    setPage nextPage;;
    loadHistory nextPage true
  else mret tt.

(** *** Notions used in the statements *)

(** The error the [try] block of [sendRequest] throws, if any: from the
    validation, from [fetch], or from reading the response. *)
Definition thrown (form : Form.t) : option JS.Error :=
  match validate form with
  | Throw e => Some e
  | Normal _ =>
      match fetch_reply env with
      | FetchRejects e => Some e
      | FetchResolves response =>
          match readBody response with
          | Throw e => Some e
          | Normal _ => None
          end
      end
  end.

(** The network calls a send issues: one when the validation passes. *)
Definition fetches (form : Form.t) : list Effect :=
  match validate form with
  | Throw _ => []
  | Normal (parsedHeaders, parsedBody) =>
      [Fetch (Form.url form) (fetchOptionsOf form parsedHeaders parsedBody)]
  end.

(** The state in which the [catch] block of [sendRequest] starts: the
    response panel is reset and the network call, if any, has been issued. *)
Definition before_catch (form : Form.t) (s : State) : State :=
  let s0 := with_duration None (with_statusCode None
              (with_response "" (with_loading true s))) in
  match fetches form with
  | [] => s0
  | issued => with_effects (effects s0 ++ issued) s0
  end.

(** The item the catch block of [sendRequest] records for an error. *)
Definition failureItem (form : Form.t) (error : JS.Error) : RequestData.t :=
  {| RequestData.method := Form.method form;
     RequestData.url := Form.url form;
     RequestData.headers := Form.headers form;
     RequestData.body := Form.body form;
     RequestData.response := errorBody error;
     RequestData.statusCode := 400;
     RequestData.duration :=
       JS.Math_round (performance_catch env - performance_start env);
     RequestData.timestamp := new_Date env |}.

(** The store after the deletions of [clearAllHistory]: every key whose
    deletion is not rejected is gone. *)
Definition delete_all (keys : list string) (st : Storage.t) : Storage.t :=
  foldl (fun st key =>
           if storage_delete_rejects env key then st else Storage.removeItem key st)
    st keys.

(** Whether [clearAllHistory] reaches the statements after the deletions:
    the listing is not rejected and no deletion is. *)
Definition clear_completes (st : Storage.t) : bool :=
  match storage_list_reply env with
  | ListRejects _ => false
  | ListNull => true
  | ListKeys =>
      negb (existsb (storage_delete_rejects env)
              (List.filter (fun key => JS.String_startsWith key "request:") (Storage.keys st)))
  end.

(** The keys [window.storage.list] answers with. *)
Definition requestKeys (st : Storage.t) : list string :=
  List.filter (fun key => JS.String_startsWith key "request:") (Storage.keys st).

(** The successfully read and parsed records of the store, in key order,
    and their arrangement by the loader's comparator. *)
Definition storedEntries (st : Storage.t) : list HistoryEntry :=
  omap (readItem st) (requestKeys st).

Definition sortedEntries (st : Storage.t) : list HistoryEntry :=
  JS.Array_sort newest_first (storedEntries st).

(** The page a load computes from a store. *)
Definition pageResult (st : Storage.t) (pageNum : Z) : Cached.t :=
  {| Cached.items :=
       JS.Array_slice (sortedEntries st)
         ((pageNum - 1) * ITEMS_PER_PAGE) ((pageNum - 1) * ITEMS_PER_PAGE + ITEMS_PER_PAGE);
     Cached.total := Z.of_nat (length (sortedEntries st));
     Cached.hasMore :=
       ((pageNum - 1) * ITEMS_PER_PAGE + ITEMS_PER_PAGE <? Z.of_nat (length (sortedEntries st))) |}.

(** The page cache agrees with the store. *)
Definition cache_coherent (s : State) : Prop :=
  forall pageNum cached,
    historyCache s !! cacheKey pageNum = Some cached ->
    Cached.items cached =
      JS.Array_slice (sortedEntries (storage s))
        ((pageNum - 1) * ITEMS_PER_PAGE) ((pageNum - 1) * ITEMS_PER_PAGE + ITEMS_PER_PAGE)
    /\ Cached.total cached = Z.of_nat (length (sortedEntries (storage s)))
    /\ Cached.hasMore cached =
      ((pageNum - 1) * ITEMS_PER_PAGE + ITEMS_PER_PAGE
         <? Z.of_nat (length (sortedEntries (storage s)))).
End Component.

(** *** The request form and the history panel *)

Record Panel := {
  form : Form.t;
  showHistory : bool
}.

Record Component := {
  panel : Panel;
  state : State;
  scrolls : list Scroll
}.

Definition with_form (v : Form.t) (c : Component) : Component :=
  {| panel := {| form := v; showHistory := showHistory (panel c) |};
     state := state c; scrolls := scrolls c |}.

Definition setMethod (v : Method) : M Component unit :=
  modify (fun c =>
    with_form {| Form.method := v; Form.url := Form.url (form (panel c));
                 Form.headers := Form.headers (form (panel c));
                 Form.body := Form.body (form (panel c)) |} c).

Definition setUrl (v : string) : M Component unit :=
  modify (fun c =>
    with_form {| Form.method := Form.method (form (panel c)); Form.url := v;
                 Form.headers := Form.headers (form (panel c));
                 Form.body := Form.body (form (panel c)) |} c).

Definition setHeaders (v : string) : M Component unit :=
  modify (fun c =>
    with_form {| Form.method := Form.method (form (panel c));
                 Form.url := Form.url (form (panel c));
                 Form.headers := v;
                 Form.body := Form.body (form (panel c)) |} c).

Definition setBody (v : string) : M Component unit :=
  modify (fun c =>
    with_form {| Form.method := Form.method (form (panel c));
                 Form.url := Form.url (form (panel c));
                 Form.headers := Form.headers (form (panel c));
                 Form.body := v |} c).

Definition setShowHistory (v : bool) : M Component unit :=
  modify (fun c =>
    {| panel := {| form := form (panel c); showHistory := v |};
       state := state c; scrolls := scrolls c |}).

Definition window_scrollTo (top : Z) (behavior : string) : M Component unit :=
  modify (fun c =>
    {| panel := panel c; state := state c;
       scrolls := scrolls c ++ [{| scroll_top := top; scroll_behavior := behavior |}] |}).

Definition inState {A} (m : M State A) : M Component A :=
  fun c =>
    let '(r, s) := m (state c) in
    (r, {| panel := panel c; state := s; scrolls := scrolls c |}).

(** [item.headers || '{}'] as the text of the headers cell. [sendRequest]
    records the text of the form field; for a record that holds a truthy
    object there, which this file does not write, the cell would hold the
    object itself, and no text stands for that. *)
Definition headers_or_default (h : Headers) : option string :=
  match h with
  | HeadersText text => Some (string_or text "{}")
  | HeadersObject v => if truthy v then None else Some "{}"
  end.

Definition loadHistoryItem (item : HistoryEntry) : option (M Component unit) :=
  headers ← headers_or_default (Item.headers item);
  Some
    (setMethod (Item.method item);;
     setUrl (Item.url item);;
     setHeaders headers;;
     setBody (string_or (Item.body item) "");;
     inState (setResponse (string_or (Item.response item) ""));;
     inState (setStatusCode (Some (Item.statusCode item)));;
     inState (setDuration (Some (Item.duration item)));;
     setShowHistory false;;
     window_scrollTo 0 "smooth").

Definition insertSampleData (type : string) : M Component unit :=
  if String.eqb type "post-create" then
    setMethod POST;;
    setUrl "https://jsonplaceholder.typicode.com/posts";;
    setBody (post_json "  " "New Post" "This is my post content")
  else if String.eqb type "post-get" then
    setMethod GET;;
    setUrl "https://jsonplaceholder.typicode.com/posts/1";;
    setBody ""
  else if String.eqb type "post-update" then
    setMethod PUT;;
    setUrl "https://jsonplaceholder.typicode.com/posts/1";;
    setBody (post_json "  " "Updated Post" "Updated content")
  else if String.eqb type "post-delete" then
    setMethod DELETE;;
    setUrl "https://jsonplaceholder.typicode.com/posts/1";;
    setBody ""
  else if String.eqb type "users" then
    setMethod GET;;
    setUrl "https://jsonplaceholder.typicode.com/users";;
    setBody ""
  else mret tt.

Section Panels.
Context `{Platform}.
Variable env : Env.

(** The delete button of a row: [deleteHistoryItem(item.id)]. *)
Definition clickDelete (item : HistoryEntry) : M Component unit :=
  inState (deleteHistoryItem env (Item.id item)).

(** The send button: [sendRequest] reads the form from the cells. *)
Definition clickSend : M Component unit :=
  current ← gets (fun c => form (panel c));
  inState (sendRequest env current).

(** *** Further notions used in the statements *)

(** The item the [try] block of [sendRequest] records for an answer. *)
Definition answerItem (form : Form.t) (response : Response.t) (responseData : Json)
    : RequestData.t :=
  {| RequestData.method := Form.method form;
     RequestData.url := Form.url form;
     RequestData.headers := Form.headers form;
     RequestData.body := Form.body form;
     RequestData.response :=
       match responseData with
       | JString s => s
       | v => JSON_stringify_pretty v
       end;
     RequestData.statusCode := Response.status response;
     RequestData.duration :=
       JS.Math_round (performance_end env - performance_start env);
     RequestData.timestamp := new_Date env |}.

(** The state after the deletions of [clearAllHistory], each started
    whatever the others do. *)
Definition deletions (keys : list string) (s : State) : State :=
  foldl (fun s key => snd (storage_delete env key s)) s keys.

(** The list shows the newest [20 * page] entries of the store, with
    their number, and the flag tells whether the store holds more. *)
Definition list_current (s : State) : Prop :=
  1 <= page s
  /\ history s = take (20 * Z.to_nat (page s)) (sortedEntries env (storage s))
  /\ hasMore s = (page s * 20 <? Z.of_nat (length (sortedEntries env (storage s))))
  /\ totalCount s = Z.of_nat (length (sortedEntries env (storage s)))
  /\ isLoadingHistory s = false.

(** Every record that reads as an entry is stored under the key made
    from the entry's own [id]. *)
Definition keyed_by_id (st : Storage.t) : Prop :=
  forall key e,
    key ∈ requestKeys st -> readItem env st key = Some e ->
    key = "request:" +:+ pretty (Item.id e).
End Panels.
End Api.

(** ** Notions shared by the statements *)

(** [shown] is the first page of [stored], newest first: the first 20
    elements, or all of them when there are fewer, of an arrangement of
    [stored] in which no element is followed by a newer one. *)
Definition newest_first_page (stored shown : list HistoryEntry) : Prop :=
  exists rest,
    Permutation (shown ++ rest) stored
    /\ StronglySorted (descending Item.timestamp) (shown ++ rest)
    /\ length shown = Nat.min 20 (length stored).

(** A key is reserved for history records. *)
Definition reserved (key : string) : bool := JS.String_startsWith key "request:".

(** The bindings of a store outside the reserved keys. *)
Definition unreserved (st : Storage.t) : Storage.t :=
  List.filter (fun kv => negb (reserved (fst kv))) st.

(** Network calls and store writes among the effects. *)
Definition is_fetch (e : Effect) : bool :=
  match e with Fetch _ _ => true | _ => false end.

Definition is_storage_set (e : Effect) : bool :=
  match e with StorageSet _ _ => true | _ => false end.

(** The number of entries that carry a method, the sum of the durations,
    and the count an object of counters holds for a method. *)
Definition method_count (m : Method) (l : list HistoryEntry) : Z :=
  Z.of_nat (length (List.filter (fun e => bool_decide (Item.method e = m)) l)).

Definition total_duration (l : list HistoryEntry) : Z :=
  foldr (fun e acc => Item.duration e + acc) 0 l.

Fixpoint lookup_count (m : Method) (acc : list (Method * Z)) : Z :=
  match acc with
  | [] => 0
  | (m', c) :: acc' => if decide (m' = m) then c else lookup_count m acc'
  end.

(** The counters a fold has built agree with the entries it has seen. *)
Definition counts_agree (acc : list (Method * Z)) (l : list HistoryEntry) : Prop :=
  NoDup (map fst acc)
  /\ (forall m, lookup_count m acc = method_count m l)
  /\ (forall m, m ∈ map fst acc -> 0 < lookup_count m acc).

(** The entry of [methodStats] for a counter. *)
Definition mkStat (p : Method * Z) : Stats.MethodStat :=
  let '(method, count) := p in {| Stats.method := method; Stats.count := count |}.

(** The methods of a list of entries, each once. *)
Definition distinct_methods (l : list HistoryEntry) : list Method :=
  remove_dups (map Item.method l).

(** ** A test double of the platform, and sample data *)

Definition sample_entry (ts status dur : Z) : HistoryEntry :=
  {| Item.method := if ts mod 2000 =? 0 then POST else GET;
     Item.url := "https://example.test/ok";
     Item.headers := HeadersText "{}"; Item.body := ""; Item.response := "ok";
     Item.statusCode := status; Item.duration := dur; Item.timestamp := ts; Item.id := ts |}.

(** The value of a non-empty string of decimal digits. *)
Fixpoint digits_value (acc : Z) (text : string) : option Z :=
  match text with
  | EmptyString => Some acc
  | String c text' =>
      let d := Z.of_N (N_of_ascii c) - 48 in
      if (0 <=? d) && (d <=? 9) then digits_value (10 * acc + d) text' else None
  end.

Definition number_value (text : string) : option Z :=
  if truthy_string text then digits_value 0 text else None.

(** The fields of a text, separated by colons. *)
Fixpoint split_colon (text : string) : list string :=
  match text with
  | EmptyString => [EmptyString]
  | String c rest =>
      if Ascii.eqb c ":" then EmptyString :: split_colon rest
      else match split_colon rest with
           | field :: fields => String c field :: fields
           | [] => [String c EmptyString]
           end
  end.

(** The double writes a record as [entry:<timestamp>:<status>:<duration>]
    and reads it back; any other text does not parse. *)
Definition sample_stringify_entry (e : HistoryEntry) : string :=
  "entry:" +:+ pretty (Item.timestamp e) +:+ ":" +:+ pretty (Item.statusCode e)
  +:+ ":" +:+ pretty (Item.duration e).

Definition sample_parse_entry (text : string) : option HistoryEntry :=
  match split_colon text with
  | [tag; ts; status; dur] =>
      if String.eqb tag "entry" then
        match number_value ts, number_value status, number_value dur with
        | Some ts, Some status, Some dur => Some (sample_entry ts status dur)
        | _, _, _ => None
        end
      else None
  | _ => None
  end.

Definition sample_platform : Platform :=
  {| JSON_parse := fun text => if String.eqb text "{}" then Some (JObject []) else None;
     JSON_stringify := fun _ => "{}";
     JSON_stringify_pretty := fun _ => "{}";
     JSON_parse_entry := sample_parse_entry;
     JSON_stringify_entry := sample_stringify_entry;
     String_trim := fun text => text;
     URL_valid := fun text => String.prefix "https://" text |}.

(** Three records, one damaged record and one foreign key. *)
Definition sample_store : Storage.t :=
  [("request:1000", "entry:1000:200:100"); ("theme", "dark"); ("request:1500", "{truncated");
   ("request:3000", "entry:3000:404:300"); ("request:2000", "entry:2000:200:200")].

(** [n] records, numbered in the order of their keys. *)
Definition sample_records (n : nat) : Storage.t :=
  map (fun i => ("request:" +:+ pretty (Z.of_nat i),
                 sample_stringify_entry (sample_entry (Z.of_nat i) 200 (Z.of_nat i))))
    (seq 1 n).

Definition sample_long_store : Storage.t := sample_records 45.

Definition sample_response : Response.t :=
  {| Response.status := 200; Response.content_type := Some "text/plain";
     Response.json := Throw (JS.new_Error "Unexpected token"); Response.text := Normal "ok" |}.

(** A request whose headers do not parse, and a well-formed one. *)
Definition sample_bad_form : Form.t :=
  {| Form.method := GET; Form.url := "https://example.test/ok";
     Form.headers := "{bad json"; Form.body := "" |}.

Definition sample_form : Form.t :=
  {| Form.method := GET; Form.url := "https://example.test/ok";
     Form.headers := "{}"; Form.body := "" |}.

(** A world without failures. *)
Definition sample_env1 : Api1.Env :=
  {| Api1.Date_now := 5000; Api1.new_Date := 5000;
     Api1.performance_start := 10 # 1; Api1.performance_end := 52 # 1;
     Api1.performance_catch := 25 # 2;
     Api1.fetch_reply := FetchResolves sample_response;
     Api1.setItem_throws := false |}.


Definition sample_request : Api.RequestData.t :=
  {| Api.RequestData.method := GET; Api.RequestData.url := "https://example.test/ok";
     Api.RequestData.headers := "{}"; Api.RequestData.body := "";
     Api.RequestData.response := "ok"; Api.RequestData.statusCode := 200;
     Api.RequestData.duration := 42; Api.RequestData.timestamp := 5000 |}.

Definition sample_request1 : Api1.RequestData.t :=
  {| Api1.RequestData.method := GET; Api1.RequestData.url := "https://example.test/ok";
     Api1.RequestData.headers := JObject []; Api1.RequestData.body := "";
     Api1.RequestData.response := "ok"; Api1.RequestData.statusCode := 200;
     Api1.RequestData.duration := 42 |}.

(** The network is down: [fetch] rejects with a [TypeError]. *)
Definition sample_network_error : JS.Error :=
  {| JS.name := "TypeError"; JS.message := "Failed to fetch" |}.

Definition sample_offline1 : Api1.Env :=
  {| Api1.Date_now := 5000; Api1.new_Date := 5000;
     Api1.performance_start := 10 # 1; Api1.performance_end := 52 # 1;
     Api1.performance_catch := 25 # 2;
     Api1.fetch_reply := FetchRejects sample_network_error;
     Api1.setItem_throws := false |}.

Definition sample_offline : Api.Env :=
  {| Api.Date_now := 5000; Api.new_Date := 5000;
     Api.performance_start := 10 # 1; Api.performance_end := 52 # 1;
     Api.performance_catch := 25 # 2;
     Api.fetch_reply := FetchRejects sample_network_error;
     Api.storage_list_reply := Api.ListKeys;
     Api.storage_get_rejects := fun _ => false;
     Api.storage_set_rejects := false;
     Api.storage_delete_rejects := fun _ => false |}.

Definition sample_env : Api.Env :=
  {| Api.Date_now := 5000; Api.new_Date := 5000;
     Api.performance_start := 10 # 1; Api.performance_end := 52 # 1;
     Api.performance_catch := 25 # 2;
     Api.fetch_reply := FetchResolves sample_response;
     Api.storage_list_reply := Api.ListKeys;
     Api.storage_get_rejects := fun _ => false;
     Api.storage_set_rejects := false;
     Api.storage_delete_rejects := fun _ => false |}.

(** A request with a body. *)
Definition sample_post_form : Form.t :=
  {| Form.method := POST; Form.url := "https://example.test/ok";
     Form.headers := "{}"; Form.body := "{}" |}.

(** A second outcome, of a request that was not found. *)
Definition sample_missing : Api.RequestData.t :=
  {| Api.RequestData.method := GET; Api.RequestData.url := "https://example.test/ok";
     Api.RequestData.headers := "{}"; Api.RequestData.body := "";
     Api.RequestData.response := "ok"; Api.RequestData.statusCode := 404;
     Api.RequestData.duration := 7; Api.RequestData.timestamp := 5000 |}.

Definition sample_missing1 : Api1.RequestData.t :=
  {| Api1.RequestData.method := GET; Api1.RequestData.url := "https://example.test/ok";
     Api1.RequestData.headers := JObject []; Api1.RequestData.body := "";
     Api1.RequestData.response := "ok"; Api1.RequestData.statusCode := 404;
     Api1.RequestData.duration := 7 |}.

(** The store is full: it refuses every write. *)
Definition sample_full1 : Api1.Env :=
  {| Api1.Date_now := 5000; Api1.new_Date := 5000;
     Api1.performance_start := 10 # 1; Api1.performance_end := 52 # 1;
     Api1.performance_catch := 25 # 2;
     Api1.fetch_reply := FetchResolves sample_response;
     Api1.setItem_throws := true |}.

Definition sample_full : Api.Env :=
  {| Api.Date_now := 5000; Api.new_Date := 5000;
     Api.performance_start := 10 # 1; Api.performance_end := 52 # 1;
     Api.performance_catch := 25 # 2;
     Api.fetch_reply := FetchResolves sample_response;
     Api.storage_list_reply := Api.ListKeys;
     Api.storage_get_rejects := fun _ => false;
     Api.storage_set_rejects := true;
     Api.storage_delete_rejects := fun _ => false |}.

(** The store rejects the deletion of one record. *)
Definition sample_locked : Api.Env :=
  {| Api.Date_now := 5000; Api.new_Date := 5000;
     Api.performance_start := 10 # 1; Api.performance_end := 52 # 1;
     Api.performance_catch := 25 # 2;
     Api.fetch_reply := FetchResolves sample_response;
     Api.storage_list_reply := Api.ListKeys;
     Api.storage_get_rejects := fun _ => false;
     Api.storage_set_rejects := false;
     Api.storage_delete_rejects := fun key => String.eqb key "request:2000" |}.

(** The components after the mount, with the history panel open. *)
Definition sample_component1 : Api1.Component :=
  {| Api1.panel :=
       {| Api1.form := sample_form; Api1.showHistory := true; Api1.showStats := false |};
     Api1.state := exec (Api1.mount (H := sample_platform)) (Api1.initial sample_store);
     Api1.scrolls := [] |}.

Definition sample_component : Api.Component :=
  {| Api.panel := {| Api.form := sample_form; Api.showHistory := true |};
     Api.state := exec (Api.mount (H := sample_platform) sample_env) (Api.initial sample_store);
     Api.scrolls := [] |}.




(** * Verification *)

(** ** Facts about the built-ins *)

Section ArraySort.
Context {A : Type} (comparefn : A -> A -> Z).

Lemma Array_sort_insert_perm x l :
  Permutation (JS.Array_sort_insert comparefn x l) (x :: l).
Proof.
  induction l as [|y l IH]; simpl; [reflexivity|].
  destruct (comparefn x y <=? 0); [reflexivity|].
  rewrite IH. apply perm_swap.
Qed.

Lemma Array_sort_perm l : Permutation (JS.Array_sort comparefn l) l.
Proof.
  induction l as [|x l IH]; simpl; [constructor|].
  rewrite Array_sort_insert_perm. now constructor.
Qed.

Lemma Array_sort_length l : length (JS.Array_sort comparefn l) = length l.
Proof. apply Permutation_length, Array_sort_perm. Qed.

Lemma Array_sort_nil_inv l : JS.Array_sort comparefn l = [] -> l = [].
Proof.
  intros H. apply (f_equal (@length A)) in H.
  rewrite Array_sort_length in H. now destruct l.
Qed.
End ArraySort.

(** Sorting by a numeric key in descending order. *)
Section SortDescending.
Context {A : Type} (key : A -> Z).

Local Abbreviation descending := (descending key).
Local Abbreviation by_key_desc := (by_key_desc key).

Lemma insert_desc_sorted x l :
  StronglySorted descending l ->
  StronglySorted descending (JS.Array_sort_insert by_key_desc x l).
Proof.
  induction 1 as [|y l Hs IH Hall]; simpl.
  - repeat constructor.
  - unfold by_key_desc at 1.
    destruct (Z.leb_spec (key y - key x) 0) as [Hle|Hgt].
    + constructor; [now constructor|].
      constructor; [unfold descending; lia|].
      eapply Forall_impl; [exact Hall|].
      intros z Hz. unfold descending in *. lia.
    + constructor; [exact IH|].
      eapply Permutation_Forall; [symmetry; apply Array_sort_insert_perm|].
      constructor; [unfold descending; lia|exact Hall].
Qed.

Lemma Array_sort_desc_sorted l :
  StronglySorted descending (JS.Array_sort by_key_desc l).
Proof.
  induction l as [|x l IH]; simpl; [constructor|].
  now apply insert_desc_sorted.
Qed.

Lemma StronglySorted_take n (l : list A) :
  StronglySorted descending l -> StronglySorted descending (take n l).
Proof.
  intros Hs. revert n. induction Hs as [|x l Hs IH Hall]; intros [|n]; simpl;
    try constructor; auto.
  apply Forall_forall. intros y Hy.
  rewrite Forall_forall in Hall. apply Hall.
  now apply (subseteq_take n l).
Qed.

Lemma StronglySorted_drop n (l : list A) :
  StronglySorted descending l -> StronglySorted descending (drop n l).
Proof.
  intros Hs. revert n. induction Hs as [|x l Hs IH Hall]; intros [|n]; simpl;
    try constructor; auto.
Qed.

Lemma StronglySorted_split n (l : list A) a b :
  StronglySorted descending l ->
  a ∈ take n l -> b ∈ drop n l -> key b <= key a.
Proof.
  intros Hs Ha Hb.
  rewrite <- (take_drop n l) in Hs.
  apply (StronglySorted_app_1_elem_of descending _ _ a b Hs Ha Hb).
Qed.
End SortDescending.




(** ** Running a handler

    [eff] unfolds the effect combinators and the setters, so that a handler
    applied to a state reduces to the state it leaves. *)

Ltac eff :=
  cbv beta iota zeta delta
    [mbind M_bind mret M_ret bind ret gets modify throw lift try_catch try_finally exec
     Api1.setHistory Api1.setPage Api1.setIsLoadingHistory Api1.setTotalCount
     Api1.setHasMore Api1.setStats Api1.setResponse Api1.setStatusCode
     Api1.setDuration Api1.setLoading Api1.emit Api1.console_error
     Api1.historyCache_clear Api1.ITEMS_PER_PAGE
     Api.setHistory Api.setPage Api.setIsLoadingHistory Api.setTotalCount
     Api.setHasMore Api.setResponse Api.setStatusCode
     Api.setDuration Api.setLoading Api.emit Api.console_error
     Api.historyCache_clear Api.ITEMS_PER_PAGE Api.storage_list];
  cbn.

Lemma omap_id_map {A B} (f : A -> option B) (l : list A) : omap id (map f l) = omap f l.
Proof.
  induction l as [|x l IH]; [reflexivity|].
  cbn. destruct (f x); cbn; [f_equal|]; exact IH.
Qed.

(** ** The loader of [Api1.jsx] *)

Section Api1Loader.
Context `{Platform}.
Local Arguments Api1.getRequestKeys : simpl never.
Local Arguments JS.Array_sort : simpl never.
Local Arguments JS.Array_slice : simpl never.
Local Arguments omap : simpl never.
Local Arguments Z.mul : simpl never.
Local Arguments Z.add : simpl never.
Local Arguments Z.sub : simpl never.
Local Arguments Z.ltb : simpl never.

(** With no request key in the store the loader resets the list. *)
Lemma Api1_loadHistory_empty pageNum append s :
  append = true \/ Api1.historyCache s !! Api1.cacheKey pageNum = None ->
  Api1.getRequestKeys (Api1.localStorage s) = [] ->
  Api1.loadHistory pageNum append s =
    (Normal tt,
     Api1.with_isLoadingHistory false
       (Api1.with_hasMore false
          (Api1.with_totalCount 0
             (Api1.with_history [] (Api1.with_isLoadingHistory true s))))).
Proof.
  intros Hmiss Hkeys. unfold Api1.loadHistory. eff.
  destruct Hmiss as [-> | ->].
  - destruct (_ !! _); eff; rewrite Hkeys; reflexivity.
  - destruct append; eff; rewrite Hkeys; reflexivity.
Qed.

(** A load that does not take the cached page computes the page from the
    store, caches it and shows it. *)
Lemma Api1_loadHistory_nonempty pageNum append s :
  append = true \/ Api1.historyCache s !! Api1.cacheKey pageNum = None ->
  Api1.getRequestKeys (Api1.localStorage s) <> [] ->
  let sorted := Api1.sortedEntries (Api1.localStorage s) in
  let paginatedItems :=
    JS.Array_slice sorted ((pageNum - 1) * 20) ((pageNum - 1) * 20 + 20) in
  let hasMoreItems := ((pageNum - 1) * 20 + 20 <? Z.of_nat (length sorted)) in
  Api1.loadHistory pageNum append s =
    (Normal tt,
     Api1.with_isLoadingHistory false
       (Api1.with_hasMore hasMoreItems
          (Api1.with_history
             (if append && (1 <? pageNum) then Api1.history s ++ paginatedItems
              else paginatedItems)
             (Api1.with_historyCache
                (<[Api1.cacheKey pageNum :=
                    {| Api1.Cached.items := paginatedItems;
                       Api1.Cached.hasMore := hasMoreItems |}]> (Api1.historyCache s))
                (Api1.with_totalCount (Z.of_nat (length sorted))
                   (Api1.with_isLoadingHistory true s)))))).
Proof.
  intros Hmiss Hkeys sorted paginatedItems hasMoreItems.
  subst sorted paginatedItems hasMoreItems.
  unfold Api1.sortedEntries, Api1.storedEntries. rewrite <- omap_id_map.
  assert (Hlen : (length (Api1.getRequestKeys (Api1.localStorage s)) =? 0)%nat = false).
  { apply Nat.eqb_neq. now destruct (Api1.getRequestKeys (Api1.localStorage s)). }
  unfold Api1.loadHistory. eff.
  destruct Hmiss as [-> | ->].
  - destruct (_ !! _); eff; rewrite Hlen; eff; destruct (1 <? pageNum); reflexivity.
  - destruct append; eff; rewrite Hlen; eff; try destruct (1 <? pageNum); reflexivity.
Qed.

(** A direct load of a cached page shows the cached page. *)
Lemma Api1_loadHistory_hit pageNum s cached :
  Api1.historyCache s !! Api1.cacheKey pageNum = Some cached ->
  Api1.loadHistory pageNum false s =
    (Normal tt,
     Api1.with_hasMore (Api1.Cached.hasMore cached)
       (Api1.with_history (Api1.Cached.items cached) s)).
Proof.
  intros Hhit. unfold Api1.loadHistory. eff. rewrite Hhit. reflexivity.
Qed.
End Api1Loader.

(** ** The loader of [Api.jsx] *)

Section ApiLoader.
Context `{Platform} (env : Api.Env).
Local Arguments JS.Array_sort : simpl never.
Local Arguments JS.Array_slice : simpl never.
Local Arguments omap : simpl never.
Local Arguments List.filter : simpl never.
Local Arguments Z.mul : simpl never.
Local Arguments Z.add : simpl never.
Local Arguments Z.sub : simpl never.
Local Arguments Z.ltb : simpl never.

Lemma Api_loadHistory_miss pageNum append s :
  append = true \/ Api.historyCache s !! Api.cacheKey pageNum = None ->
  Api.storage_list_reply env = Api.ListKeys ->
  let sorted := Api.sortedEntries env (Api.storage s) in
  let paginatedItems :=
    JS.Array_slice sorted ((pageNum - 1) * 20) ((pageNum - 1) * 20 + 20) in
  let hasMoreItems := ((pageNum - 1) * 20 + 20 <? Z.of_nat (length sorted)) in
  Api.loadHistory env pageNum append s =
    (Normal tt,
     Api.with_isLoadingHistory false
       (Api.with_hasMore hasMoreItems
          (Api.with_history
             (if append && (1 <? pageNum) then Api.history s ++ paginatedItems
              else paginatedItems)
             (Api.with_historyCache
                (<[Api.cacheKey pageNum :=
                    {| Api.Cached.items := paginatedItems;
                       Api.Cached.total := Z.of_nat (length sorted);
                       Api.Cached.hasMore := hasMoreItems |}]> (Api.historyCache s))
                (Api.with_totalCount (Z.of_nat (length sorted))
                   (Api.with_isLoadingHistory true s)))))).
Proof.
  intros Hmiss Hlist sorted paginatedItems hasMoreItems.
  subst sorted paginatedItems hasMoreItems.
  unfold Api.sortedEntries, Api.storedEntries, Api.requestKeys. rewrite <- omap_id_map.
  unfold Api.loadHistory. eff. rewrite Hlist.
  destruct Hmiss as [-> | ->].
  - destruct (_ !! _); eff; destruct (1 <? pageNum); reflexivity.
  - destruct append; eff; try destruct (1 <? pageNum); reflexivity.
Qed.

(** A rejected listing is logged and empties the list. *)
Lemma Api_loadHistory_rejected pageNum append s e :
  append = true \/ Api.historyCache s !! Api.cacheKey pageNum = None ->
  Api.storage_list_reply env = Api.ListRejects e ->
  Api.loadHistory env pageNum append s =
    (Normal tt,
     Api.with_isLoadingHistory false
       (Api.with_history []
          (Api.with_effects (Api.effects s ++ [ConsoleError "Failed to load history:"])
             (Api.with_isLoadingHistory true s)))).
Proof.
  intros Hmiss Hlist. unfold Api.loadHistory. eff. rewrite Hlist.
  destruct Hmiss as [-> | ->].
  - destruct (_ !! _); eff; reflexivity.
  - destruct append; eff; reflexivity.
Qed.

(** A listing without result leaves the list as it was. *)
Lemma Api_loadHistory_null pageNum append s :
  append = true \/ Api.historyCache s !! Api.cacheKey pageNum = None ->
  Api.storage_list_reply env = Api.ListNull ->
  Api.loadHistory env pageNum append s =
    (Normal tt, Api.with_isLoadingHistory false (Api.with_isLoadingHistory true s)).
Proof.
  intros Hmiss Hlist. unfold Api.loadHistory. eff. rewrite Hlist.
  destruct Hmiss as [-> | ->].
  - destruct (_ !! _); eff; reflexivity.
  - destruct append; eff; reflexivity.
Qed.

Lemma Api_loadHistory_hit pageNum s cached :
  Api.historyCache s !! Api.cacheKey pageNum = Some cached ->
  Api.loadHistory env pageNum false s =
    (Normal tt,
     Api.with_hasMore (Api.Cached.hasMore cached)
       (Api.with_totalCount (Api.Cached.total cached)
          (Api.with_history (Api.Cached.items cached) s))).
Proof.
  intros Hhit. unfold Api.loadHistory. eff. rewrite Hhit. reflexivity.
Qed.
End ApiLoader.

(** ** Slices and pages *)

Section Slices.
Context {A : Type}.
Implicit Types l : list A.

Lemma Array_slice_nonneg l a b :
  0 <= a -> a <= b ->
  JS.Array_slice l a b = take (Z.to_nat (b - a)) (drop (Z.to_nat a) l).
Proof.
  intros Ha Hab. unfold JS.Array_slice, JS.relative_index.
  destruct (Z.ltb_spec a 0); [lia|]. destruct (Z.ltb_spec b 0); [lia|].
  destruct (Z.le_gt_cases (Z.of_nat (length l)) a) as [Hge|Hlt].
  - rewrite (Z.min_r a) by lia.
    rewrite !drop_ge by lia. now rewrite !take_nil.
  - rewrite (Z.min_l a) by lia.
    destruct (Z.le_gt_cases b (Z.of_nat (length l))) as [Hb|Hb].
    + now rewrite (Z.min_l b) by lia.
    + rewrite (Z.min_r b) by lia.
      rewrite !take_ge; [reflexivity| |]; rewrite length_drop; lia.
Qed.

Lemma Array_slice_nil a b : JS.Array_slice (@nil A) a b = [].
Proof. unfold JS.Array_slice. now rewrite drop_nil, take_nil. Qed.

(** Page [p], counted from 1, of a list cut into pages of 20. *)
Lemma Array_slice_page l p :
  1 <= p ->
  JS.Array_slice l ((p - 1) * 20) ((p - 1) * 20 + 20)
  = take 20 (drop (20 * (Z.to_nat p - 1)) l).
Proof.
  intros Hp. rewrite Array_slice_nonneg by lia.
  replace (Z.to_nat ((p - 1) * 20 + 20 - (p - 1) * 20)) with 20%nat by lia.
  now replace (Z.to_nat ((p - 1) * 20)) with (20 * (Z.to_nat p - 1))%nat by lia.
Qed.

Lemma concat_pages l n :
  concat (map (fun i => take 20 (drop (20 * i) l)) (seq 0 n)) = take (20 * n) l.
Proof.
  induction n as [|n IH].
  - now rewrite Nat.mul_0_r, take_0.
  - rewrite seq_S, map_app, concat_app, IH. simpl.
    rewrite app_nil_r, take_take_drop. f_equal. lia.
Qed.

Lemma concat_pages_Z l n :
  concat (map (fun p => JS.Array_slice l ((p - 1) * 20) ((p - 1) * 20 + 20))
            (map Z.of_nat (seq 1 n)))
  = take (20 * n) l.
Proof.
  rewrite <- concat_pages, <- seq_shift, !map_map. f_equal.
  apply map_ext. intros i. rewrite Array_slice_page by lia.
  do 2 f_equal. lia.
Qed.
End Slices.

(** ** What a load shows *)

Lemma cacheKey1_inj p q : Api1.cacheKey p = Api1.cacheKey q -> p = q.
Proof.
  unfold Api1.cacheKey. intros Heq.
  apply (inj (String.append "page_")) in Heq. now apply (inj pretty) in Heq.
Qed.

Lemma cacheKey_inj p q : Api.cacheKey p = Api.cacheKey q -> p = q.
Proof.
  unfold Api.cacheKey. intros Heq.
  apply (inj (String.append "page_")) in Heq. now apply (inj pretty) in Heq.
Qed.

Section Api1View.
Context `{Platform}.
Local Arguments JS.Array_sort : simpl never.
Local Arguments JS.Array_slice : simpl never.
Local Arguments Z.mul : simpl never.
Local Arguments Z.add : simpl never.
Local Arguments Z.sub : simpl never.
Local Arguments Z.ltb : simpl never.

Lemma Api1_sortedEntries_nil ls :
  Api1.getRequestKeys ls = [] -> Api1.sortedEntries ls = [].
Proof.
  intros Hk. unfold Api1.sortedEntries, Api1.storedEntries. now rewrite Hk.
Qed.

Lemma Api1_sorted_length ls :
  length (Api1.sortedEntries ls) = length (Api1.storedEntries ls).
Proof. apply Array_sort_length. Qed.

(** Coherence only reads the store and the cache. *)
Lemma Api1_coherent_ext s s' :
  Api1.localStorage s' = Api1.localStorage s ->
  Api1.historyCache s' = Api1.historyCache s ->
  Api1.cache_coherent s -> Api1.cache_coherent s'.
Proof.
  intros Hls Hc Hcoh p c. rewrite Hls, Hc. apply Hcoh.
Qed.

Lemma Api1_coherent_insert s s' p :
  Api1.localStorage s' = Api1.localStorage s ->
  Api1.historyCache s' =
    <[Api1.cacheKey p :=
       {| Api1.Cached.items :=
            JS.Array_slice (Api1.sortedEntries (Api1.localStorage s))
              ((p - 1) * 20) ((p - 1) * 20 + 20);
          Api1.Cached.hasMore :=
            ((p - 1) * 20 + 20 <? Z.of_nat (length (Api1.sortedEntries (Api1.localStorage s)))) |}]>
      (Api1.historyCache s) ->
  Api1.cache_coherent s -> Api1.cache_coherent s'.
Proof.
  intros Hls Hc Hcoh q c. rewrite Hls, Hc.
  destruct (decide (Api1.cacheKey p = Api1.cacheKey q)) as [Heq|Hne].
  - rewrite <- Heq, lookup_insert_eq. apply cacheKey1_inj in Heq. subst q.
    intros [= <-]. split; reflexivity.
  - rewrite lookup_insert_ne by exact Hne. apply Hcoh.
Qed.

Lemma Api1_coherent_empty s :
  Api1.historyCache s = ∅ -> Api1.cache_coherent s.
Proof. intros Hc p c. rewrite Hc, lookup_empty. discriminate. Qed.

#[local] Opaque Api1.cache_coherent.

(** What a load shows, for a state whose cache agrees with the store. *)
Lemma Api1_load_view pageNum append s :
  Api1.cache_coherent s -> 1 <= pageNum ->
  let sorted := Api1.sortedEntries (Api1.localStorage s) in
  let pageItems := JS.Array_slice sorted ((pageNum - 1) * 20) ((pageNum - 1) * 20 + 20) in
  let s' := exec (Api1.loadHistory pageNum append) s in
  fst (Api1.loadHistory pageNum append s) = Normal tt
  /\ Api1.localStorage s' = Api1.localStorage s
  /\ Api1.effects s' = Api1.effects s
  /\ Api1.page s' = Api1.page s
  /\ Api1.stats s' = Api1.stats s
  /\ Api1.isLoadingHistory s' = (if append then false else
        match Api1.historyCache s !! Api1.cacheKey pageNum with
        | Some _ => Api1.isLoadingHistory s | None => false end)
  /\ Api1.history s' =
       (if append && (1 <? pageNum) && negb (length (Api1.getRequestKeys (Api1.localStorage s)) =? 0)%nat
        then (Api1.history s ++ pageItems)%list else pageItems)
  /\ Api1.hasMore s' = (pageNum * 20 <? Z.of_nat (length sorted))
  /\ Api1.cache_coherent s'.
Proof.
  intros Hcoh Hp sorted pageItems s'. subst s' pageItems sorted. unfold exec.
  assert (Hmiss_or_hit :
    (append = true \/ Api1.historyCache s !! Api1.cacheKey pageNum = None)
    \/ (append = false /\ exists c, Api1.historyCache s !! Api1.cacheKey pageNum = Some c)).
  { destruct append; [now left; left|].
    destruct (Api1.historyCache s !! Api1.cacheKey pageNum) eqn:E; [right; eauto|now left; right]. }
  destruct Hmiss_or_hit as [Hmiss | [-> [c Hhit]]].
  - destruct (Api1.getRequestKeys (Api1.localStorage s)) as [|k ks] eqn:Hk.
    + rewrite Api1_loadHistory_empty by assumption. cbn.
      rewrite Api1_sortedEntries_nil by assumption. cbn.
      rewrite andb_false_r.
      rewrite Array_slice_nil.
      repeat split.
      * destruct Hmiss as [-> | ->]; [reflexivity|]. now destruct append.
      * symmetry. apply Z.ltb_ge. lia.
      * apply (Api1_coherent_ext s); [reflexivity|reflexivity|exact Hcoh].
    + rewrite Api1_loadHistory_nonempty by (rewrite ?Hk; congruence). cbn.
      rewrite andb_true_r.
      repeat split.
      * destruct Hmiss as [-> | ->]; [reflexivity|]. now destruct append.
      * f_equal. lia.
      * apply (Api1_coherent_insert s _ pageNum); [reflexivity|reflexivity|exact Hcoh].
  - rewrite (Api1_loadHistory_hit _ _ _ Hhit). cbn. rewrite Hhit.
    destruct (Hcoh _ _ Hhit) as [Hitems Hmore].
    unfold Api1.ITEMS_PER_PAGE in Hitems, Hmore.
    repeat split;
      lazymatch goal with
      | |- Api1.cache_coherent _ =>
          apply (Api1_coherent_ext s); [reflexivity|reflexivity|exact Hcoh]
      | |- _ = (_ <? _) => rewrite Hmore; f_equal; lia
      | |- _ => first [reflexivity | assumption]
      end.
Qed.
End Api1View.

Section ApiView.
Context `{Platform} (env : Api.Env).
Local Arguments JS.Array_sort : simpl never.
Local Arguments JS.Array_slice : simpl never.
Local Arguments Z.mul : simpl never.
Local Arguments Z.add : simpl never.
Local Arguments Z.sub : simpl never.
Local Arguments Z.ltb : simpl never.

Lemma Api_sorted_length st :
  length (Api.sortedEntries env st) = length (Api.storedEntries env st).
Proof. apply Array_sort_length. Qed.

Lemma Api_coherent_ext s s' :
  Api.storage s' = Api.storage s ->
  Api.historyCache s' = Api.historyCache s ->
  Api.cache_coherent env s -> Api.cache_coherent env s'.
Proof.
  intros Hst Hc Hcoh p c. rewrite Hst, Hc. apply Hcoh.
Qed.

Lemma Api_coherent_insert s s' p :
  Api.storage s' = Api.storage s ->
  Api.historyCache s' =
    <[Api.cacheKey p :=
       {| Api.Cached.items :=
            JS.Array_slice (Api.sortedEntries env (Api.storage s))
              ((p - 1) * 20) ((p - 1) * 20 + 20);
          Api.Cached.total := Z.of_nat (length (Api.sortedEntries env (Api.storage s)));
          Api.Cached.hasMore :=
            ((p - 1) * 20 + 20 <? Z.of_nat (length (Api.sortedEntries env (Api.storage s)))) |}]>
      (Api.historyCache s) ->
  Api.cache_coherent env s -> Api.cache_coherent env s'.
Proof.
  intros Hst Hc Hcoh q c. rewrite Hst, Hc.
  destruct (decide (Api.cacheKey p = Api.cacheKey q)) as [Heq|Hne].
  - rewrite <- Heq, lookup_insert_eq. apply cacheKey_inj in Heq. subst q.
    intros [= <-]. repeat split; reflexivity.
  - rewrite lookup_insert_ne by exact Hne. apply Hcoh.
Qed.

Lemma Api_coherent_empty s :
  Api.historyCache s = ∅ -> Api.cache_coherent env s.
Proof. intros Hc p c. rewrite Hc, lookup_empty. discriminate. Qed.

#[local] Opaque Api.cache_coherent.

(** What a load shows when the listing succeeds, for a state whose cache
    agrees with the store. *)
Lemma Api_load_view pageNum append s :
  Api.cache_coherent env s ->
  Api.storage_list_reply env = Api.ListKeys ->
  let sorted := Api.sortedEntries env (Api.storage s) in
  let pageItems := JS.Array_slice sorted ((pageNum - 1) * 20) ((pageNum - 1) * 20 + 20) in
  let s' := exec (Api.loadHistory env pageNum append) s in
  fst (Api.loadHistory env pageNum append s) = Normal tt
  /\ Api.storage s' = Api.storage s
  /\ Api.effects s' = Api.effects s
  /\ Api.page s' = Api.page s
  /\ Api.isLoadingHistory s' = (if append then false else
        match Api.historyCache s !! Api.cacheKey pageNum with
        | Some _ => Api.isLoadingHistory s | None => false end)
  /\ Api.history s' =
       (if append && (1 <? pageNum) then (Api.history s ++ pageItems)%list else pageItems)
  /\ Api.hasMore s' = (pageNum * 20 <? Z.of_nat (length sorted))
  /\ Api.totalCount s' = Z.of_nat (length sorted)
  /\ Api.cache_coherent env s'.
Proof.
  intros Hcoh Hlist sorted pageItems s'. subst s' pageItems sorted. unfold exec.
  assert (Hmiss_or_hit :
    (append = true \/ Api.historyCache s !! Api.cacheKey pageNum = None)
    \/ (append = false /\ exists c, Api.historyCache s !! Api.cacheKey pageNum = Some c)).
  { destruct append; [now left; left|].
    destruct (Api.historyCache s !! Api.cacheKey pageNum) eqn:E; [right; eauto|now left; right]. }
  destruct Hmiss_or_hit as [Hmiss | [-> [c Hhit]]].
  - rewrite Api_loadHistory_miss by assumption. cbn.
    repeat split;
      lazymatch goal with
      | |- Api.cache_coherent _ _ =>
          apply (Api_coherent_insert s _ pageNum); [reflexivity|reflexivity|exact Hcoh]
      | |- _ = (_ <? _) => f_equal; lia
      | |- _ =>
          first [reflexivity | assumption
                | destruct Hmiss as [-> | ->]; [reflexivity|]; now destruct append]
      end.
  - rewrite (Api_loadHistory_hit _ _ _ _ Hhit). cbn. rewrite Hhit.
    destruct (Hcoh _ _ Hhit) as (Hitems & Htotal & Hmore).
    unfold Api.ITEMS_PER_PAGE in Hitems, Hmore.
    repeat split;
      lazymatch goal with
      | |- Api.cache_coherent _ _ =>
          apply (Api_coherent_ext s); [reflexivity|reflexivity|exact Hcoh]
      | |- _ = (_ <? _) => rewrite Hmore; f_equal; lia
      | |- _ => first [reflexivity | assumption]
      end.
Qed.
End ApiView.

(** ** Facts about the store and its records *)

Section StorageFacts.
Implicit Types st : Storage.t.

Lemma getItem_removeItem_eq key st : Storage.getItem key (Storage.removeItem key st) = None.
Proof.
  unfold Storage.getItem, Storage.removeItem.
  induction st as [|[k v] st IH]; [reflexivity|]. simpl.
  destruct (String.eqb_spec k key) as [->|Hne]; simpl; [exact IH|].
  destruct (String.eqb_spec k key); [contradiction|exact IH].
Qed.

Lemma getItem_removeItem_ne key key' st :
  key' <> key -> Storage.getItem key' (Storage.removeItem key st) = Storage.getItem key' st.
Proof.
  intros Hne. unfold Storage.getItem, Storage.removeItem.
  induction st as [|[k v] st IH]; [reflexivity|]. simpl.
  destruct (String.eqb_spec k key) as [->|Hk]; simpl.
  - destruct (String.eqb_spec key key'); [congruence|exact IH].
  - destruct (String.eqb_spec k key'); [reflexivity|exact IH].
Qed.

Lemma keys_removeItem key st :
  Storage.keys (Storage.removeItem key st)
  = List.filter (fun k => negb (String.eqb k key)) (Storage.keys st).
Proof.
  unfold Storage.keys, Storage.removeItem.
  induction st as [|[k v] st IH]; [reflexivity|]. simpl.
  destruct (String.eqb k key); simpl; [exact IH|now rewrite IH].
Qed.

Lemma getItem_setItem_eq key value st :
  Storage.getItem key (Storage.setItem key value st) = Some value.
Proof.
  unfold Storage.getItem, Storage.setItem.
  destruct (existsb _ st) eqn:Hex.
  - induction st as [|[k v] st IH]; [discriminate|]. simpl in *.
    destruct (String.eqb_spec k key) as [->|Hk]; simpl.
    + now rewrite String.eqb_refl.
    + destruct (String.eqb_spec k key); [contradiction|]. apply IH. exact Hex.
  - induction st as [|[k v] st IH]; simpl in *.
    + now rewrite String.eqb_refl.
    + destruct (String.eqb k key); [discriminate|]. apply IH. exact Hex.
Qed.

Lemma getItem_setItem_ne key key' value st :
  key' <> key -> Storage.getItem key' (Storage.setItem key value st) = Storage.getItem key' st.
Proof.
  intros Hne. unfold Storage.getItem, Storage.setItem.
  destruct (existsb _ st).
  - induction st as [|[k v] st IH]; [reflexivity|]. simpl.
    destruct (String.eqb_spec k key) as [->|Hk]; simpl.
    + destruct (String.eqb_spec key key'); [congruence|exact IH].
    + destruct (String.eqb_spec k key'); [reflexivity|exact IH].
  - induction st as [|[k v] st IH]; simpl.
    + destruct (String.eqb_spec key key'); [congruence|reflexivity].
    + destruct (String.eqb_spec k key'); [reflexivity|exact IH].
Qed.

Lemma filter_filter_comm {A} (f g : A -> bool) (l : list A) :
  List.filter f (List.filter g l) = List.filter g (List.filter f l).
Proof.
  induction l as [|x l IH]; [reflexivity|]. simpl.
  destruct (f x) eqn:Hf, (g x) eqn:Hg; simpl; rewrite ?Hf, ?Hg, IH; reflexivity.
Qed.

(** Dropping the keys on which [f] yields nothing does not change what
    [omap f] collects. *)
Lemma omap_filter_none {A B} (f f' : A -> option B) (keep : A -> bool) (l : list A) :
  (forall x, keep x = false -> f x = None) ->
  (forall x, keep x = true -> f' x = f x) ->
  omap f' (List.filter keep l) = omap f l.
Proof.
  intros Hdrop Hkeep. induction l as [|x l IH]; [reflexivity|]. simpl.
  destruct (keep x) eqn:Hk.
  - cbn. rewrite (Hkeep x Hk). destruct (f x); cbn; now rewrite IH.
  - cbn. rewrite (Hdrop x Hk). exact IH.
Qed.
End StorageFacts.

Section Api1Records.
Context `{Platform}.

Lemma Api1_readItem_removeItem_ne key key' ls :
  key' <> key ->
  Api1.readItem (Storage.removeItem key ls) key' = Api1.readItem ls key'.
Proof. intros Hne. unfold Api1.readItem. now rewrite getItem_removeItem_ne. Qed.

Lemma Api1_getRequestKeys_removeItem key ls :
  Api1.getRequestKeys (Storage.removeItem key ls)
  = List.filter (fun k => negb (String.eqb k key)) (Api1.getRequestKeys ls).
Proof.
  unfold Api1.getRequestKeys. rewrite keys_removeItem. apply filter_filter_comm.
Qed.

(** A record that yields nothing may as well not be in the store. *)
Lemma Api1_storedEntries_removeItem key ls :
  Api1.readItem ls key = None ->
  Api1.storedEntries (Storage.removeItem key ls) = Api1.storedEntries ls.
Proof.
  intros Hnone. unfold Api1.storedEntries.
  rewrite Api1_getRequestKeys_removeItem.
  apply omap_filter_none.
  - intros k Hk. apply negb_false_iff, String.eqb_eq in Hk. now subst k.
  - intros k Hk. apply negb_true_iff, String.eqb_neq in Hk.
    now apply Api1_readItem_removeItem_ne.
Qed.

Lemma Api1_storedEntries_spec ls e :
  e ∈ Api1.storedEntries ls <->
  exists key itemStr,
    key ∈ Api1.getRequestKeys ls
    /\ Storage.getItem key ls = Some itemStr
    /\ itemStr <> ""
    /\ JSON_parse_entry itemStr = Some e.
Proof.
  unfold Api1.storedEntries. rewrite list_elem_of_omap. split.
  - intros (key & Hin & Hread). unfold Api1.readItem in Hread.
    destruct (Storage.getItem key ls) as [itemStr|] eqn:Hget; [|discriminate].
    destruct itemStr as [|c itemStr]; [discriminate|].
    exists key, (String c itemStr). repeat split; auto.
  - intros (key & itemStr & Hin & Hget & Hne & Hparse).
    exists key. split; [exact Hin|]. unfold Api1.readItem. rewrite Hget.
    destruct itemStr; [contradiction|exact Hparse].
Qed.
End Api1Records.

Section ApiRecords.
Context `{Platform} (env : Api.Env).

Lemma Api_readItem_removeItem_ne key key' st :
  key' <> key ->
  Api.readItem env (Storage.removeItem key st) key' = Api.readItem env st key'.
Proof. intros Hne. unfold Api.readItem. now rewrite getItem_removeItem_ne. Qed.

Lemma Api_requestKeys_removeItem key st :
  Api.requestKeys (Storage.removeItem key st)
  = List.filter (fun k => negb (String.eqb k key)) (Api.requestKeys st).
Proof.
  unfold Api.requestKeys. rewrite keys_removeItem. apply filter_filter_comm.
Qed.

Lemma Api_storedEntries_removeItem key st :
  Api.readItem env st key = None ->
  Api.storedEntries env (Storage.removeItem key st) = Api.storedEntries env st.
Proof.
  intros Hnone. unfold Api.storedEntries.
  rewrite Api_requestKeys_removeItem.
  apply omap_filter_none.
  - intros k Hk. apply negb_false_iff, String.eqb_eq in Hk. now subst k.
  - intros k Hk. apply negb_true_iff, String.eqb_neq in Hk.
    now apply Api_readItem_removeItem_ne.
Qed.

Lemma Api_storedEntries_spec st e :
  e ∈ Api.storedEntries env st <->
  exists key value,
    key ∈ Api.requestKeys st
    /\ Api.storage_get_rejects env key = false
    /\ Storage.getItem key st = Some value
    /\ JSON_parse_entry value = Some e.
Proof.
  unfold Api.storedEntries. rewrite list_elem_of_omap. split.
  - intros (key & Hin & Hread). unfold Api.readItem in Hread.
    destruct (Api.storage_get_rejects env key) eqn:Hrej; [discriminate|].
    destruct (Storage.getItem key st) as [value|] eqn:Hget; [|discriminate].
    exists key, value. repeat split; auto.
  - intros (key & value & Hin & Hrej & Hget & Hparse).
    exists key. split; [exact Hin|]. unfold Api.readItem. now rewrite Hrej, Hget.
Qed.
End ApiRecords.

Section StorageRemoval.
Implicit Types st : Storage.t.

Lemma removeItem_all (keys : list string) st :
  foldl (fun st key => Storage.removeItem key st) st keys
  = List.filter (fun kv => negb (existsb (String.eqb (fst kv)) keys)) st.
Proof.
  revert st. induction keys as [|k keys IH]; intros st; simpl.
  - induction st as [|kv st IHst]; simpl; [reflexivity|]. now rewrite <- IHst.
  - rewrite IH. unfold Storage.removeItem.
    induction st as [|kv st IHst]; simpl; [reflexivity|].
    destruct (String.eqb (fst kv) k); simpl; [exact IHst|].
    destruct (existsb _ keys); simpl; [exact IHst|now rewrite IHst].
Qed.

Lemma existsb_eqb_elem (key : string) (keys : list string) :
  existsb (String.eqb key) keys = true <-> key ∈ keys.
Proof.
  rewrite existsb_exists. split.
  - intros (k & Hin & Heq). apply String.eqb_eq in Heq. subst k. now apply list_elem_of_In.
  - intros Hin. exists key. split; [now apply list_elem_of_In|apply String.eqb_refl].
Qed.

Lemma filter_ext_elem {A} (f g : A -> bool) (l : list A) :
  (forall x, x ∈ l -> f x = g x) -> List.filter f l = List.filter g l.
Proof.
  intros Hext. apply List.filter_ext_in. intros x Hin. apply Hext. now apply list_elem_of_In.
Qed.

(** Removing every reserved key of a store leaves its other bindings. *)
Lemma removeItem_reserved st :
  foldl (fun st key => Storage.removeItem key st) st
    (List.filter reserved (Storage.keys st))
  = unreserved st.
Proof.
  rewrite removeItem_all. unfold unreserved. apply filter_ext_elem.
  intros [k v] Hin. cbn [fst]. f_equal.
  apply eq_true_iff_eq. rewrite existsb_eqb_elem, list_elem_of_In, List.filter_In.
  split; [tauto|]. intros Hres. split; [|exact Hres].
  apply list_elem_of_In. unfold Storage.keys. apply list_elem_of_fmap. now exists (k, v).
Qed.

Lemma getItem_unreserved key st :
  Storage.getItem key (unreserved st)
  = if reserved key then None else Storage.getItem key st.
Proof.
  unfold Storage.getItem, unreserved.
  induction st as [|[k v] st IH]; simpl; [now destruct (reserved key)|].
  destruct (String.eqb_spec k key) as [->|Hne].
  - destruct (reserved key) eqn:Hres; simpl.
    + rewrite IH. reflexivity.
    + now rewrite String.eqb_refl.
  - destruct (reserved k); simpl; [exact IH|].
    destruct (String.eqb_spec k key); [contradiction|exact IH].
Qed.

Lemma reserved_request_key (id : Z) : reserved ("request:" +:+ pretty id) = true.
Proof.
  unfold reserved, JS.String_startsWith. cbn. now destruct (pretty id).
Qed.
End StorageRemoval.

(** ** Claims about the loader *)

Lemma first_page_of_sorted (stored : list HistoryEntry) :
  newest_first_page stored (take 20 (JS.Array_sort newest_first stored)).
Proof.
  exists (drop 20 (JS.Array_sort newest_first stored)).
  rewrite take_drop. split; [apply Array_sort_perm|]. split.
  - apply (Array_sort_desc_sorted Item.timestamp).
  - rewrite length_take, Array_sort_length. reflexivity.
Qed.

Lemma Array_slice_first_page {A} (l : list A) :
  JS.Array_slice l ((1 - 1) * 20) ((1 - 1) * 20 + 20) = take 20 l.
Proof. rewrite Array_slice_page by lia. reflexivity. Qed.

(** C1: loading page 1 shows the successfully parsed entries newest
    first, in both variants: the shown list is the head (20 entries, or all
    when fewer) of an arrangement of the parsed entries in descending
    order of timestamp. *)
Theorem C1_page_one_newest_first (P : Platform)
    (s1 : Api1.State) (env : Api.Env) (s : Api.State) :
  Api1.cache_coherent s1 ->
  Api.cache_coherent env s ->
  Api.storage_list_reply env = Api.ListKeys ->
  newest_first_page (Api1.storedEntries (Api1.localStorage s1))
    (Api1.history (exec (Api1.loadHistory 1 false) s1))
  /\ newest_first_page (Api.storedEntries env (Api.storage s))
       (Api.history (exec (Api.loadHistory env 1 false) s)).
Proof.
  intros Hcoh1 Hcoh Hlist. split.
  - destruct (Api1_load_view 1 false s1 Hcoh1 ltac:(lia)) as (_ & _ & _ & _ & _ & _ & Hh & _).
    rewrite Hh. cbn [andb]. rewrite Array_slice_first_page. apply first_page_of_sorted.
  - destruct (Api_load_view env 1 false s Hcoh Hlist) as (_ & _ & _ & _ & _ & Hh & _).
    rewrite Hh. cbn [andb]. rewrite Array_slice_first_page. apply first_page_of_sorted.
Qed.


(** C2: with pages of 20, page [p] is the slice of the sorted entry list
    from index [(p-1)*20] to [(p-1)*20+20], the sorted list holds every
    parsed entry exactly once, and the pages 1 to [n] laid end to end are
    the sorted list as soon as [n] pages cover it; in both variants. *)
Theorem C2_pagination_exhaustive (P : Platform)
    (s1 : Api1.State) (env : Api.Env) (s : Api.State) :
  Api1.cache_coherent s1 ->
  Api.cache_coherent env s ->
  Api.storage_list_reply env = Api.ListKeys ->
  let sorted1 := Api1.sortedEntries (Api1.localStorage s1) in
  let sorted := Api.sortedEntries env (Api.storage s) in
  let page1 p := Api1.history (exec (Api1.loadHistory p false) s1) in
  let page p := Api.history (exec (Api.loadHistory env p false) s) in
  (Permutation sorted1 (Api1.storedEntries (Api1.localStorage s1))
   /\ (forall p, 1 <= p -> page1 p = take 20 (drop (20 * (Z.to_nat p - 1)) sorted1))
   /\ (forall n, (length sorted1 <= 20 * n)%nat ->
         concat (map page1 (map Z.of_nat (seq 1 n))) = sorted1))
  /\ (Permutation sorted (Api.storedEntries env (Api.storage s))
      /\ (forall p, 1 <= p -> page p = take 20 (drop (20 * (Z.to_nat p - 1)) sorted))
      /\ (forall n, (length sorted <= 20 * n)%nat ->
            concat (map page (map Z.of_nat (seq 1 n))) = sorted)).
Proof.
  intros Hcoh1 Hcoh Hlist sorted1 sorted page1 page.
  assert (Hpage1 : forall p, 1 <= p ->
            page1 p = JS.Array_slice sorted1 ((p - 1) * 20) ((p - 1) * 20 + 20)).
  { intros p Hp. subst page1. cbv beta.
    destruct (Api1_load_view p false s1 Hcoh1 Hp) as (_ & _ & _ & _ & _ & _ & Hh & _).
    exact Hh. }
  assert (Hpage : forall p,
            page p = JS.Array_slice sorted ((p - 1) * 20) ((p - 1) * 20 + 20)).
  { intros p. subst page. cbv beta.
    destruct (Api_load_view env p false s Hcoh Hlist) as (_ & _ & _ & _ & _ & Hh & _).
    exact Hh. }
  split; (split; [apply Array_sort_perm|]); split.
  - intros p Hp. rewrite Hpage1 by exact Hp. now apply Array_slice_page.
  - intros n Hn. transitivity (take (20 * n) sorted1); [|now apply take_ge].
    rewrite <- concat_pages_Z. f_equal. rewrite !map_map.
    apply map_ext_in. intros i Hi. apply in_seq in Hi. apply Hpage1. lia.
  - intros p Hp. rewrite Hpage. now apply Array_slice_page.
  - intros n Hn. transitivity (take (20 * n) sorted); [|now apply take_ge].
    rewrite <- concat_pages_Z. f_equal. rewrite !map_map.
    apply map_ext. intros i. apply Hpage.
Qed.

(** C3: after a load of page [p], [hasMore] holds exactly when [p * 20] is
    below the number of parsed entries; in both variants, whether or not
    the load appends. *)
Theorem C3_hasMore_iff (P : Platform)
    (s1 : Api1.State) (env : Api.Env) (s : Api.State) (p : Z) (append : bool) :
  1 <= p ->
  Api1.cache_coherent s1 ->
  Api.cache_coherent env s ->
  Api.storage_list_reply env = Api.ListKeys ->
  (Api1.hasMore (exec (Api1.loadHistory p append) s1) = true
   <-> p * 20 < Z.of_nat (length (Api1.storedEntries (Api1.localStorage s1))))
  /\ (Api.hasMore (exec (Api.loadHistory env p append) s) = true
      <-> p * 20 < Z.of_nat (length (Api.storedEntries env (Api.storage s))))
  /\ Api.totalCount (exec (Api.loadHistory env p append) s)
     = Z.of_nat (length (Api.storedEntries env (Api.storage s))).
Proof.
  intros Hp Hcoh1 Hcoh Hlist.
  destruct (Api1_load_view p append s1 Hcoh1 Hp) as (_ & _ & _ & _ & _ & _ & _ & Hm1 & _).
  destruct (Api_load_view env p append s Hcoh Hlist) as (_ & _ & _ & _ & _ & _ & Hm & Ht & _).
  rewrite Hm1, Hm, Ht, Api1_sorted_length, Api_sorted_length, !Z.ltb_lt.
  repeat split; auto.
Qed.

Lemma Api1_coherent_same_entries `{Platform} s s' :
  Api1.historyCache s' = Api1.historyCache s ->
  Api1.storedEntries (Api1.localStorage s') = Api1.storedEntries (Api1.localStorage s) ->
  Api1.cache_coherent s -> Api1.cache_coherent s'.
Proof.
  intros Hc He Hcoh q c. unfold Api1.sortedEntries. rewrite Hc, He. apply Hcoh.
Qed.

Lemma Api_coherent_same_entries `{Platform} env s s' :
  Api.historyCache s' = Api.historyCache s ->
  Api.storedEntries env (Api.storage s') = Api.storedEntries env (Api.storage s) ->
  Api.cache_coherent env s -> Api.cache_coherent env s'.
Proof.
  intros Hc He Hcoh q c. unfold Api.sortedEntries. rewrite Hc, He. apply Hcoh.
Qed.

(** C6: a page load completes normally whatever the records hold; the
    entries it works on are exactly those of the request keys whose record
    is present and parses; and a record that is absent or does not parse
    (in [Api.jsx] also one whose read is rejected) changes nothing: the
    load shows what it would show without that record. *)
Theorem C6_corrupt_records_skipped (P : Platform)
    (s1 : Api1.State) (env : Api.Env) (s : Api.State) (p : Z) :
  1 <= p ->
  Api1.cache_coherent s1 ->
  Api.cache_coherent env s ->
  Api.storage_list_reply env = Api.ListKeys ->
  (fst (Api1.loadHistory p false s1) = Normal tt
   /\ Api1.history (exec (Api1.loadHistory p false) s1)
      = take 20 (drop (20 * (Z.to_nat p - 1))
                   (JS.Array_sort newest_first (Api1.storedEntries (Api1.localStorage s1))))
   /\ (forall e, e ∈ Api1.storedEntries (Api1.localStorage s1) <->
         exists key itemStr,
           key ∈ Api1.getRequestKeys (Api1.localStorage s1)
           /\ Storage.getItem key (Api1.localStorage s1) = Some itemStr
           /\ itemStr <> ""
           /\ JSON_parse_entry itemStr = Some e)
   /\ (forall key, Api1.readItem (Api1.localStorage s1) key = None ->
         let without :=
           Api1.with_localStorage (Storage.removeItem key (Api1.localStorage s1)) s1 in
         Api1.history (exec (Api1.loadHistory p false) without)
         = Api1.history (exec (Api1.loadHistory p false) s1)))
  /\ (fst (Api.loadHistory env p false s) = Normal tt
      /\ Api.history (exec (Api.loadHistory env p false) s)
         = take 20 (drop (20 * (Z.to_nat p - 1))
                      (JS.Array_sort newest_first (Api.storedEntries env (Api.storage s))))
      /\ (forall e, e ∈ Api.storedEntries env (Api.storage s) <->
            exists key value,
              key ∈ Api.requestKeys (Api.storage s)
              /\ Api.storage_get_rejects env key = false
              /\ Storage.getItem key (Api.storage s) = Some value
              /\ JSON_parse_entry value = Some e)
      /\ (forall key, Api.readItem env (Api.storage s) key = None ->
            let without := Api.with_storage (Storage.removeItem key (Api.storage s)) s in
            Api.history (exec (Api.loadHistory env p false) without)
            = Api.history (exec (Api.loadHistory env p false) s))).
Proof.
  intros Hp Hcoh1 Hcoh Hlist. split.
  - destruct (Api1_load_view p false s1 Hcoh1 Hp) as (Hn & _ & _ & _ & _ & _ & Hh & _).
    split; [exact Hn|]. split; [rewrite Hh; now apply Array_slice_page|].
    split; [apply Api1_storedEntries_spec|].
    intros key Hnone without.
    assert (Hsame : Api1.storedEntries (Api1.localStorage without)
                    = Api1.storedEntries (Api1.localStorage s1))
      by now apply Api1_storedEntries_removeItem.
    assert (Hcohw : Api1.cache_coherent without)
      by (apply (Api1_coherent_same_entries s1); [reflexivity|exact Hsame|exact Hcoh1]).
    destruct (Api1_load_view p false without Hcohw Hp) as (_ & _ & _ & _ & _ & _ & Hw & _).
    rewrite Hw, Hh. cbn [andb]. unfold Api1.sortedEntries. now rewrite Hsame.
  - destruct (Api_load_view env p false s Hcoh Hlist) as (Hn & _ & _ & _ & _ & Hh & _).
    split; [exact Hn|]. split; [rewrite Hh; now apply Array_slice_page|].
    split; [apply Api_storedEntries_spec|].
    intros key Hnone without.
    assert (Hsame : Api.storedEntries env (Api.storage without)
                    = Api.storedEntries env (Api.storage s))
      by now apply Api_storedEntries_removeItem.
    assert (Hcohw : Api.cache_coherent env without)
      by (apply (Api_coherent_same_entries env s); [reflexivity|exact Hsame|exact Hcoh]).
    destruct (Api_load_view env p false without Hcohw Hlist) as (_ & _ & _ & _ & _ & Hw & _).
    rewrite Hw, Hh. cbn [andb]. unfold Api.sortedEntries. now rewrite Hsame.
Qed.

(** ** The statistics *)

(** [Math.round] of a quotient of integers. *)
Lemma Math_round_div (a n : Z) :
  0 < n ->
  JS.Math_round (inject_Z a / inject_Z n) = (2 * a + n) / (2 * n).
Proof.
  intros Hn. unfold JS.Math_round.
  rewrite (Zdiv_Qdiv (2 * a + n) (2 * n)).
  apply Qfloor_comp.
  rewrite !inject_Z_plus, !inject_Z_mult.
  assert (Hn0 : ~ (inject_Z n == 0)%Q).
  { intros Hz. unfold Qeq in Hz. simpl in Hz. lia. }
  field. exact Hn0.
Qed.

Lemma Math_round_nearest (a n : Z) :
  0 < n ->
  let r := JS.Math_round (inject_Z a / inject_Z n) in
  2 * a - n < 2 * n * r <= 2 * a + n.
Proof.
  intros Hn r. subst r. rewrite Math_round_div by exact Hn.
  pose proof (Z.mul_div_le (2 * a + n) (2 * n) ltac:(lia)).
  pose proof (Z.mul_succ_div_gt (2 * a + n) (2 * n) ltac:(lia)).
  lia.
Qed.

Section Counters.
Implicit Types (acc : list (Method * Z)) (m : Method) (l : list HistoryEntry).

Lemma number_or_zero x : number_or x 0 = x.
Proof. unfold number_or. destruct (Z.eqb_spec x 0); congruence. Qed.

Lemma lookup_count_method acc m m' :
  lookup_count m' (Api1.count_method acc m)
  = if decide (m = m') then lookup_count m acc + 1 else lookup_count m' acc.
Proof.
  induction acc as [|[k c] acc IH]; simpl.
  - rewrite number_or_zero. destruct (decide (m = m')); reflexivity.
  - destruct (decide (k = m)) as [->|Hk]; simpl.
    + rewrite number_or_zero. destruct (decide (m = m')); reflexivity.
    + destruct (decide (k = m')) as [->|Hk'].
      * destruct (decide (m = m')); [congruence|reflexivity].
      * exact IH.
Qed.

Lemma keys_count_method acc m m' :
  m' ∈ map fst (Api1.count_method acc m) <-> m' = m \/ m' ∈ map fst acc.
Proof.
  induction acc as [|[k c] acc IH]; simpl.
  - rewrite list_elem_of_singleton. rewrite elem_of_nil. tauto.
  - destruct (decide (k = m)) as [->|Hk]; simpl.
    + rewrite !elem_of_cons. tauto.
    + rewrite !elem_of_cons, IH. tauto.
Qed.

Lemma NoDup_count_method acc m :
  NoDup (map fst acc) -> NoDup (map fst (Api1.count_method acc m)).
Proof.
  induction acc as [|[k c] acc IH]; simpl; intros Hnd.
  - apply NoDup_singleton.
  - destruct (decide (k = m)) as [->|Hk]; simpl; [exact Hnd|].
    apply NoDup_cons in Hnd as [Hnotin Hnd].
    apply NoDup_cons. split; [|now apply IH].
    rewrite keys_count_method. intros [->|Hin]; [congruence|contradiction].
Qed.

Lemma lookup_count_absent acc m : m ∉ map fst acc -> lookup_count m acc = 0.
Proof.
  induction acc as [|[k c] acc IH]; simpl; [reflexivity|].
  rewrite not_elem_of_cons. intros [Hne Hnotin].
  destruct (decide (k = m)); [congruence|now apply IH].
Qed.

Lemma lookup_count_elem acc m c :
  NoDup (map fst acc) -> (m, c) ∈ acc -> lookup_count m acc = c.
Proof.
  induction acc as [|[k c'] acc IH]; simpl; intros Hnd Hin.
  - now apply elem_of_nil in Hin.
  - apply NoDup_cons in Hnd as [Hnotin Hnd].
    apply elem_of_cons in Hin as [[= <- <-]|Hin].
    + destruct (decide (m = m)); [reflexivity|congruence].
    + destruct (decide (k = m)) as [->|Hk]; [|now apply IH].
      exfalso. apply Hnotin. apply list_elem_of_fmap. now exists (m, c).
Qed.

Lemma elem_lookup_count acc m :
  m ∈ map fst acc -> (m, lookup_count m acc) ∈ acc.
Proof.
  induction acc as [|[k c] acc IH]; simpl; intros Hin.
  - now apply elem_of_nil in Hin.
  - destruct (decide (k = m)) as [->|Hk]; [apply elem_of_cons; now left|].
    apply elem_of_cons in Hin as [->|Hin]; [congruence|].
    apply elem_of_cons. right. now apply IH.
Qed.

Lemma method_count_app m l l' :
  method_count m (l ++ l') = method_count m l + method_count m l'.
Proof. unfold method_count. rewrite List.filter_app, length_app. lia. Qed.

Lemma method_count_nonneg m l : 0 <= method_count m l.
Proof. unfold method_count. lia. Qed.

Lemma method_count_single m e :
  method_count m [e] = if decide (Item.method e = m) then 1 else 0.
Proof.
  unfold method_count. simpl.
  destruct (decide (Item.method e = m)) as [Heq|Hne].
  - now rewrite bool_decide_eq_true_2.
  - now rewrite bool_decide_eq_false_2.
Qed.

Lemma counts_agree_fold l : forall acc seen,
  counts_agree acc seen ->
  counts_agree (foldl (fun acc item => Api1.count_method acc (Item.method item)) acc l)
    (seen ++ l).
Proof.
  induction l as [|e l IH]; intros acc seen Hagree; simpl.
  - now rewrite app_nil_r.
  - replace (seen ++ e :: l) with ((seen ++ [e]) ++ l) by now rewrite <- app_assoc.
    apply IH. destruct Hagree as (Hnd & Hcount & Hpos).
    split; [now apply NoDup_count_method|]. split.
    + intros m. rewrite lookup_count_method, method_count_app, method_count_single, Hcount.
      destruct (decide (Item.method e = m)) as [->|Hne]; rewrite ?Hcount; lia.
    + intros m. rewrite keys_count_method, lookup_count_method.
      destruct (decide (Item.method e = m)) as [->|Hne].
      * intros _. rewrite Hcount. pose proof (method_count_nonneg m seen). lia.
      * intros [->|Hin]; [congruence|now apply Hpos].
Qed.

Lemma counts_agree_methodCounts l :
  counts_agree (foldl (fun acc item => Api1.count_method acc (Item.method item)) [] l) l.
Proof.
  apply (counts_agree_fold l [] []). split; [constructor|]. split.
  - intros m. reflexivity.
  - intros m Hin. now apply elem_of_nil in Hin.
Qed.

Lemma total_duration_foldl l : forall a,
  foldl (fun sum item => sum + number_or (Item.duration item) 0) a l = a + total_duration l.
Proof.
  induction l as [|e l IH]; intros a; simpl; [lia|].
  rewrite IH, number_or_zero. lia.
Qed.
End Counters.

Lemma method_count_pos_iff m (l : list HistoryEntry) :
  0 < method_count m l <-> m ∈ map Item.method l.
Proof.
  unfold method_count. induction l as [|e l IH]; simpl.
  - rewrite elem_of_nil. lia.
  - rewrite elem_of_cons, <- IH.
    destruct (decide (Item.method e = m)) as [Heq|Hne].
    + rewrite bool_decide_eq_true_2 by exact Heq. simpl. split; [auto|lia].
    + rewrite bool_decide_eq_false_2 by exact Hne. split; [auto|].
      intros [Heq|Hpos]; [congruence|exact Hpos].
Qed.

Lemma counts_agree_keys acc (l : list HistoryEntry) m :
  counts_agree acc l -> m ∈ map fst acc <-> m ∈ map Item.method l.
Proof.
  intros (Hnd & Hcount & Hpos). rewrite <- method_count_pos_iff, <- Hcount. split.
  - apply Hpos.
  - intros Hlt. destruct (decide (m ∈ map fst acc)) as [Hin|Hnotin]; [exact Hin|].
    rewrite lookup_count_absent in Hlt by exact Hnotin. lia.
Qed.

Lemma counts_agree_length acc (l : list HistoryEntry) :
  counts_agree acc l -> length acc = length (distinct_methods l).
Proof.
  intros Hagree. rewrite <- (length_map fst acc). apply Permutation_length.
  apply NoDup_Permutation.
  - apply Hagree.
  - apply NoDup_remove_dups.
  - intros m. unfold distinct_methods. rewrite elem_of_remove_dups.
    now apply counts_agree_keys.
Qed.

Lemma computeStats_nonempty (historyData : list HistoryEntry) :
  historyData <> [] ->
  Api1.computeStats historyData =
    {| Stats.total := Z.of_nat (length historyData);
       Stats.avgDuration :=
         JS.Math_round (inject_Z (total_duration historyData)
                        / inject_Z (Z.of_nat (length historyData)));
       Stats.methodStats :=
         take 3
           (JS.Array_sort (by_key_desc Stats.count)
              (map mkStat
                 (foldl (fun acc item => Api1.count_method acc (Item.method item)) []
                    historyData))) |}.
Proof.
  intros Hne. unfold Api1.computeStats.
  destruct historyData as [|e l]; [contradiction|].
  change ((length (e :: l) =? 0)%nat) with false. cbv iota.
  rewrite total_duration_foldl, Z.add_0_l.
  rewrite Array_slice_nonneg by lia. reflexivity.
Qed.

(** C7: [computeStats] on the empty list is [{total: 0, avgDuration: 0,
    methodStats: []}]; on a non-empty list [total] is the length,
    [avgDuration] is the mean of the durations rounded to the nearest
    integer (halves up), and [methodStats] holds the three most frequent
    methods (all of them when fewer) with their counts, in descending
    order of count. *)
Theorem C7_computeStats (historyData : list HistoryEntry) :
  historyData <> [] ->
  let result := Api1.computeStats historyData in
  let n := Z.of_nat (length historyData) in
  let sum := total_duration historyData in
  Api1.computeStats [] = {| Stats.total := 0; Stats.avgDuration := 0; Stats.methodStats := [] |}
  /\ Stats.total result = n
  /\ Stats.avgDuration result = (2 * sum + n) / (2 * n)
  /\ 2 * sum - n < 2 * n * Stats.avgDuration result <= 2 * sum + n
  /\ StronglySorted (descending Stats.count) (Stats.methodStats result)
  /\ length (Stats.methodStats result) = Nat.min 3 (length (distinct_methods historyData))
  /\ NoDup (map Stats.method (Stats.methodStats result))
  /\ (forall ms, ms ∈ Stats.methodStats result ->
        Stats.count ms = method_count (Stats.method ms) historyData /\ 0 < Stats.count ms)
  /\ (forall m ms, 0 < method_count m historyData -> ms ∈ Stats.methodStats result ->
        m ∈ map Stats.method (Stats.methodStats result)
        \/ method_count m historyData <= Stats.count ms).
Proof.
  intros Hne result n sum. subst result.
  split; [reflexivity|].
  rewrite computeStats_nonempty by exact Hne. cbn [Stats.total Stats.avgDuration Stats.methodStats].
  set (counts := foldl (fun acc item => Api1.count_method acc (Item.method item)) [] historyData).
  set (sorted := JS.Array_sort (by_key_desc Stats.count) (map mkStat counts)).
  assert (Hn : 0 < n) by (subst n; destruct historyData; [contradiction|simpl; lia]).
  pose proof (counts_agree_methodCounts historyData) as Hagree. fold counts in Hagree.
  assert (Hperm : Permutation sorted (map mkStat counts)) by apply Array_sort_perm.
  assert (Hsorted : StronglySorted (descending Stats.count) sorted)
    by apply Array_sort_desc_sorted.
  assert (Hkeys : map Stats.method (map mkStat counts) = map fst counts).
  { rewrite map_map. apply map_ext. now intros [m c]. }
  assert (Hstat : forall ms, ms ∈ sorted ->
            (Stats.method ms, Stats.count ms) ∈ counts).
  { intros ms Hin. rewrite Hperm in Hin. apply list_elem_of_fmap in Hin as ([m c] & -> & Hin).
    exact Hin. }
  split; [reflexivity|].
  split; [now apply Math_round_div|].
  split; [now apply Math_round_nearest|].
  split; [now apply StronglySorted_take|].
  split.
  { rewrite length_take. unfold sorted. rewrite Array_sort_length, length_map.
    now rewrite (counts_agree_length counts historyData Hagree). }
  split.
  { apply (sublist_NoDup _ (map Stats.method sorted)).
    - rewrite Hperm, Hkeys. apply Hagree.
    - apply (fmap_sublist Stats.method), sublist_take. }
  split.
  - intros ms Hin. apply (subseteq_take 3 sorted) in Hin. apply Hstat in Hin.
    destruct Hagree as (Hnd & Hcount & Hpos).
    assert (Hc : lookup_count (Stats.method ms) counts = Stats.count ms)
      by now apply lookup_count_elem.
    split; [now rewrite <- Hc, Hcount|].
    rewrite <- Hc. apply Hpos. apply list_elem_of_fmap.
    exists (Stats.method ms, Stats.count ms). split; [reflexivity|exact Hin].
  - intros m ms Hm Hin.
    assert (Hmin : m ∈ map fst counts).
    { apply (counts_agree_keys counts historyData m Hagree). now apply method_count_pos_iff. }
    apply elem_lookup_count in Hmin.
    destruct Hagree as (Hnd & Hcount & Hpos). rewrite Hcount in Hmin.
    assert (Hms : mkStat (m, method_count m historyData) ∈ sorted).
    { rewrite Hperm. apply list_elem_of_fmap.
      exists (m, method_count m historyData). split; [reflexivity|exact Hmin]. }
    rewrite <- (take_drop 3 sorted) in Hms. apply elem_of_app in Hms as [Htake|Hdrop].
    + left. apply list_elem_of_fmap.
      exists (mkStat (m, method_count m historyData)). split; [reflexivity|exact Htake].
    + right. apply (StronglySorted_split Stats.count 3 sorted ms _ Hsorted Hin Hdrop).
Qed.

Lemma Array_slice_from_last {A} (l : list A) (start : Z) :
  start < 0 ->
  JS.Array_slice_from l start = drop (length l - Z.to_nat (- start)) l.
Proof.
  intros Hk. unfold JS.Array_slice_from, JS.Array_slice, JS.relative_index.
  destruct (Z.ltb_spec start 0); [|lia].
  destruct (Z.ltb_spec (Z.of_nat (length l)) 0); [lia|].
  rewrite Z.min_id.
  replace (Z.to_nat (Z.max (Z.of_nat (length l) + start) 0))
    with (length l - Z.to_nat (- start))%nat by lia.
  apply take_ge. rewrite length_drop. lia.
Qed.

Lemma omap_ext_in {A B} (f g : A -> option B) (l : list A) :
  (forall x, x ∈ l -> f x = g x) -> omap f l = omap g l.
Proof.
  induction l as [|x l IH]; intros Hext; [reflexivity|]. cbn.
  rewrite (Hext x) by (apply elem_of_cons; now left).
  rewrite IH; [reflexivity|]. intros y Hy. apply Hext, elem_of_cons. now right.
Qed.

Lemma length_omap_le {A B} (f : A -> option B) (l : list A) :
  (length (omap f l) <= length l)%nat.
Proof.
  induction l as [|x l IH]; cbn; [lia|]. destruct (f x); cbn; lia.
Qed.

Section Api1Stats.
Context `{Platform}.
Local Arguments Api1.getRequestKeys : simpl never.
Local Arguments Api1.computeStats : simpl never.
Local Arguments JS.Array_slice_from : simpl never.
Local Arguments omap : simpl never.

(** What [loadStats] leaves: the statistics of the parsed records of the
    last 100 request keys, and the number of request keys. *)
Lemma Api1_loadStats_run s :
  let keys := Api1.getRequestKeys (Api1.localStorage s) in
  Api1.loadStats s =
    (Normal tt,
     Api1.with_totalCount (Z.of_nat (length keys))
       (Api1.with_stats
          (Some (Api1.computeStats
                   (omap (Api1.readItem (Api1.localStorage s)) (drop (length keys - 100) keys))))
          s)).
Proof.
  intros keys. unfold Api1.loadStats. eff. fold keys.
  destruct keys as [|k ks] eqn:Hk.
  - reflexivity.
  - change ((length (k :: ks) =? 0)%nat) with false. eff.
    rewrite omap_id_map.
    rewrite Array_slice_from_last by lia. reflexivity.
Qed.

Lemma computeStats_total (historyData : list HistoryEntry) :
  Stats.total (Api1.computeStats historyData) = Z.of_nat (length historyData).
Proof.
  destruct historyData as [|e l]; [reflexivity|].
  now rewrite computeStats_nonempty.
Qed.

(** C8: [loadStats] hands the aggregator the parsed records of the last
    100 request keys in key order, and of no other key: the sample has at
    most 100 entries, the count shown beside it is that of all request
    keys, and two stores that agree on their last 100 request keys yield
    the same statistics whatever their older records are. *)
Theorem C8_stats_recent_window (s s' : Api1.State) :
  let keys := Api1.getRequestKeys (Api1.localStorage s) in
  let recentKeys := drop (length keys - 100) keys in
  let sample := omap (Api1.readItem (Api1.localStorage s)) recentKeys in
  let keys' := Api1.getRequestKeys (Api1.localStorage s') in
  Api1.stats (exec Api1.loadStats s) = Some (Api1.computeStats sample)
  /\ keys = take (length keys - 100) keys ++ recentKeys
  /\ length recentKeys = Nat.min 100 (length keys)
  /\ (length sample <= 100)%nat
  /\ Stats.total (Api1.computeStats sample) <= 100
  /\ Api1.totalCount (exec Api1.loadStats s) = Z.of_nat (length keys)
  /\ (drop (length keys' - 100) keys' = recentKeys ->
      (forall key, key ∈ recentKeys ->
         Api1.readItem (Api1.localStorage s') key = Api1.readItem (Api1.localStorage s) key) ->
      Api1.stats (exec Api1.loadStats s') = Api1.stats (exec Api1.loadStats s)).
Proof.
  intros keys recentKeys sample keys'. unfold exec.
  rewrite !Api1_loadStats_run. cbn [snd]. fold keys keys' recentKeys.
  assert (Hlen : length recentKeys = Nat.min 100 (length keys))
    by (subst recentKeys; rewrite length_drop; lia).
  assert (Hsample : (length sample <= 100)%nat).
  { subst sample. pose proof (length_omap_le (Api1.readItem (Api1.localStorage s)) recentKeys). lia. }
  split; [reflexivity|].
  split; [subst recentKeys; now rewrite take_drop|].
  split; [exact Hlen|].
  split; [exact Hsample|].
  split; [rewrite computeStats_total; lia|].
  split; [reflexivity|].
  intros Hsame Hread. cbn. rewrite Hsame. do 2 f_equal.
  now apply omap_ext_in.
Qed.
End Api1Stats.

(** ** The request executor of [Api.jsx] *)

Section ApiSend.
Context `{Platform} (env : Api.Env).
Local Arguments JS.Array_sort : simpl never.
Local Arguments JS.Array_slice : simpl never.
Local Arguments Api.loadHistory : simpl never.
Local Arguments Api.validate : simpl never.
Local Arguments Api.readBody : simpl never.
Local Arguments Storage.setItem : simpl never.
Local Arguments Storage.removeItem : simpl never.
Local Arguments JS.Math_round : simpl never.
Local Arguments JS.String_includes : simpl never.
Local Arguments String.append : simpl never.
Local Arguments pretty : simpl never.

(** A load never throws, leaves the store and the response panel alone,
    and issues nothing but a console message. *)
Lemma Api_loadHistory_frame pageNum append s :
  let s' := exec (Api.loadHistory env pageNum append) s in
  fst (Api.loadHistory env pageNum append s) = Normal tt
  /\ Api.storage s' = Api.storage s
  /\ Api.response s' = Api.response s
  /\ Api.statusCode s' = Api.statusCode s
  /\ Api.duration s' = Api.duration s
  /\ Api.loading s' = Api.loading s
  /\ Api.page s' = Api.page s
  /\ exists logs, Api.effects s' = Api.effects s ++ logs
       /\ (logs = [] \/ logs = [ConsoleError "Failed to load history:"]).
Proof.
  intros s'. subst s'. unfold exec.
  assert (Hmiss_or_hit :
    (append = true \/ Api.historyCache s !! Api.cacheKey pageNum = None)
    \/ (append = false /\ exists c, Api.historyCache s !! Api.cacheKey pageNum = Some c)).
  { destruct append; [now left; left|].
    destruct (Api.historyCache s !! Api.cacheKey pageNum) eqn:E; [right; eauto|now left; right]. }
  destruct Hmiss_or_hit as [Hmiss | [-> [c Hhit]]].
  - destruct (Api.storage_list_reply env) as [e| |] eqn:Hlist.
    + rewrite (Api_loadHistory_rejected env _ _ _ e) by assumption. cbn.
      repeat split. eexists. split; [reflexivity|now right].
    + rewrite Api_loadHistory_null by assumption. cbn.
      repeat split. exists []. split; [now rewrite app_nil_r|now left].
    + rewrite Api_loadHistory_miss by assumption. cbn.
      repeat split. exists []. split; [now rewrite app_nil_r|now left].
  - rewrite (Api_loadHistory_hit _ _ _ _ Hhit). cbn.
    repeat split. exists []. split; [now rewrite app_nil_r|now left].
Qed.

(** Saving issues one write; when it goes through, the cache is cleared
    and page 1 is loaded again. *)
Lemma Api_saveToHistory_run requestData s :
  let key := "request:" +:+ pretty (Api.Date_now env) in
  let value := JSON_stringify_entry (Api.itemWithId requestData (Api.Date_now env)) in
  let issued := Api.with_effects (Api.effects s ++ [StorageSet key value]) s in
  Api.saveToHistory env requestData s =
    (Normal tt,
     if Api.storage_set_rejects env
     then Api.with_effects (Api.effects issued ++ [ConsoleError "Failed to save history:"]) issued
     else exec (Api.loadHistory env 1 false)
            (Api.with_page 1
               (Api.with_historyCache ∅
                  (Api.with_storage (Storage.setItem key value (Api.storage s)) issued)))).
Proof.
  intros key value issued. subst key value issued.
  unfold Api.saveToHistory, Api.storage_set. eff.
  destruct (Api.storage_set_rejects env); eff; [reflexivity|].
  match goal with |- context [Api.loadHistory env 1 false ?st] =>
    pose proof (Api_loadHistory_frame 1 false st) as (Hn & _);
    destruct (Api.loadHistory env 1 false st) as [r st'] eqn:Hload
  end.
  cbn in Hn. subst r. reflexivity.
Qed.

Lemma Api_saveToHistory_normal requestData s :
  fst (Api.saveToHistory env requestData s) = Normal tt.
Proof. now rewrite Api_saveToHistory_run. Qed.

Ltac save_normal :=
  match goal with
  | |- context [Api.saveToHistory env ?rd ?st] =>
      let Hn := fresh "Hn" in
      pose proof (Api_saveToHistory_normal rd st) as Hn;
      destruct (Api.saveToHistory env rd st) as [? ?];
      cbn in Hn; subst; reflexivity
  end.

Lemma Api_sendRequest_failure form s error :
  Api.thrown env form = Some error ->
  Api.sendRequest env form s =
    (Normal tt,
     Api.with_loading false
       (exec (Api.saveToHistory env (Api.failureItem env form error))
          (Api.with_duration
             (Some (JS.Math_round (Api.performance_catch env - Api.performance_start env)))
             (Api.with_statusCode
                (Some (if JS.String_includes (JS.message error) "CORS" then 0 else 400))
                (Api.with_response (Api.errorBody error) (Api.before_catch form s)))))).
Proof.
  intros Hthrown. unfold Api.thrown in Hthrown.
  unfold Api.before_catch, Api.fetches, Api.failureItem.
  unfold Api.sendRequest, Api.fetch. eff.
  destruct (Api.validate form) as [[parsedHeaders parsedBody]|e] eqn:Hval.
  - eff. destruct (Api.fetch_reply env) as [e|response] eqn:Hfetch.
    + injection Hthrown as ->. eff. save_normal.
    + eff. destruct (Api.readBody response) as [data|e] eqn:Hbody; [discriminate|].
      injection Hthrown as ->. eff. save_normal.
  - injection Hthrown as ->. eff. save_normal.
Qed.

(** What a failed send leaves behind: the effects issued, the status
    shown, and the store. *)
Lemma Api_sendRequest_failure_view form s error :
  Api.thrown env form = Some error ->
  let s' := exec (Api.sendRequest env form) s in
  let key := "request:" +:+ pretty (Api.Date_now env) in
  let value :=
    JSON_stringify_entry (Api.itemWithId (Api.failureItem env form error) (Api.Date_now env)) in
  fst (Api.sendRequest env form s) = Normal tt
  /\ (exists logs,
        Api.effects s' = Api.effects s ++ Api.fetches form ++ StorageSet key value :: logs
        /\ List.filter is_fetch logs = []
        /\ List.filter is_storage_set logs = [])
  /\ Api.statusCode s' =
       Some (if JS.String_includes (JS.message error) "CORS" then 0 else 400)
  /\ Api.duration s' =
       Some (JS.Math_round (Api.performance_catch env - Api.performance_start env))
  /\ Api.response s' = Api.errorBody error
  /\ Api.storage s' =
       (if Api.storage_set_rejects env then Api.storage s
        else Storage.setItem key value (Api.storage s)).
Proof.
  intros Hthrown s' key value. subst s'. unfold exec.
  rewrite (Api_sendRequest_failure form s error Hthrown). cbn [fst snd].
  unfold exec. rewrite Api_saveToHistory_run. cbn [fst snd].
  fold key value.
  assert (Hbefore : Api.effects (Api.before_catch form s) = Api.effects s ++ Api.fetches form
                    /\ Api.storage (Api.before_catch form s) = Api.storage s).
  { unfold Api.before_catch. destruct (Api.fetches form); cbn; [now rewrite app_nil_r|auto]. }
  destruct Hbefore as [Heff Hsto].
  destruct (Api.storage_set_rejects env).
  - cbn. rewrite Heff, Hsto, <- !app_assoc. repeat split.
    exists [ConsoleError "Failed to save history:"]. repeat split.
  - match goal with |- context [exec (Api.loadHistory env 1 false) ?st] =>
      remember st as saved eqn:Hsaved;
      destruct (Api_loadHistory_frame 1 false saved)
        as (_ & Hs & Hr & Hc & Hd & _ & _ & logs & Hl & Hlogs)
    end.
    cbn. rewrite Hs, Hr, Hc, Hd, Hl. subst saved. cbn. rewrite Heff, Hsto, <- !app_assoc.
    repeat split. exists logs. split; [reflexivity|].
    destruct Hlogs as [-> | ->]; split; reflexivity.
Qed.

(** The messages of the validation do not mention CORS. *)
Lemma Api_validate_message form error :
  Api.validate form = Throw error ->
  JS.String_includes (JS.message error) "CORS" = false
  /\ JS.name error = "Error".
Proof.
  unfold Api.validate. intros Hval.
  destruct (JSON_parse (Form.headers form)); [|injection Hval as <-; now split].
  destruct (truthy_string (String_trim (Form.body form)) && has_body (Form.method form));
    [destruct (JSON_parse (Form.body form)); [|injection Hval as <-; now split]|];
    (destruct (negb (truthy_string (String_trim (Form.url form))));
     [injection Hval as <-; now split|];
     destruct (negb (URL_valid (Form.url form)));
     [injection Hval as <-; now split|discriminate]).
Qed.

Lemma Api_validate_headers form :
  JSON_parse (Form.headers form) = None ->
  Api.validate form = Throw (JS.new_Error "Invalid JSON in headers").
Proof. intros Hparse. unfold Api.validate. now rewrite Hparse. Qed.

Lemma Api_thrown_validate form error :
  Api.validate form = Throw error ->
  Api.thrown env form = Some error /\ Api.fetches form = [].
Proof. intros Hval. unfold Api.thrown, Api.fetches. now rewrite Hval. Qed.
End ApiSend.

(** C5: when the validation of [sendRequest] fails (unparseable headers
    fail with "Invalid JSON in headers"), no network call is issued and
    exactly one write is issued to the store: the item under
    ["request:" + Date.now()] with [statusCode] 400 and the time elapsed
    up to the failure; the write lands unless the store rejects it. *)
Theorem C5_validation_failure_recorded (P : Platform)
    (env : Api.Env) (form : Form.t) (s : Api.State) (error : JS.Error) :
  Api.validate form = Throw error ->
  let s' := exec (Api.sendRequest env form) s in
  let entry := Api.itemWithId (Api.failureItem env form error) (Api.Date_now env) in
  let key := "request:" +:+ pretty (Api.Date_now env) in
  (JSON_parse (Form.headers form) = None -> error = JS.new_Error "Invalid JSON in headers")
  /\ (exists issued,
        Api.effects s' = Api.effects s ++ issued
        /\ List.filter is_fetch issued = []
        /\ List.filter is_storage_set issued = [StorageSet key (JSON_stringify_entry entry)])
  /\ Item.statusCode entry = 400
  /\ Item.duration entry = JS.Math_round (Api.performance_catch env - Api.performance_start env)
  /\ Item.response entry = Api.errorBody error
  /\ Api.statusCode s' = Some 400
  /\ (Api.storage_set_rejects env = false ->
      Api.storage s' = Storage.setItem key (JSON_stringify_entry entry) (Api.storage s)).
Proof.
  intros Hval s' entry key.
  destruct (Api_thrown_validate env form error Hval) as [Hthrown Hfetches].
  destruct (Api_sendRequest_failure_view env form s error Hthrown)
    as (_ & (logs & Heff & Hnofetch & Hnoset) & Hcode & _ & _ & Hstore).
  destruct (Api_validate_message form error Hval) as [Hcors _].
  split.
  { intros Hparse. rewrite (Api_validate_headers form Hparse) in Hval. congruence. }
  split.
  { eexists. split; [exact Heff|]. rewrite Hfetches. cbn. rewrite Hnofetch, Hnoset. now split. }
  repeat split.
  - fold s' in Hcode. now rewrite Hcode, Hcors.
  - intros Hok. fold s' in Hstore. now rewrite Hstore, Hok.
Qed.

(** ** The request executor of [Api1.jsx] *)

Section Api1Send.
Context `{Platform} (env : Api1.Env).
Local Arguments JS.Array_sort : simpl never.
Local Arguments JS.Array_slice : simpl never.
Local Arguments Api1.loadHistory : simpl never.
Local Arguments Api1.loadStats : simpl never.
Local Arguments Api1.computeStats : simpl never.
Local Arguments Api1.getRequestKeys : simpl never.
Local Arguments Api1.validate : simpl never.
Local Arguments Api1.readBody : simpl never.
Local Arguments Storage.setItem : simpl never.
Local Arguments Storage.removeItem : simpl never.
Local Arguments JS.Math_round : simpl never.
Local Arguments JS.String_includes : simpl never.
Local Arguments String.append : simpl never.
Local Arguments String.eqb : simpl never.
Local Arguments pretty : simpl never.

(** A load never throws, issues no effect, and leaves the store and the
    response panel alone. *)
Lemma Api1_loadHistory_frame pageNum append s :
  let s' := exec (Api1.loadHistory pageNum append) s in
  fst (Api1.loadHistory pageNum append s) = Normal tt
  /\ Api1.localStorage s' = Api1.localStorage s
  /\ Api1.effects s' = Api1.effects s
  /\ Api1.response s' = Api1.response s
  /\ Api1.statusCode s' = Api1.statusCode s
  /\ Api1.duration s' = Api1.duration s
  /\ Api1.loading s' = Api1.loading s
  /\ Api1.page s' = Api1.page s.
Proof.
  intros s'. subst s'. unfold exec.
  assert (Hmiss_or_hit :
    (append = true \/ Api1.historyCache s !! Api1.cacheKey pageNum = None)
    \/ (append = false /\ exists c, Api1.historyCache s !! Api1.cacheKey pageNum = Some c)).
  { destruct append; [now left; left|].
    destruct (Api1.historyCache s !! Api1.cacheKey pageNum) eqn:E; [right; eauto|now left; right]. }
  destruct Hmiss_or_hit as [Hmiss | [-> [c Hhit]]].
  - destruct (Api1.getRequestKeys (Api1.localStorage s)) as [|k ks] eqn:Hk.
    + rewrite Api1_loadHistory_empty by assumption. cbn. repeat split.
    + rewrite Api1_loadHistory_nonempty by (rewrite ?Hk; congruence). cbn. repeat split.
  - rewrite (Api1_loadHistory_hit _ _ _ Hhit). cbn. repeat split.
Qed.

Lemma Api1_loadStats_frame s :
  let s' := exec Api1.loadStats s in
  fst (Api1.loadStats s) = Normal tt
  /\ Api1.localStorage s' = Api1.localStorage s
  /\ Api1.historyCache s' = Api1.historyCache s
  /\ Api1.history s' = Api1.history s
  /\ Api1.hasMore s' = Api1.hasMore s
  /\ Api1.effects s' = Api1.effects s
  /\ Api1.response s' = Api1.response s
  /\ Api1.statusCode s' = Api1.statusCode s
  /\ Api1.duration s' = Api1.duration s
  /\ Api1.loading s' = Api1.loading s
  /\ Api1.page s' = Api1.page s.
Proof.
  intros s'. subst s'. unfold exec. rewrite Api1_loadStats_run. cbn. repeat split.
Qed.

(** Saving issues one write; when it goes through, the cache is cleared,
    page 1 is loaded again and the statistics are refreshed. *)
Lemma Api1_saveToHistory_run requestData s :
  let key := "request:" +:+ pretty (Api1.Date_now env) in
  let value := JSON_stringify_entry (Api1.itemWithId env requestData (Api1.Date_now env)) in
  let issued := Api1.with_effects (Api1.effects s ++ [StorageSet key value]) s in
  Api1.saveToHistory env requestData s =
    (Normal tt,
     if Api1.setItem_throws env
     then Api1.with_effects (Api1.effects issued ++ [ConsoleError "Failed to save history:"]) issued
     else exec Api1.loadStats
            (exec (Api1.loadHistory 1 false)
               (Api1.with_page 1
                  (Api1.with_historyCache ∅
                     (Api1.with_localStorage
                        (Storage.setItem key value (Api1.localStorage s)) issued))))).
Proof.
  intros key value issued. subst key value issued.
  unfold Api1.saveToHistory, Api1.localStorage_setItem. eff.
  destruct (Api1.setItem_throws env); eff; [reflexivity|].
  match goal with |- context [Api1.loadHistory 1 false ?st] =>
    pose proof (Api1_loadHistory_frame 1 false st) as (Hn & _);
    destruct (Api1.loadHistory 1 false st) as [r st'] eqn:Hload
  end.
  cbn in Hn. subst r.
  pose proof (Api1_loadStats_frame st') as (Hn & _).
  destruct (Api1.loadStats st') as [r st''] eqn:Hstats.
  cbn in Hn. subst r. unfold exec. cbn [fst snd]. now rewrite Hstats.
Qed.

Lemma Api1_saveToHistory_normal requestData s :
  fst (Api1.saveToHistory env requestData s) = Normal tt.
Proof. now rewrite Api1_saveToHistory_run. Qed.

Ltac save1_normal :=
  match goal with
  | |- context [Api1.saveToHistory env ?rd ?st] =>
      let Hn := fresh "Hn" in
      pose proof (Api1_saveToHistory_normal rd st) as Hn;
      destruct (Api1.saveToHistory env rd st) as [? ?];
      cbn in Hn; subst; reflexivity
  end.

Lemma Api1_sendRequest_failure form s error :
  Api1.thrown env form = Some error ->
  Api1.sendRequest env form s =
    (Normal tt,
     Api1.with_loading false
       (exec (Api1.saveToHistory env (Api1.failureItem env form error))
          (Api1.with_duration
             (Some (JS.Math_round (Api1.performance_catch env - Api1.performance_start env)))
             (Api1.with_statusCode
                (Some (if JS.String_includes (JS.message error) "CORS"
                          || String.eqb (JS.name error) "TypeError"
                       then 0 else 400))
                (Api1.with_response (Api1.errorBody error) (Api1.before_catch form s)))))).
Proof.
  intros Hthrown. unfold Api1.thrown in Hthrown.
  unfold Api1.before_catch, Api1.fetches, Api1.failureItem.
  unfold Api1.sendRequest, Api1.fetch. eff.
  destruct (Api1.validate form) as [[parsedHeaders parsedBody]|e] eqn:Hval.
  - eff. destruct (Api1.fetch_reply env) as [e|response] eqn:Hfetch.
    + injection Hthrown as ->. eff. save1_normal.
    + eff. destruct (Api1.readBody response) as [data|e] eqn:Hbody; [discriminate|].
      injection Hthrown as ->. eff. save1_normal.
  - injection Hthrown as ->. eff. save1_normal.
Qed.

Lemma Api1_sendRequest_failure_view form s error :
  Api1.thrown env form = Some error ->
  let s' := exec (Api1.sendRequest env form) s in
  let key := "request:" +:+ pretty (Api1.Date_now env) in
  let value :=
    JSON_stringify_entry
      (Api1.itemWithId env (Api1.failureItem env form error) (Api1.Date_now env)) in
  fst (Api1.sendRequest env form s) = Normal tt
  /\ (exists logs,
        Api1.effects s' = Api1.effects s ++ Api1.fetches form ++ StorageSet key value :: logs
        /\ List.filter is_fetch logs = []
        /\ List.filter is_storage_set logs = [])
  /\ Api1.statusCode s' =
       Some (if JS.String_includes (JS.message error) "CORS"
                || String.eqb (JS.name error) "TypeError"
             then 0 else 400)
  /\ Api1.duration s' =
       Some (JS.Math_round (Api1.performance_catch env - Api1.performance_start env))
  /\ Api1.response s' = Api1.errorBody error
  /\ Api1.localStorage s' =
       (if Api1.setItem_throws env then Api1.localStorage s
        else Storage.setItem key value (Api1.localStorage s)).
Proof.
  intros Hthrown s' key value. subst s'. unfold exec.
  rewrite (Api1_sendRequest_failure form s error Hthrown). cbn [fst snd].
  unfold exec. rewrite Api1_saveToHistory_run. cbn [fst snd].
  fold key value.
  assert (Hbefore : Api1.effects (Api1.before_catch form s) = Api1.effects s ++ Api1.fetches form
                    /\ Api1.localStorage (Api1.before_catch form s) = Api1.localStorage s).
  { unfold Api1.before_catch. destruct (Api1.fetches form); cbn; [now rewrite app_nil_r|auto]. }
  destruct Hbefore as [Heff Hsto].
  destruct (Api1.setItem_throws env).
  - cbn. rewrite Heff, Hsto, <- !app_assoc. repeat split.
    exists [ConsoleError "Failed to save history:"]. repeat split.
  - match goal with |- context [exec (Api1.loadHistory 1 false) ?st] =>
      remember st as saved eqn:Hsaved;
      destruct (Api1_loadHistory_frame 1 false saved)
        as (_ & Hs & Hl & Hr & Hc & Hd & _ & _);
      destruct (Api1_loadStats_frame (exec (Api1.loadHistory 1 false) saved))
        as (_ & Hs' & _ & _ & _ & Hl' & Hr' & Hc' & Hd' & _ & _)
    end.
    cbn. unfold exec in *. rewrite Hs', Hl', Hr', Hc', Hd', Hs, Hl, Hr, Hc, Hd.
    subst saved. cbn. rewrite Heff, Hsto, <- !app_assoc.
    repeat split. exists []. repeat split.
Qed.
End Api1Send.

(** C4: what the code does on a failed request. Whatever made the [try]
    block of [sendRequest] throw (a validation error, a rejected [fetch],
    an unreadable response), the item written to the store has
    [statusCode] 400; the sentinel 0 only reaches the status shown in the
    response panel. So a network-level failure is recorded with 400, not
    with 0. *)
Theorem C4_failures_recorded_as_400 (P : Platform)
    (env1 : Api1.Env) (s1 : Api1.State) (error1 : JS.Error)
    (env : Api.Env) (s : Api.State) (error : JS.Error) (form : Form.t) :
  Api1.thrown env1 form = Some error1 ->
  Api.thrown env form = Some error ->
  let entry1 := Api1.itemWithId env1 (Api1.failureItem env1 form error1) (Api1.Date_now env1) in
  let entry := Api.itemWithId (Api.failureItem env form error) (Api.Date_now env) in
  let s1' := exec (Api1.sendRequest env1 form) s1 in
  let s' := exec (Api.sendRequest env form) s in
  (List.filter is_storage_set (drop (length (Api1.effects s1)) (Api1.effects s1'))
     = [StorageSet ("request:" +:+ pretty (Api1.Date_now env1)) (JSON_stringify_entry entry1)]
   /\ Item.statusCode entry1 = 400
   /\ Api1.statusCode s1' =
        Some (if JS.String_includes (JS.message error1) "CORS"
                 || String.eqb (JS.name error1) "TypeError"
              then 0 else 400))
  /\ (List.filter is_storage_set (drop (length (Api.effects s)) (Api.effects s'))
        = [StorageSet ("request:" +:+ pretty (Api.Date_now env)) (JSON_stringify_entry entry)]
      /\ Item.statusCode entry = 400
      /\ Api.statusCode s' =
           Some (if JS.String_includes (JS.message error) "CORS" then 0 else 400)).
Proof.
  intros Hthrown1 Hthrown entry1 entry s1' s'.
  destruct (Api1_sendRequest_failure_view env1 form s1 error1 Hthrown1)
    as (_ & (logs1 & Heff1 & _ & Hset1) & Hcode1 & _).
  destruct (Api_sendRequest_failure_view env form s error Hthrown)
    as (_ & (logs & Heff & _ & Hset) & Hcode & _).
  assert (Hfetches1 : List.filter is_storage_set (Api1.fetches form) = []).
  { unfold Api1.fetches. now destruct (Api1.validate form) as [[? ?]|?]. }
  assert (Hfetches : List.filter is_storage_set (Api.fetches form) = []).
  { unfold Api.fetches. now destruct (Api.validate form) as [[? ?]|?]. }
  split; (split; [|split; [reflexivity|assumption]]).
  - subst s1'. rewrite Heff1, drop_app_length, List.filter_app, Hfetches1. cbn.
    now rewrite Hset1.
  - subst s'. rewrite Heff, drop_app_length, List.filter_app, Hfetches. cbn.
    now rewrite Hset.
Qed.

(** ** The mutations of [Api.jsx] *)

Lemma foldl_map {A B C} (g : A -> C -> A) (f : B -> C) (l : list B) : forall a,
  foldl g a (map f l) = foldl (fun a x => g a (f x)) a l.
Proof. induction l as [|x l IH]; intros a; [reflexivity|]. cbn. apply IH. Qed.


Section ApiMutations.
Context `{Platform} (env : Api.Env).
Local Arguments JS.Array_sort : simpl never.
Local Arguments JS.Array_slice : simpl never.
Local Arguments Api.loadHistory : simpl never.
Local Arguments Storage.setItem : simpl never.
Local Arguments Storage.removeItem : simpl never.
Local Arguments String.append : simpl never.
Local Arguments pretty : simpl never.
Local Arguments List.filter : simpl never.

(** Every promise of [Promise.all] runs, whatever the others do. *)
Lemma Api_Promise_all_state {A} (ps : list (M Api.State A)) : forall s,
  snd (Api.Promise_all ps s) = foldl (fun s p => snd (p s)) s ps.
Proof.
  induction ps as [|p ps IH]; intros s; [reflexivity|].
  cbn [Api.Promise_all foldl]. destruct (p s) as [r s1]. cbn [snd].
  rewrite <- IH. destruct (Api.Promise_all ps s1) as [rs s2]. reflexivity.
Qed.

Lemma Api_Promise_all_normal {A} (ps : list (M Api.State A)) : forall s,
  (forall p s', p ∈ ps -> exists a, fst (p s') = Normal a) ->
  exists l, fst (Api.Promise_all ps s) = Normal l.
Proof.
  induction ps as [|p ps IH]; intros s Hall; [now exists []|].
  cbn [Api.Promise_all].
  destruct (Hall p s ltac:(apply elem_of_cons; now left)) as [a Ha].
  destruct (p s) as [r s1]. cbn in Ha. subst r.
  destruct (IH s1) as [l Hl].
  { intros q s' Hq. apply Hall, elem_of_cons. now right. }
  destruct (Api.Promise_all ps s1) as [rs s2]. cbn in Hl. subst rs. now exists (a :: l).
Qed.

Lemma Api_Promise_all_throw {A} (ps : list (M Api.State A)) : forall s,
  (exists p, p ∈ ps /\ forall s', exists e, fst (p s') = Throw e) ->
  exists e, fst (Api.Promise_all ps s) = Throw e.
Proof.
  induction ps as [|p ps IH]; intros s (q & Hq & Hthrow).
  - now apply elem_of_nil in Hq.
  - cbn [Api.Promise_all]. apply elem_of_cons in Hq as [->|Hq].
    + destruct (Hthrow s) as [e He]. destruct (p s) as [r s1]. cbn in He. subst r.
      destruct (Api.Promise_all ps s1) as [rs s2]. now exists e.
    + destruct (p s) as [r s1].
      destruct (IH s1 (ex_intro _ q (conj Hq Hthrow))) as [e He].
      destruct (Api.Promise_all ps s1) as [rs s2]. cbn in He. subst rs.
      destruct r; eauto.
Qed.

Lemma Api_storage_delete_run key s :
  Api.storage_delete env key s =
    (if Api.storage_delete_rejects env key then Throw (Api.storage_error "delete") else Normal tt,
     let issued := Api.with_effects (Api.effects s ++ [StorageDelete key]) s in
     if Api.storage_delete_rejects env key then issued
     else Api.with_storage (Storage.removeItem key (Api.storage s)) issued).
Proof.
  unfold Api.storage_delete. eff. now destruct (Api.storage_delete_rejects env key).
Qed.

Lemma Api_deletes_state keys : forall s,
  let s' := foldl (fun s key => snd (Api.storage_delete env key s)) s keys in
  Api.storage s' = Api.delete_all env keys (Api.storage s)
  /\ Api.effects s' = Api.effects s ++ map StorageDelete keys
  /\ Api.historyCache s' = Api.historyCache s
  /\ Api.history s' = Api.history s.
Proof.
  induction keys as [|k keys IH]; intros s s'; subst s'.
  - cbn. now rewrite app_nil_r.
  - cbn [foldl map Api.delete_all]. rewrite Api_storage_delete_run. cbn [snd].
    match goal with |- context [foldl _ ?st keys] =>
      destruct (IH st) as (Hs & He & Hc & Hh) end.
    rewrite Hs, He, Hc, Hh.
    destruct (Api.storage_delete_rejects env k); cbn; rewrite <- app_assoc; auto.
Qed.

Lemma Api_clearAllHistory_view s :
  let s' := exec (Api.clearAllHistory env) s in
  fst (Api.clearAllHistory env s) = Normal tt
  /\ Api.storage s' =
       match Api.storage_list_reply env with
       | Api.ListKeys => Api.delete_all env (Api.requestKeys (Api.storage s)) (Api.storage s)
       | _ => Api.storage s
       end
  /\ (Api.clear_completes env (Api.storage s) = true ->
        Api.historyCache s' = ∅ /\ Api.history s' = [] /\ Api.totalCount s' = 0
        /\ Api.hasMore s' = false /\ Api.page s' = 1)
  /\ (Api.clear_completes env (Api.storage s) = false ->
        Api.historyCache s' = Api.historyCache s /\ Api.history s' = Api.history s).
Proof.
  intros s'. subst s'. unfold Api.clear_completes, Api.clearAllHistory. eff.
  destruct (Api.storage_list_reply env) as [e| |] eqn:Hlist; eff.
  - repeat split; discriminate.
  - repeat split; discriminate.
  - fold (Api.requestKeys (Api.storage s)).
    set (keys := Api.requestKeys (Api.storage s)).
    pose proof (Api_Promise_all_state (map (Api.storage_delete env) keys) s) as Hstate.
    rewrite foldl_map in Hstate.
    destruct (Api_deletes_state keys s) as (Hs & He & Hc & Hh).
    destruct (existsb (Api.storage_delete_rejects env) keys) eqn:Hrej.
    + destruct (Api_Promise_all_throw (map (Api.storage_delete env) keys) s) as [e He'].
      { apply existsb_exists in Hrej as (k & Hk & Hrejk).
        exists (Api.storage_delete env k). split.
        - apply list_elem_of_fmap. exists k. split; [reflexivity|now apply list_elem_of_In].
        - intros s0. rewrite Api_storage_delete_run, Hrejk. eauto. }
      destruct (Api.Promise_all (map (Api.storage_delete env) keys) s) as [r st'].
      cbn in He', Hstate. subst r st'. cbn.
      repeat split; first [discriminate | assumption | idtac].
    + destruct (Api_Promise_all_normal (map (Api.storage_delete env) keys) s) as [l Hl].
      { intros p s0 Hp. apply list_elem_of_fmap in Hp as (k & -> & Hk).
        rewrite Api_storage_delete_run.
        assert (Hrejk : Api.storage_delete_rejects env k = false).
        { destruct (Api.storage_delete_rejects env k) eqn:E; [|reflexivity].
          assert (Hex : existsb (Api.storage_delete_rejects env) keys = true)
            by (apply existsb_exists; exists k; split; [now apply list_elem_of_In|exact E]).
          congruence. }
        rewrite Hrejk. eauto. }
      destruct (Api.Promise_all (map (Api.storage_delete env) keys) s) as [r st'].
      cbn in Hl, Hstate. subst r st'. cbn.
      repeat split; first [discriminate | assumption | idtac].
Qed.

Lemma Api_deleteHistoryItem_run id s :
  let key := "request:" +:+ pretty id in
  let issued := Api.with_effects (Api.effects s ++ [StorageDelete key]) s in
  Api.deleteHistoryItem env id s =
    (Normal tt,
     if Api.storage_delete_rejects env key
     then Api.with_effects (Api.effects issued ++ [ConsoleError "Failed to delete:"]) issued
     else exec (Api.loadHistory env 1 false)
            (Api.with_page 1
               (Api.with_historyCache ∅
                  (Api.with_storage (Storage.removeItem key (Api.storage s)) issued)))).
Proof.
  intros key issued. subst key issued.
  unfold Api.deleteHistoryItem, Api.storage_delete. eff.
  destruct (Api.storage_delete_rejects env _); eff; [reflexivity|].
  match goal with |- context [Api.loadHistory env 1 false ?st] =>
    pose proof (Api_loadHistory_frame env 1 false st) as (Hn & _);
    destruct (Api.loadHistory env 1 false st) as [r st'] eqn:Hload
  end.
  cbn in Hn. subst r. reflexivity.
Qed.

End ApiMutations.

Section ApiCacheClearing.
Context `{Platform} (env : Api.Env).
Local Arguments Api.loadHistory : simpl never.
Local Arguments Storage.setItem : simpl never.
Local Arguments Storage.removeItem : simpl never.
Local Arguments String.append : simpl never.
Local Arguments pretty : simpl never.
Local Arguments List.filter : simpl never.

Lemma Api_delete_all_unrejected keys st :
  (forall key, Api.storage_delete_rejects env key = false) ->
  Api.delete_all env keys st = foldl (fun st key => Storage.removeItem key st) st keys.
Proof.
  intros Hok. unfold Api.delete_all. revert st.
  induction keys as [|k keys IH]; intros st; [reflexivity|].
  cbn [foldl]. rewrite Hok. apply IH.
Qed.

End ApiCacheClearing.


(** ** The mutations of [Api1.jsx] *)

Section Api1Mutations.
Context `{Platform}.
Local Arguments Api1.loadHistory : simpl never.
Local Arguments Api1.loadStats : simpl never.
Local Arguments Api1.getRequestKeys : simpl never.
Local Arguments Storage.setItem : simpl never.
Local Arguments Storage.removeItem : simpl never.
Local Arguments String.append : simpl never.
Local Arguments pretty : simpl never.

Lemma Api1_getRequestKeys_reserved ls :
  Api1.getRequestKeys ls = List.filter reserved (Storage.keys ls).
Proof.
  unfold Api1.getRequestKeys. apply List.filter_ext. intros key.
  destruct key; reflexivity.
Qed.

Lemma Api1_localStorage_removeItem_run key s :
  Api1.localStorage_removeItem key s =
    (Normal tt,
     Api1.with_localStorage (Storage.removeItem key (Api1.localStorage s))
       (Api1.with_effects (Api1.effects s ++ [StorageDelete key]) s)).
Proof. reflexivity. Qed.

Lemma Api1_forEach_remove keys : forall s,
  fst (Api1.forEach Api1.localStorage_removeItem keys s) = Normal tt
  /\ Api1.localStorage (exec (Api1.forEach Api1.localStorage_removeItem keys) s)
     = foldl (fun st key => Storage.removeItem key st) (Api1.localStorage s) keys.
Proof.
  induction keys as [|k keys IH]; intros s; [now split|].
  change (Api1.forEach Api1.localStorage_removeItem (k :: keys) s)
    with (bind (Api1.localStorage_removeItem k)
            (fun _ => Api1.forEach Api1.localStorage_removeItem keys) s).
  unfold exec, bind. rewrite Api1_localStorage_removeItem_run.
  apply IH.
Qed.

(** The store after each mutation. *)
Lemma Api1_clearAllHistory_store s :
  Api1.localStorage (exec Api1.clearAllHistory s) = unreserved (Api1.localStorage s).
Proof.
  unfold exec, Api1.clearAllHistory. eff.
  destruct (Api1_forEach_remove (Api1.getRequestKeys (Api1.localStorage s)) s) as [Hn Hs].
  unfold exec in Hs.
  destruct (Api1.forEach _ _ s) as [r st']. cbn in Hn, Hs. subst r. eff.
  match goal with |- context [Api1.loadStats ?st] =>
    destruct (Api1_loadStats_frame st) as (Hn' & Hs' & _);
    unfold exec in Hs'; destruct (Api1.loadStats st) as [r st'']
  end.
  cbn in Hn', Hs'. subst r. cbn. rewrite Hs'. cbn. rewrite Hs.
  rewrite Api1_getRequestKeys_reserved. apply removeItem_reserved.
Qed.

Lemma Api1_deleteHistoryItem_store id s :
  Api1.localStorage (exec (Api1.deleteHistoryItem id) s)
  = Storage.removeItem ("request:" +:+ pretty id) (Api1.localStorage s).
Proof.
  unfold exec, Api1.deleteHistoryItem, Api1.localStorage_removeItem. eff.
  match goal with |- context [Api1.loadHistory 1 false ?st] =>
    destruct (Api1_loadHistory_frame 1 false st) as (Hn & Hs & _);
    unfold exec in Hs; destruct (Api1.loadHistory 1 false st) as [r st']
  end.
  cbn in Hn, Hs. subst r. eff.
  destruct (Api1_loadStats_frame st') as (Hn' & Hs' & _).
  unfold exec in Hs'. destruct (Api1.loadStats st') as [r st''].
  cbn in Hn', Hs'. subst r. cbn. now rewrite Hs', Hs.
Qed.

Lemma Api1_saveToHistory_store env requestData s :
  Api1.localStorage (exec (Api1.saveToHistory env requestData) s)
  = if Api1.setItem_throws env then Api1.localStorage s
    else Storage.setItem ("request:" +:+ pretty (Api1.Date_now env))
           (JSON_stringify_entry (Api1.itemWithId env requestData (Api1.Date_now env)))
           (Api1.localStorage s).
Proof.
  unfold exec. rewrite Api1_saveToHistory_run. cbn [snd].
  destruct (Api1.setItem_throws env); [reflexivity|].
  match goal with |- context [exec Api1.loadStats ?st] =>
    destruct (Api1_loadStats_frame st) as (_ & Hs' & _); rewrite Hs' end.
  match goal with |- context [exec (Api1.loadHistory 1 false) ?st] =>
    destruct (Api1_loadHistory_frame 1 false st) as (_ & Hs & _); rewrite Hs end.
  reflexivity.
Qed.
End Api1Mutations.

Section ApiStores.
Context `{Platform} (env : Api.Env).
Local Arguments Api.loadHistory : simpl never.
Local Arguments Storage.setItem : simpl never.
Local Arguments Storage.removeItem : simpl never.
Local Arguments String.append : simpl never.
Local Arguments pretty : simpl never.

Lemma Api_saveToHistory_store requestData s :
  Api.storage (exec (Api.saveToHistory env requestData) s)
  = if Api.storage_set_rejects env then Api.storage s
    else Storage.setItem ("request:" +:+ pretty (Api.Date_now env))
           (JSON_stringify_entry (Api.itemWithId requestData (Api.Date_now env)))
           (Api.storage s).
Proof.
  unfold exec. rewrite Api_saveToHistory_run. cbn [snd].
  destruct (Api.storage_set_rejects env); [reflexivity|].
  match goal with |- context [exec (Api.loadHistory env 1 false) ?st] =>
    destruct (Api_loadHistory_frame env 1 false st) as (_ & Hs & _); rewrite Hs end.
  reflexivity.
Qed.

Lemma Api_deleteHistoryItem_store id s :
  Api.storage (exec (Api.deleteHistoryItem env id) s)
  = if Api.storage_delete_rejects env ("request:" +:+ pretty id) then Api.storage s
    else Storage.removeItem ("request:" +:+ pretty id) (Api.storage s).
Proof.
  unfold exec. rewrite Api_deleteHistoryItem_run. cbn [snd].
  destruct (Api.storage_delete_rejects env _); [reflexivity|].
  match goal with |- context [exec (Api.loadHistory env 1 false) ?st] =>
    destruct (Api_loadHistory_frame env 1 false st) as (_ & Hs & _); rewrite Hs end.
  reflexivity.
Qed.

(** Deleting reserved keys, some perhaps in vain, leaves the others. *)
Lemma getItem_delete_all key keys : forall st,
  reserved key = false ->
  (forall k, k ∈ keys -> reserved k = true) ->
  Storage.getItem key (Api.delete_all env keys st) = Storage.getItem key st.
Proof.
  induction keys as [|k keys IH]; intros st Hkey Hkeys; [reflexivity|].
  change (Api.delete_all env (k :: keys) st)
    with (Api.delete_all env keys
            (if Api.storage_delete_rejects env k then st else Storage.removeItem k st)).
  rewrite IH; [|exact Hkey|intros k' Hk'; apply Hkeys, elem_of_cons; now right].
  destruct (Api.storage_delete_rejects env k); [reflexivity|].
  apply getItem_removeItem_ne. intros ->.
  rewrite (Hkeys k) in Hkey by (apply elem_of_cons; now left). discriminate.
Qed.

Lemma Api_clearAllHistory_frame key s :
  reserved key = false ->
  Storage.getItem key (Api.storage (exec (Api.clearAllHistory env) s))
  = Storage.getItem key (Api.storage s).
Proof.
  intros Hkey. destruct (Api_clearAllHistory_view env s) as (_ & Hs & _).
  rewrite Hs. destruct (Api.storage_list_reply env); try reflexivity.
  apply getItem_delete_all; [exact Hkey|].
  intros k Hk. unfold Api.requestKeys in Hk.
  apply list_elem_of_In, List.filter_In in Hk. apply Hk.
Qed.
End ApiStores.

(** C10: the mutations touch only the reserved keys. A clear that goes
    through leaves exactly the bindings whose key does not begin with
    ["request:"]; a delete that goes through removes the one key
    ["request:" + id]; and a key that does not begin with ["request:"]
    reads the same after a save, a delete and a clear, also when the store
    rejects some of the operations. *)
Theorem C10_mutations_touch_reserved_keys (P : Platform)
    (env1 : Api1.Env) (s1 : Api1.State) (requestData1 : Api1.RequestData.t)
    (env any : Api.Env) (s : Api.State) (requestData : Api.RequestData.t) (id : Z) :
  Api.storage_list_reply env = Api.ListKeys ->
  (forall key, Api.storage_delete_rejects env key = false) ->
  (Api1.localStorage (exec Api1.clearAllHistory s1) = unreserved (Api1.localStorage s1)
   /\ Api.storage (exec (Api.clearAllHistory env) s) = unreserved (Api.storage s)
   /\ forall st key,
        Storage.getItem key (unreserved st)
        = if reserved key then None else Storage.getItem key st)
  /\ (Api1.localStorage (exec (Api1.deleteHistoryItem id) s1)
      = Storage.removeItem ("request:" +:+ pretty id) (Api1.localStorage s1)
      /\ Api.storage (exec (Api.deleteHistoryItem env id) s)
         = Storage.removeItem ("request:" +:+ pretty id) (Api.storage s)
      /\ forall st key key',
           Storage.getItem key' (Storage.removeItem key st)
           = if decide (key' = key) then None else Storage.getItem key' st)
  /\ (forall key, reserved key = false ->
        let same1 s1' :=
          Storage.getItem key (Api1.localStorage s1') = Storage.getItem key (Api1.localStorage s1) in
        let same s' :=
          Storage.getItem key (Api.storage s') = Storage.getItem key (Api.storage s) in
        same1 (exec (Api1.saveToHistory env1 requestData1) s1)
        /\ same1 (exec (Api1.deleteHistoryItem id) s1)
        /\ same1 (exec Api1.clearAllHistory s1)
        /\ same (exec (Api.saveToHistory any requestData) s)
        /\ same (exec (Api.deleteHistoryItem any id) s)
        /\ same (exec (Api.clearAllHistory any) s)).
Proof.
  intros Hlist Hdel.
  assert (Hremove : forall st key key',
            Storage.getItem key' (Storage.removeItem key st)
            = if decide (key' = key) then None else Storage.getItem key' st).
  { intros st key key'. destruct (decide (key' = key)) as [->|Hne].
    - apply getItem_removeItem_eq.
    - now apply getItem_removeItem_ne. }
  assert (Hrequest : forall key (n : Z), reserved key = false -> key <> "request:" +:+ pretty n).
  { intros key n Hkey ->. now rewrite reserved_request_key in Hkey. }
  split; [|split].
  - split; [apply Api1_clearAllHistory_store|].
    split; [|intros st key; apply getItem_unreserved].
    destruct (Api_clearAllHistory_view env s) as (_ & Hs & _).
    rewrite Hs, Hlist, Api_delete_all_unrejected by exact Hdel. apply removeItem_reserved.
  - split; [apply Api1_deleteHistoryItem_store|]. split; [|exact Hremove].
    now rewrite Api_deleteHistoryItem_store, Hdel.
  - intros key Hkey same1 same. subst same1 same. cbv beta.
    rewrite Api1_saveToHistory_store, Api1_deleteHistoryItem_store, Api1_clearAllHistory_store,
      Api_saveToHistory_store, Api_deleteHistoryItem_store.
    repeat split.
    + destruct (Api1.setItem_throws env1); [reflexivity|].
      apply getItem_setItem_ne. now apply Hrequest.
    + apply getItem_removeItem_ne. now apply Hrequest.
    + now rewrite getItem_unreserved, Hkey.
    + destruct (Api.storage_set_rejects any); [reflexivity|].
      apply getItem_setItem_ne. now apply Hrequest.
    + destruct (Api.storage_delete_rejects any _); [reflexivity|].
      apply getItem_removeItem_ne. now apply Hrequest.
    + now apply Api_clearAllHistory_frame.
Qed.
(** ** More on the statistics *)

Lemma total_duration_bounds (lo hi : Z) (l : list HistoryEntry) :
  Forall (fun e => lo <= Item.duration e <= hi) l ->
  Z.of_nat (length l) * lo <= total_duration l <= Z.of_nat (length l) * hi.
Proof.
  induction 1 as [|e l He Hall IH]; [cbn; lia|].
  cbn [total_duration foldr length]. fold (total_duration l). lia.
Qed.

(** The average lies between the extremes: when every duration of a
    non-empty list is between [lo] and [hi], so is [avgDuration]. *)
Theorem average_between_extremes (historyData : list HistoryEntry) (lo hi : Z) :
  historyData <> [] ->
  Forall (fun e => lo <= Item.duration e <= hi) historyData ->
  lo <= Stats.avgDuration (Api1.computeStats historyData) <= hi.
Proof.
  intros Hne Hall. rewrite computeStats_nonempty by exact Hne. cbn [Stats.avgDuration].
  pose proof (total_duration_bounds lo hi historyData Hall) as Hsum.
  assert (Hn : 0 < Z.of_nat (length historyData)) by (destruct historyData; [contradiction|cbn; lia]).
  pose proof (Math_round_nearest (total_duration historyData) _ Hn) as Hround.
  cbv zeta in Hround.
  set (r := JS.Math_round _) in *. set (n := Z.of_nat (length historyData)) in *.
  set (sum := total_duration historyData) in *.
  split; nia.
Qed.

Section CounterSums.
Implicit Types (acc : list (Method * Z)) (m : Method) (l : list HistoryEntry).

Lemma sum_count_method acc m :
  foldr Z.add 0 (map snd (Api1.count_method acc m)) = foldr Z.add 0 (map snd acc) + 1.
Proof.
  induction acc as [|[k c] acc IH]; [reflexivity|].
  cbn [Api1.count_method]. destruct (decide (k = m)); cbn [map foldr snd].
  - rewrite number_or_zero. lia.
  - rewrite IH. lia.
Qed.

Lemma sum_methodCounts l : forall acc,
  foldr Z.add 0
    (map snd (foldl (fun acc item => Api1.count_method acc (Item.method item)) acc l))
  = foldr Z.add 0 (map snd acc) + Z.of_nat (length l).
Proof.
  induction l as [|e l IH]; intros acc; [cbn; lia|].
  cbn [foldl length]. rewrite IH, sum_count_method. lia.
Qed.

Lemma sum_Permutation (a b : list Z) :
  Permutation a b -> foldr Z.add 0 a = foldr Z.add 0 b.
Proof. induction 1; cbn; lia. Qed.

Lemma sum_take_le (n : nat) (a : list Z) :
  Forall (fun c => 0 < c) a ->
  foldr Z.add 0 (take n a) <= foldr Z.add 0 a
  /\ (foldr Z.add 0 (take n a) = foldr Z.add 0 a <-> (length a <= n)%nat).
Proof.
  intros Hall. revert n. induction Hall as [|c a Hc Hall IH]; intros n.
  - rewrite take_nil. cbn. split; [lia|]. split; [lia|reflexivity].
  - destruct n as [|n]; cbn [take foldr length].
    + assert (Hpos : 0 <= foldr Z.add 0 a) by (clear IH; induction Hall; cbn; lia).
      split; [lia|]. split; lia.
    + destruct (IH n) as [Hle Hiff]. split; [lia|]. rewrite <- Nat.succ_le_mono, <- Hiff. lia.
Qed.
End CounterSums.

(** The counters shown never add up to more than the total, and they add
    up to the total exactly when the list uses at most three methods. *)
Theorem method_counts_within_total (historyData : list HistoryEntry) :
  let result := Api1.computeStats historyData in
  let shown := foldr Z.add 0 (map Stats.count (Stats.methodStats result)) in
  shown <= Stats.total result
  /\ (shown = Stats.total result <-> (length (distinct_methods historyData) <= 3)%nat).
Proof.
  intros result shown. subst result shown.
  destruct historyData as [|e l] eqn:Hdata; [cbn; split; [lia|]; split; [lia|reflexivity]|].
  rewrite <- Hdata. assert (Hne : historyData <> []) by now rewrite Hdata.
  clear Hdata. rewrite computeStats_nonempty by exact Hne.
  cbn [Stats.total Stats.methodStats].
  set (counts := foldl (fun acc item => Api1.count_method acc (Item.method item)) [] historyData).
  set (sorted := JS.Array_sort (by_key_desc Stats.count) (map mkStat counts)).
  pose proof (counts_agree_methodCounts historyData) as Hagree. fold counts in Hagree.
  assert (Hperm : Permutation (map Stats.count sorted) (map snd counts)).
  { unfold sorted. rewrite Array_sort_perm, map_map.
    erewrite map_ext; [reflexivity|]. now intros [m c]. }
  assert (Hsum : foldr Z.add 0 (map Stats.count sorted) = Z.of_nat (length historyData)).
  { rewrite (sum_Permutation _ _ Hperm). unfold counts. now rewrite sum_methodCounts. }
  assert (Hpos : Forall (fun c => 0 < c) (map Stats.count sorted)).
  { eapply Permutation_Forall; [symmetry; exact Hperm|].
    apply Forall_forall. intros c Hc. apply list_elem_of_fmap in Hc as ([m c'] & -> & Hin).
    destruct Hagree as (Hnd & Hcount & Hp).
    rewrite <- (lookup_count_elem counts m c' Hnd Hin). apply Hp.
    apply list_elem_of_fmap. now exists (m, c'). }
  destruct (sum_take_le 3 _ Hpos) as [Hle Hiff].
  rewrite <- (firstn_map Stats.count) in *.
  change (@firstn Z) with (@take Z) in *.
  rewrite Hsum in Hle, Hiff.
  rewrite length_map in Hiff. unfold sorted in Hiff at 2.
  rewrite Array_sort_length, length_map, (counts_agree_length counts historyData Hagree) in Hiff.
  split; [exact Hle|exact Hiff].
Qed.

(** ** The status badge *)

(** The label of the status badge: 0 is a network error, the hundreds
    from 200 to 499 are success, redirect and client error, and every
    other status, the informational ones from 100 to 199 and the negative
    ones included, is labelled a server error; two statuses get the same
    label exactly when they get the same colour. *)
Theorem status_badge_classes (status : Z) :
  (getStatusText status = "Network Error" <-> status = 0)
  /\ (getStatusText status = "Success" <-> 200 <= status < 300)
  /\ (getStatusText status = "Redirect" <-> 300 <= status < 400)
  /\ (getStatusText status = "Client Error" <-> 400 <= status < 500)
  /\ (getStatusText status = "Server Error" <->
        status < 0 \/ 0 < status < 200 \/ 500 <= status)
  /\ (forall other,
        getStatusText status = getStatusText other <->
        getStatusColor status = getStatusColor other).
Proof.
  assert (Hclass : forall x,
    (x = 0 /\ getStatusText x = "Network Error"
       /\ getStatusColor x = "text-gray-600 bg-gray-50")
    \/ (200 <= x < 300 /\ getStatusText x = "Success"
          /\ getStatusColor x = "text-green-600 bg-green-50")
    \/ (300 <= x < 400 /\ getStatusText x = "Redirect"
          /\ getStatusColor x = "text-blue-600 bg-blue-50")
    \/ (400 <= x < 500 /\ getStatusText x = "Client Error"
          /\ getStatusColor x = "text-orange-600 bg-orange-50")
    \/ ((x < 0 \/ 0 < x < 200 \/ 500 <= x) /\ getStatusText x = "Server Error"
          /\ getStatusColor x = "text-red-600 bg-red-50")).
  { intros x. unfold getStatusText, getStatusColor.
    destruct (Z.eqb_spec x 0); [now left|].
    destruct (Z.leb_spec 200 x), (Z.ltb_spec x 300); cbn [andb];
      try (right; left; split; [lia|now split]);
      destruct (Z.leb_spec 300 x), (Z.ltb_spec x 400); cbn [andb];
      try (right; right; left; split; [lia|now split]);
      destruct (Z.leb_spec 400 x), (Z.ltb_spec x 500); cbn [andb];
      try (right; right; right; left; split; [lia|now split]);
      right; right; right; right; (split; [lia|now split]). }
  destruct (Hclass status)
    as [(Hr & Ht & Hc)|[(Hr & Ht & Hc)|[(Hr & Ht & Hc)|[(Hr & Ht & Hc)|(Hr & Ht & Hc)]]]];
    rewrite Ht, Hc;
    (do 5 (split; [split; intros; first [discriminate | lia | assumption | reflexivity]|]));
    intros other;
    destruct (Hclass other)
      as [(_ & -> & ->)|[(_ & -> & ->)|[(_ & -> & ->)|[(_ & -> & ->)|(_ & -> & ->)]]]];
    split; intros; first [reflexivity | discriminate].
Qed.
(** ** What a request carries *)

(** The body of the request. It is sent only for POST, PUT and PATCH, only
    when the body field is not blank, and only when the value it parses to
    is truthy; what is sent is that value printed again, not the text of
    the field. For the other methods the body field is not even parsed.
    Both files read the same here. *)
Theorem request_body_rule (P : Platform) (form : Form.t) (parsedHeaders parsedBody : Json) :
  Api.validate form = Normal (parsedHeaders, parsedBody) ->
  let options := Api.fetchOptionsOf form parsedHeaders parsedBody in
  fetch_body options
  = (if has_body (Form.method form) && truthy_string (String_trim (Form.body form))
     then match JSON_parse (Form.body form) with
          | Some v => if truthy v then Some (JSON_stringify v) else None
          | None => None
          end
     else None)
  /\ fetch_method options = Form.method form
  /\ JSON_parse (Form.headers form) = Some (fetch_headers options)
  /\ (has_body (Form.method form) = false ->
      forall body,
        Api.validate {| Form.method := Form.method form; Form.url := Form.url form;
                        Form.headers := Form.headers form; Form.body := body |}
        = Normal (parsedHeaders, JNull))
  /\ Api1.validate form = Api.validate form
  /\ Api1.fetchOptionsOf form parsedHeaders parsedBody = options.
Proof.
  intros Hval options. subst options.
  unfold Api.validate in Hval. unfold Api.fetchOptionsOf. cbn [fetch_body fetch_method fetch_headers].
  destruct (JSON_parse (Form.headers form)) as [hs|] eqn:Hhs; [|discriminate].
  assert (Hrest : forall pb,
    (if negb (truthy_string (String_trim (Form.url form)))
     then Throw (JS.new_Error "URL is required")
     else if negb (URL_valid (Form.url form))
          then Throw (JS.new_Error "Invalid URL format")
          else Normal (hs, pb)) = Normal (parsedHeaders, parsedBody) ->
    hs = parsedHeaders /\ pb = parsedBody
    /\ negb (truthy_string (String_trim (Form.url form))) = false
    /\ negb (URL_valid (Form.url form)) = false).
  { intros pb Hpb.
    destruct (negb (truthy_string (String_trim (Form.url form)))); [discriminate|].
    destruct (negb (URL_valid (Form.url form))); [discriminate|].
    injection Hpb as -> ->. auto. }
  rewrite (andb_comm (has_body _)).
  destruct (truthy_string (String_trim (Form.body form)) && has_body (Form.method form)) eqn:Hneeded.
  - destruct (JSON_parse (Form.body form)) as [v|] eqn:Hbody; [|discriminate].
    apply Hrest in Hval as (-> & -> & Hurl & Hvalid).
    apply andb_true_iff in Hneeded as [_ Hm]. rewrite Hm, andb_true_r.
    repeat split.
    + intros Hno. discriminate.
    + unfold Api1.fetchOptionsOf. now rewrite Hm, andb_true_r.
  - apply Hrest in Hval as (-> & <- & Hurl & Hvalid). cbn [truthy andb].
    repeat split. intros Hno body. unfold Api.validate. cbn [Form.headers Form.body Form.method Form.url].
    rewrite Hhs, Hno, andb_false_r, Hurl, Hvalid. reflexivity.
Qed.

(** ** Every path of [sendRequest] *)

Section ApiAnswer.
Context `{Platform} (env : Api.Env).
Local Arguments JS.Array_sort : simpl never.
Local Arguments JS.Array_slice : simpl never.
Local Arguments Api.loadHistory : simpl never.
Local Arguments Api.saveToHistory : simpl never.
Local Arguments Api.validate : simpl never.
Local Arguments Api.readBody : simpl never.
Local Arguments Storage.setItem : simpl never.
Local Arguments Storage.removeItem : simpl never.
Local Arguments JS.Math_round : simpl never.
Local Arguments JS.String_includes : simpl never.
Local Arguments String.append : simpl never.
Local Arguments pretty : simpl never.

(** An answered request: the answer is shown and recorded as it is. *)
Lemma Api_sendRequest_answer form s parsedHeaders parsedBody response responseData :
  Api.validate form = Normal (parsedHeaders, parsedBody) ->
  Api.fetch_reply env = FetchResolves response ->
  Api.readBody response = Normal responseData ->
  let requestData := Api.answerItem env form response responseData in
  Api.sendRequest env form s =
    (Normal tt,
     Api.with_loading false
       (exec (Api.saveToHistory env requestData)
          (Api.with_duration (Some (Api.RequestData.duration requestData))
             (Api.with_statusCode (Some (Response.status response))
                (Api.with_response (Api.RequestData.response requestData)
                   (Api.before_catch form s)))))).
Proof.
  intros Hval Hfetch Hbody requestData. subst requestData.
  unfold Api.before_catch, Api.fetches, Api.answerItem.
  unfold Api.sendRequest, Api.fetch. eff.
  rewrite Hval. eff. rewrite Hfetch. eff. rewrite Hbody. eff.
  match goal with
  | |- context [Api.saveToHistory env ?rd ?st] =>
      pose proof (Api_saveToHistory_normal env rd st) as Hn;
      destruct (Api.saveToHistory env rd st) as [? ?];
      cbn in Hn; subst; reflexivity
  end.
Qed.

(** Whatever happens, a send shows an outcome and saves one item made
    from the form as it stands. *)
Lemma Api_sendRequest_run form :
  exists requestData code,
    (forall s,
       Api.sendRequest env form s =
         (Normal tt,
          Api.with_loading false
            (exec (Api.saveToHistory env requestData)
               (Api.with_duration (Some (Api.RequestData.duration requestData))
                  (Api.with_statusCode (Some code)
                     (Api.with_response (Api.RequestData.response requestData)
                        (Api.before_catch form s)))))))
    /\ Api.RequestData.method requestData = Form.method form
    /\ Api.RequestData.url requestData = Form.url form
    /\ Api.RequestData.headers requestData = Form.headers form
    /\ Api.RequestData.body requestData = Form.body form.
Proof.
  destruct (Api.thrown env form) as [error|] eqn:Hthrown.
  - exists (Api.failureItem env form error).
    eexists. split; [intros s; apply (Api_sendRequest_failure env form s error Hthrown)|].
    repeat split.
  - unfold Api.thrown in Hthrown.
    destruct (Api.validate form) as [[parsedHeaders parsedBody]|e] eqn:Hval; [|discriminate].
    destruct (Api.fetch_reply env) as [e|response] eqn:Hfetch; [discriminate|].
    destruct (Api.readBody response) as [responseData|e] eqn:Hbody; [|discriminate].
    exists (Api.answerItem env form response responseData).
    eexists. split; [intros s; now apply (Api_sendRequest_answer form s parsedHeaders parsedBody)|].
    repeat split.
Qed.

(** The state in which the outcome of a send is shown differs from the
    state before only in the response panel and the network call. *)
Lemma Api_before_catch_frame form s :
  let s0 := Api.before_catch form s in
  Api.effects s0 = Api.effects s ++ Api.fetches form
  /\ Api.storage s0 = Api.storage s
  /\ Api.historyCache s0 = Api.historyCache s
  /\ Api.history s0 = Api.history s
  /\ Api.page s0 = Api.page s
  /\ Api.totalCount s0 = Api.totalCount s
  /\ Api.hasMore s0 = Api.hasMore s
  /\ Api.isLoadingHistory s0 = Api.isLoadingHistory s.
Proof.
  unfold Api.before_catch. destruct (Api.fetches form); cbn; rewrite ?app_nil_r; repeat split.
Qed.

(** The effects of a save: the write, then at most a console message. *)
Lemma Api_saveToHistory_effects requestData s :
  exists logs,
    Api.effects (exec (Api.saveToHistory env requestData) s)
    = Api.effects s
      ++ StorageSet ("request:" +:+ pretty (Api.Date_now env))
           (JSON_stringify_entry (Api.itemWithId requestData (Api.Date_now env))) :: logs
    /\ List.filter is_fetch logs = []
    /\ List.filter is_storage_set logs = [].
Proof.
  unfold exec. rewrite Api_saveToHistory_run. cbn [snd].
  destruct (Api.storage_set_rejects env).
  - cbn. rewrite <- app_assoc. eexists. split; [reflexivity|]. now split.
  - match goal with |- context [exec (Api.loadHistory env 1 false) ?st] =>
      remember st as saved eqn:Hsaved;
      destruct (Api_loadHistory_frame env 1 false saved)
        as (_ & _ & _ & _ & _ & _ & _ & logs & Hl & Hlogs)
    end.
    rewrite Hl. subst saved. cbn. rewrite <- app_assoc. exists logs.
    split; [reflexivity|]. destruct Hlogs as [-> | ->]; now split.
Qed.
End ApiAnswer.

Section Api1Answer.
Context `{Platform} (env : Api1.Env).
Local Arguments JS.Array_sort : simpl never.
Local Arguments JS.Array_slice : simpl never.
Local Arguments Api1.loadHistory : simpl never.
Local Arguments Api1.loadStats : simpl never.
Local Arguments Api1.saveToHistory : simpl never.
Local Arguments Api1.computeStats : simpl never.
Local Arguments Api1.getRequestKeys : simpl never.
Local Arguments Api1.validate : simpl never.
Local Arguments Api1.readBody : simpl never.
Local Arguments Storage.setItem : simpl never.
Local Arguments Storage.removeItem : simpl never.
Local Arguments JS.Math_round : simpl never.
Local Arguments JS.String_includes : simpl never.
Local Arguments String.append : simpl never.
Local Arguments String.eqb : simpl never.
Local Arguments pretty : simpl never.

Lemma Api1_sendRequest_answer form s parsedHeaders parsedBody response responseData :
  Api1.validate form = Normal (parsedHeaders, parsedBody) ->
  Api1.fetch_reply env = FetchResolves response ->
  Api1.readBody response = Normal responseData ->
  let requestData := Api1.answerItem env form parsedHeaders response responseData in
  Api1.sendRequest env form s =
    (Normal tt,
     Api1.with_loading false
       (exec (Api1.saveToHistory env requestData)
          (Api1.with_duration (Some (Api1.RequestData.duration requestData))
             (Api1.with_statusCode (Some (Response.status response))
                (Api1.with_response (Api1.RequestData.response requestData)
                   (Api1.before_catch form s)))))).
Proof.
  intros Hval Hfetch Hbody requestData. subst requestData.
  unfold Api1.before_catch, Api1.fetches, Api1.answerItem.
  unfold Api1.sendRequest, Api1.fetch. eff.
  rewrite Hval. eff. rewrite Hfetch. eff. rewrite Hbody. eff.
  match goal with
  | |- context [Api1.saveToHistory env ?rd ?st] =>
      pose proof (Api1_saveToHistory_normal env rd st) as Hn;
      destruct (Api1.saveToHistory env rd st) as [? ?];
      cbn in Hn; subst; reflexivity
  end.
Qed.

Lemma Api1_sendRequest_run form :
  exists requestData code,
    (forall s,
       Api1.sendRequest env form s =
         (Normal tt,
          Api1.with_loading false
            (exec (Api1.saveToHistory env requestData)
               (Api1.with_duration (Some (Api1.RequestData.duration requestData))
                  (Api1.with_statusCode (Some code)
                     (Api1.with_response (Api1.RequestData.response requestData)
                        (Api1.before_catch form s)))))))
    /\ Api1.RequestData.method requestData = Form.method form
    /\ Api1.RequestData.url requestData = Form.url form
    /\ Api1.RequestData.headers requestData
       = match JSON_parse (Form.headers form) with Some v => v | None => JObject [] end
    /\ Api1.RequestData.body requestData = Form.body form.
Proof.
  destruct (Api1.thrown env form) as [error|] eqn:Hthrown.
  - exists (Api1.failureItem env form error).
    eexists. split; [intros s; apply (Api1_sendRequest_failure env form s error Hthrown)|].
    repeat split.
  - unfold Api1.thrown in Hthrown.
    destruct (Api1.validate form) as [[parsedHeaders parsedBody]|e] eqn:Hval; [|discriminate].
    destruct (Api1.fetch_reply env) as [e|response] eqn:Hfetch; [discriminate|].
    destruct (Api1.readBody response) as [responseData|e] eqn:Hbody; [|discriminate].
    exists (Api1.answerItem env form parsedHeaders response responseData).
    eexists. split; [intros s; now apply (Api1_sendRequest_answer form s parsedHeaders parsedBody)|].
    repeat split. cbn.
    unfold Api1.validate in Hval.
    destruct (JSON_parse (Form.headers form)) as [hs|]; [|discriminate].
    destruct (truthy_string (String_trim (Form.body form)) && has_body (Form.method form));
      [destruct (JSON_parse (Form.body form)); [|discriminate]|];
      (destruct (negb (truthy_string (String_trim (Form.url form)))); [discriminate|];
       destruct (negb (URL_valid (Form.url form))); [discriminate|];
       now injection Hval as -> _).
Qed.

Lemma Api1_before_catch_frame form s :
  let s0 := Api1.before_catch form s in
  Api1.effects s0 = Api1.effects s ++ Api1.fetches form
  /\ Api1.localStorage s0 = Api1.localStorage s
  /\ Api1.historyCache s0 = Api1.historyCache s
  /\ Api1.history s0 = Api1.history s
  /\ Api1.page s0 = Api1.page s
  /\ Api1.totalCount s0 = Api1.totalCount s
  /\ Api1.hasMore s0 = Api1.hasMore s
  /\ Api1.isLoadingHistory s0 = Api1.isLoadingHistory s
  /\ Api1.stats s0 = Api1.stats s.
Proof.
  unfold Api1.before_catch. destruct (Api1.fetches form); cbn; rewrite ?app_nil_r; repeat split.
Qed.

Lemma Api1_saveToHistory_effects requestData s :
  exists logs,
    Api1.effects (exec (Api1.saveToHistory env requestData) s)
    = Api1.effects s
      ++ StorageSet ("request:" +:+ pretty (Api1.Date_now env))
           (JSON_stringify_entry (Api1.itemWithId env requestData (Api1.Date_now env))) :: logs
    /\ List.filter is_fetch logs = []
    /\ List.filter is_storage_set logs = [].
Proof.
  unfold exec. rewrite Api1_saveToHistory_run. cbn [snd].
  destruct (Api1.setItem_throws env).
  - cbn. rewrite <- app_assoc. eexists. split; [reflexivity|]. now split.
  - match goal with |- context [exec (Api1.loadHistory 1 false) ?st] =>
      remember st as saved eqn:Hsaved;
      destruct (Api1_loadHistory_frame 1 false saved) as (_ & _ & Hl & _);
      destruct (Api1_loadStats_frame (exec (Api1.loadHistory 1 false) saved))
        as (_ & _ & _ & _ & _ & Hl' & _)
    end.
    rewrite Hl', Hl. subst saved. cbn. exists []. now split.
Qed.
End Api1Answer.


(** ** The handlers, step by step *)

Section ApiRuns.
Context `{Platform} (env : Api.Env).
Local Arguments JS.Array_sort : simpl never.
Local Arguments JS.Array_slice : simpl never.
Local Arguments Api.loadHistory : simpl never.
Local Arguments Storage.setItem : simpl never.
Local Arguments Storage.removeItem : simpl never.
Local Arguments String.append : simpl never.
Local Arguments pretty : simpl never.
Local Arguments List.filter : simpl never.

Lemma Api_Promise_all_deletes keys : forall s,
  Api.Promise_all (map (Api.storage_delete env) keys) s
  = (if existsb (Api.storage_delete_rejects env) keys
     then Throw (Api.storage_error "delete")
     else Normal (map (fun _ => tt) keys),
     Api.deletions env keys s).
Proof.
  unfold Api.deletions.
  induction keys as [|k keys IH]; intros s; [reflexivity|].
  cbn [map Api.Promise_all foldl existsb].
  rewrite Api_storage_delete_run. cbn [snd]. rewrite IH.
  destruct (Api.storage_delete_rejects env k); cbn [orb]; [reflexivity|].
  now destruct (existsb _ keys).
Qed.

Lemma Api_clearAllHistory_run s :
  Api.clearAllHistory env s =
    (Normal tt,
     let failed st :=
       Api.with_effects (Api.effects st ++ [ConsoleError "Failed to clear history:"]) st in
     let reset st :=
       Api.with_hasMore false (Api.with_page 1 (Api.with_totalCount 0
         (Api.with_history [] (Api.with_historyCache ∅ st)))) in
     match Api.storage_list_reply env with
     | Api.ListRejects _ => failed s
     | Api.ListNull => reset s
     | Api.ListKeys =>
         let deleted := Api.deletions env (Api.requestKeys (Api.storage s)) s in
         if existsb (Api.storage_delete_rejects env) (Api.requestKeys (Api.storage s))
         then failed deleted else reset deleted
     end).
Proof.
  unfold Api.clearAllHistory. eff.
  destruct (Api.storage_list_reply env) as [e| |]; eff; try reflexivity.
  fold (Api.requestKeys (Api.storage s)).
  rewrite Api_Promise_all_deletes.
  now destruct (existsb _ _).
Qed.
End ApiRuns.
(** ** The page cache is only written *)

Section ApiCacheUnread.
Context `{Platform} (env : Api.Env).
Local Arguments JS.Array_sort : simpl never.
Local Arguments JS.Array_slice : simpl never.
Local Arguments Api.loadHistory : simpl never.
Local Arguments Api.saveToHistory : simpl never.
Local Arguments Api.sortedEntries : simpl never.
Local Arguments Storage.setItem : simpl never.
Local Arguments Storage.removeItem : simpl never.
Local Arguments JS.Math_round : simpl never.
Local Arguments JS.String_includes : simpl never.
Local Arguments String.append : simpl never.
Local Arguments pretty : simpl never.
Local Arguments List.filter : simpl never.
Local Arguments Z.mul : simpl never.
Local Arguments Z.add : simpl never.
Local Arguments Z.sub : simpl never.
Local Arguments Z.ltb : simpl never.

Implicit Types (s : Api.State) (c : gmap string Api.Cached.t).

Lemma Api_deletions_cache keys : forall c s,
  Api.deletions env keys (Api.with_historyCache c s)
  = Api.with_historyCache c (Api.deletions env keys s).
Proof.
  unfold Api.deletions.
  induction keys as [|k keys IH]; intros c s; [reflexivity|].
  cbn [foldl]. rewrite !Api_storage_delete_run. cbn [snd].
  rewrite <- IH. f_equal.
  now destruct (Api.storage_delete_rejects env k).
Qed.

(** A load that appends does not look at the cache. *)
Lemma Api_load_append_cache pageNum c s :
  Api.with_historyCache ∅ (exec (Api.loadHistory env pageNum true) (Api.with_historyCache c s))
  = Api.with_historyCache ∅ (exec (Api.loadHistory env pageNum true) s).
Proof.
  unfold exec.
  destruct (Api.storage_list_reply env) as [e| |] eqn:Hlist.
  - rewrite !(Api_loadHistory_rejected env _ _ _ e) by auto. reflexivity.
  - rewrite !Api_loadHistory_null by auto. reflexivity.
  - rewrite !Api_loadHistory_miss by auto. reflexivity.
Qed.

Lemma Api_save_cache requestData c s :
  Api.with_historyCache ∅ (exec (Api.saveToHistory env requestData) (Api.with_historyCache c s))
  = Api.with_historyCache ∅ (exec (Api.saveToHistory env requestData) s).
Proof.
  unfold exec. rewrite !Api_saveToHistory_run. cbn [snd].
  now destruct (Api.storage_set_rejects env).
Qed.

Lemma Api_delete_cache id c s :
  Api.with_historyCache ∅ (exec (Api.deleteHistoryItem env id) (Api.with_historyCache c s))
  = Api.with_historyCache ∅ (exec (Api.deleteHistoryItem env id) s).
Proof.
  unfold exec. rewrite !Api_deleteHistoryItem_run. cbn [snd].
  now destruct (Api.storage_delete_rejects env _).
Qed.

Lemma Api_clear_cache c s :
  Api.with_historyCache ∅ (exec (Api.clearAllHistory env) (Api.with_historyCache c s))
  = Api.with_historyCache ∅ (exec (Api.clearAllHistory env) s).
Proof.
  unfold exec. rewrite !Api_clearAllHistory_run. cbn [snd].
  destruct (Api.storage_list_reply env); try reflexivity.
  cbn [Api.storage Api.with_historyCache]. rewrite Api_deletions_cache.
  now destruct (existsb _ _).
Qed.

Lemma Api_refresh_cache c s :
  Api.with_historyCache ∅ (exec (Api.refreshHistory env) (Api.with_historyCache c s))
  = Api.with_historyCache ∅ (exec (Api.refreshHistory env) s).
Proof. reflexivity. Qed.

Lemma Api_observer_cache isIntersecting c s :
  Api.with_historyCache ∅
    (exec (Api.observerCallback env isIntersecting) (Api.with_historyCache c s))
  = Api.with_historyCache ∅ (exec (Api.observerCallback env isIntersecting) s).
Proof.
  unfold exec, Api.observerCallback. eff.
  destruct (Api.hasMore s && negb (Api.isLoadingHistory s) && isIntersecting && Api.hasMore s);
    [|reflexivity].
  apply (Api_load_append_cache (Api.page s + 1) c (Api.with_page (Api.page s + 1) s)).
Qed.

Lemma Api_send_cache form c s :
  Api.with_historyCache ∅ (exec (Api.sendRequest env form) (Api.with_historyCache c s))
  = Api.with_historyCache ∅ (exec (Api.sendRequest env form) s).
Proof.
  unfold exec.
  destruct (Api_sendRequest_run env form) as (rd & code & Hrun & _).
  rewrite !Hrun. cbn [snd]. unfold exec. rewrite !Api_saveToHistory_run. cbn [snd].
  unfold Api.before_catch.
  destruct (Api.storage_set_rejects env), (Api.fetches form); reflexivity.
Qed.
End ApiCacheUnread.
Section Api1Runs.
Context `{Platform}.
Local Arguments JS.Array_sort : simpl never.
Local Arguments JS.Array_slice : simpl never.
Local Arguments Api1.loadHistory : simpl never.
Local Arguments Api1.loadStats : simpl never.
Local Arguments Api1.getRequestKeys : simpl never.
Local Arguments Api1.computeStats : simpl never.
Local Arguments Storage.setItem : simpl never.
Local Arguments Storage.removeItem : simpl never.
Local Arguments String.append : simpl never.
Local Arguments pretty : simpl never.

Implicit Types (s : Api1.State) (c : gmap string Api1.Cached.t).

(** The removals of [clearAllHistory], key by key. *)
Lemma Api1_forEach_remove_run keys : forall s,
  Api1.forEach Api1.localStorage_removeItem keys s
  = (Normal tt,
     foldl (fun s key =>
              Api1.with_localStorage (Storage.removeItem key (Api1.localStorage s))
                (Api1.with_effects (Api1.effects s ++ [StorageDelete key]) s))
       s keys).
Proof.
  induction keys as [|k keys IH]; intros s; [reflexivity|].
  change (Api1.forEach Api1.localStorage_removeItem (k :: keys) s)
    with (bind (Api1.localStorage_removeItem k)
            (fun _ => Api1.forEach Api1.localStorage_removeItem keys) s).
  unfold bind. rewrite Api1_localStorage_removeItem_run. apply IH.
Qed.

Lemma Api1_deleteHistoryItem_run id s :
  let key := "request:" +:+ pretty id in
  Api1.deleteHistoryItem id s =
    (Normal tt,
     exec Api1.loadStats
       (exec (Api1.loadHistory 1 false)
          (Api1.with_page 1
             (Api1.with_historyCache ∅
                (Api1.with_localStorage (Storage.removeItem key (Api1.localStorage s))
                   (Api1.with_effects (Api1.effects s ++ [StorageDelete key]) s)))))).
Proof.
  intros key. subst key.
  unfold Api1.deleteHistoryItem, Api1.localStorage_removeItem. eff.
  match goal with |- context [Api1.loadHistory 1 false ?st] =>
    pose proof (Api1_loadHistory_frame 1 false st) as (Hn & _);
    unfold exec;
    destruct (Api1.loadHistory 1 false st) as [r st'] eqn:Hload
  end.
  cbn in Hn. subst r. cbn [snd].
  pose proof (Api1_loadStats_frame st') as (Hn & _).
  destruct (Api1.loadStats st') as [r st''] eqn:Hstats.
  cbn in Hn. subst r. reflexivity.
Qed.

Lemma Api1_clearAllHistory_run s :
  Api1.clearAllHistory s =
    (Normal tt,
     exec Api1.loadStats
       (Api1.with_hasMore false (Api1.with_page 1 (Api1.with_totalCount 0
          (Api1.with_history [] (Api1.with_historyCache ∅
             (foldl (fun s key =>
                       Api1.with_localStorage (Storage.removeItem key (Api1.localStorage s))
                         (Api1.with_effects (Api1.effects s ++ [StorageDelete key]) s))
                s (Api1.getRequestKeys (Api1.localStorage s))))))))).
Proof.
  unfold Api1.clearAllHistory. eff. rewrite Api1_forEach_remove_run. eff.
  match goal with |- context [Api1.loadStats ?st] =>
    pose proof (Api1_loadStats_frame st) as (Hn & _);
    unfold exec;
    destruct (Api1.loadStats st) as [r st'] eqn:Hstats
  end.
  cbn in Hn. subst r. reflexivity.
Qed.

Lemma Api1_refreshHistory_run s :
  Api1.refreshHistory s =
    (Normal tt,
     exec Api1.loadStats
       (exec (Api1.loadHistory 1 false) (Api1.with_page 1 (Api1.with_historyCache ∅ s)))).
Proof.
  unfold Api1.refreshHistory. eff.
  match goal with |- context [Api1.loadHistory 1 false ?st] =>
    pose proof (Api1_loadHistory_frame 1 false st) as (Hn & _);
    unfold exec;
    destruct (Api1.loadHistory 1 false st) as [r st'] eqn:Hload
  end.
  cbn in Hn. subst r. cbn [snd].
  pose proof (Api1_loadStats_frame st') as (Hn & _).
  destruct (Api1.loadStats st') as [r st''] eqn:Hstats.
  cbn in Hn. subst r. reflexivity.
Qed.

(** The statistics do not look at the cache. *)
Lemma Api1_loadStats_cache c s :
  exec Api1.loadStats (Api1.with_historyCache c s)
  = Api1.with_historyCache c (exec Api1.loadStats s).
Proof. unfold exec. rewrite !Api1_loadStats_run. reflexivity. Qed.

Lemma Api1_removals_cache keys : forall c s,
  foldl (fun s key =>
           Api1.with_localStorage (Storage.removeItem key (Api1.localStorage s))
             (Api1.with_effects (Api1.effects s ++ [StorageDelete key]) s))
    (Api1.with_historyCache c s) keys
  = Api1.with_historyCache c
      (foldl (fun s key =>
                Api1.with_localStorage (Storage.removeItem key (Api1.localStorage s))
                  (Api1.with_effects (Api1.effects s ++ [StorageDelete key]) s))
         s keys).
Proof.
  induction keys as [|k keys IH]; intros c s; [reflexivity|].
  cbn [foldl]. rewrite <- IH. reflexivity.
Qed.

Lemma Api1_load_append_cache pageNum c s :
  Api1.with_historyCache ∅
    (exec (Api1.loadHistory pageNum true) (Api1.with_historyCache c s))
  = Api1.with_historyCache ∅ (exec (Api1.loadHistory pageNum true) s).
Proof.
  unfold exec.
  destruct (Api1.getRequestKeys (Api1.localStorage s)) as [|k ks] eqn:Hk.
  - rewrite !Api1_loadHistory_empty by auto. reflexivity.
  - rewrite !Api1_loadHistory_nonempty by (auto; cbn; rewrite Hk; discriminate). reflexivity.
Qed.

Lemma Api1_stats_after_cache (a b : Api1.State) :
  Api1.with_historyCache ∅ a = Api1.with_historyCache ∅ b ->
  Api1.with_historyCache ∅ (exec Api1.loadStats a)
  = Api1.with_historyCache ∅ (exec Api1.loadStats b).
Proof. intros Heq. rewrite <- !Api1_loadStats_cache. now rewrite Heq. Qed.
End Api1Runs.
Section Api1CacheUnread.
Context `{Platform}.
Local Arguments JS.Array_sort : simpl never.
Local Arguments JS.Array_slice : simpl never.
Local Arguments Api1.loadHistory : simpl never.
Local Arguments Api1.loadStats : simpl never.
Local Arguments Api1.saveToHistory : simpl never.
Local Arguments Api1.getRequestKeys : simpl never.
Local Arguments Api1.computeStats : simpl never.
Local Arguments Storage.setItem : simpl never.
Local Arguments Storage.removeItem : simpl never.
Local Arguments JS.Math_round : simpl never.
Local Arguments JS.String_includes : simpl never.
Local Arguments String.append : simpl never.
Local Arguments String.eqb : simpl never.
Local Arguments pretty : simpl never.

Implicit Types (s : Api1.State) (c : gmap string Api1.Cached.t).

Lemma Api1_save_cache env requestData c s :
  Api1.with_historyCache ∅
    (exec (Api1.saveToHistory env requestData) (Api1.with_historyCache c s))
  = Api1.with_historyCache ∅ (exec (Api1.saveToHistory env requestData) s).
Proof.
  unfold exec at 1 2. rewrite !Api1_saveToHistory_run. cbn [snd].
  now destruct (Api1.setItem_throws env).
Qed.

Lemma Api1_delete_cache id c s :
  Api1.with_historyCache ∅ (exec (Api1.deleteHistoryItem id) (Api1.with_historyCache c s))
  = Api1.with_historyCache ∅ (exec (Api1.deleteHistoryItem id) s).
Proof. unfold exec at 1 2. now rewrite !Api1_deleteHistoryItem_run. Qed.

Lemma Api1_clear_cache c s :
  Api1.with_historyCache ∅ (exec Api1.clearAllHistory (Api1.with_historyCache c s))
  = Api1.with_historyCache ∅ (exec Api1.clearAllHistory s).
Proof.
  unfold exec at 1 2. rewrite !Api1_clearAllHistory_run. cbn [snd].
  cbn [Api1.localStorage Api1.with_historyCache]. now rewrite Api1_removals_cache.
Qed.

Lemma Api1_refresh_cache c s :
  Api1.with_historyCache ∅ (exec Api1.refreshHistory (Api1.with_historyCache c s))
  = Api1.with_historyCache ∅ (exec Api1.refreshHistory s).
Proof. unfold exec at 1 2. now rewrite !Api1_refreshHistory_run. Qed.

Lemma Api1_observer_cache isIntersecting c s :
  Api1.with_historyCache ∅
    (exec (Api1.observerCallback isIntersecting) (Api1.with_historyCache c s))
  = Api1.with_historyCache ∅ (exec (Api1.observerCallback isIntersecting) s).
Proof.
  unfold exec, Api1.observerCallback. eff.
  destruct (Api1.hasMore s && negb (Api1.isLoadingHistory s) && isIntersecting && Api1.hasMore s);
    [|reflexivity].
  apply (Api1_load_append_cache (Api1.page s + 1) c (Api1.with_page (Api1.page s + 1) s)).
Qed.

Lemma Api1_send_cache env form c s :
  Api1.with_historyCache ∅ (exec (Api1.sendRequest env form) (Api1.with_historyCache c s))
  = Api1.with_historyCache ∅ (exec (Api1.sendRequest env form) s).
Proof.
  unfold exec at 1 2.
  destruct (Api1_sendRequest_run env form) as (rd & code & Hrun & _).
  rewrite !Hrun. cbn [snd]. unfold exec. rewrite !Api1_saveToHistory_run. cbn [snd].
  unfold Api1.before_catch.
  destruct (Api1.setItem_throws env), (Api1.fetches form); reflexivity.
Qed.
End Api1CacheUnread.

(** No handler looks at what the page cache holds. Replace the cache by
    any other before a send, a save, a delete, a clear, a refresh, a
    scroll load or a load of the statistics: the state after the call is
    the same but for the cache itself. (Every direct load follows a
    clearing of the cache, and the loads that append bypass it; only the
    load on mount reads it, when it is still empty.) Both files. *)
Theorem page_cache_never_read (P : Platform)
    (env1 : Api1.Env) (s1 : Api1.State) (cache1 : gmap string Api1.Cached.t)
    (requestData1 : Api1.RequestData.t)
    (env : Api.Env) (s : Api.State) (cache : gmap string Api.Cached.t)
    (requestData : Api.RequestData.t)
    (form : Form.t) (id : Z) (isIntersecting : bool) :
  let same1 (handler : M Api1.State unit) :=
    Api1.with_historyCache ∅ (exec handler (Api1.with_historyCache cache1 s1))
    = Api1.with_historyCache ∅ (exec handler s1) in
  let same (handler : M Api.State unit) :=
    Api.with_historyCache ∅ (exec handler (Api.with_historyCache cache s))
    = Api.with_historyCache ∅ (exec handler s) in
  (same1 (Api1.sendRequest env1 form)
   /\ same1 (Api1.saveToHistory env1 requestData1)
   /\ same1 (Api1.deleteHistoryItem id)
   /\ same1 Api1.clearAllHistory
   /\ same1 Api1.refreshHistory
   /\ same1 (Api1.observerCallback isIntersecting)
   /\ same1 Api1.loadStats)
  /\ (same (Api.sendRequest env form)
      /\ same (Api.saveToHistory env requestData)
      /\ same (Api.deleteHistoryItem env id)
      /\ same (Api.clearAllHistory env)
      /\ same (Api.refreshHistory env)
      /\ same (Api.observerCallback env isIntersecting)).
Proof.
  intros same1 same. subst same1 same. cbv beta.
  split.
  - split; [apply Api1_send_cache|].
    split; [apply Api1_save_cache|].
    split; [apply Api1_delete_cache|].
    split; [apply Api1_clear_cache|].
    split; [apply Api1_refresh_cache|].
    split; [apply Api1_observer_cache|].
    now rewrite Api1_loadStats_cache.
  - split; [apply Api_send_cache|].
    split; [apply Api_save_cache|].
    split; [apply Api_delete_cache|].
    split; [apply Api_clear_cache|].
    split; [apply Api_refresh_cache|].
    apply Api_observer_cache.
Qed.

Section SavePanel.
Context `{Platform}.
Local Arguments Api.loadHistory : simpl never.
Local Arguments Api1.loadHistory : simpl never.
Local Arguments Api1.loadStats : simpl never.
Local Arguments Storage.setItem : simpl never.
Local Arguments String.append : simpl never.
Local Arguments pretty : simpl never.

(** A save leaves the response panel alone. *)
Lemma Api_saveToHistory_panel env requestData s :
  let s' := exec (Api.saveToHistory env requestData) s in
  Api.statusCode s' = Api.statusCode s
  /\ Api.response s' = Api.response s
  /\ Api.duration s' = Api.duration s
  /\ Api.loading s' = Api.loading s.
Proof.
  cbv zeta. unfold exec at 1 2 3 4. rewrite Api_saveToHistory_run. cbn [snd].
  destruct (Api.storage_set_rejects env); [now repeat split|].
  match goal with |- context [exec (Api.loadHistory env 1 false) ?st] =>
    remember st as saved eqn:Hsaved;
    destruct (Api_loadHistory_frame env 1 false saved) as (_ & _ & Hr & Hc & Hd & Hl & _)
  end.
  rewrite Hr, Hc, Hd, Hl. subst saved. now repeat split.
Qed.

Lemma Api1_saveToHistory_panel env requestData s :
  let s' := exec (Api1.saveToHistory env requestData) s in
  Api1.statusCode s' = Api1.statusCode s
  /\ Api1.response s' = Api1.response s
  /\ Api1.duration s' = Api1.duration s
  /\ Api1.loading s' = Api1.loading s.
Proof.
  cbv zeta. unfold exec at 1 2 3 4. rewrite Api1_saveToHistory_run. cbn [snd].
  destruct (Api1.setItem_throws env); [now repeat split|].
  match goal with |- context [exec (Api1.loadHistory 1 false) ?st] =>
    remember st as saved eqn:Hsaved;
    destruct (Api1_loadHistory_frame 1 false saved) as (_ & _ & _ & Hr & Hc & Hd & Hl & _);
    destruct (Api1_loadStats_frame (exec (Api1.loadHistory 1 false) saved))
      as (_ & _ & _ & _ & _ & _ & Hr' & Hc' & Hd' & Hl' & _)
  end.
  rewrite Hr', Hc', Hd', Hl', Hr, Hc, Hd, Hl. subst saved. now repeat split.
Qed.
End SavePanel.

(** Whatever the form holds and whatever the network and the store do, a
    send neither throws nor leaves the send button disabled: it ends with
    [loading] false, a status and a duration shown, at most one network
    call issued (none when the validation fails) and exactly one write
    issued to the store, under ["request:" + Date.now()]. Both files. *)
Theorem send_always_settles (P : Platform)
    (env1 : Api1.Env) (s1 : Api1.State) (env : Api.Env) (s : Api.State) (form : Form.t) :
  let s1' := exec (Api1.sendRequest env1 form) s1 in
  let s' := exec (Api.sendRequest env form) s in
  (fst (Api1.sendRequest env1 form s1) = Normal tt
   /\ Api1.loading s1' = false
   /\ is_Some (Api1.statusCode s1')
   /\ is_Some (Api1.duration s1')
   /\ List.filter is_fetch (drop (length (Api1.effects s1)) (Api1.effects s1'))
      = Api1.fetches form
   /\ (length (Api1.fetches form) <= 1)%nat
   /\ exists value,
        List.filter is_storage_set (drop (length (Api1.effects s1)) (Api1.effects s1'))
        = [StorageSet ("request:" +:+ pretty (Api1.Date_now env1)) value])
  /\ (fst (Api.sendRequest env form s) = Normal tt
      /\ Api.loading s' = false
      /\ is_Some (Api.statusCode s')
      /\ is_Some (Api.duration s')
      /\ List.filter is_fetch (drop (length (Api.effects s)) (Api.effects s'))
         = Api.fetches form
      /\ (length (Api.fetches form) <= 1)%nat
      /\ exists value,
           List.filter is_storage_set (drop (length (Api.effects s)) (Api.effects s'))
           = [StorageSet ("request:" +:+ pretty (Api.Date_now env)) value]).
Proof.
  intros s1' s'. split.
  - subst s1'. unfold exec.
    destruct (Api1_sendRequest_run env1 form) as (rd & code & Hrun & _).
    rewrite Hrun. cbn [fst snd].
    match goal with |- context [exec (Api1.saveToHistory env1 rd) ?st] =>
      remember st as shown eqn:Hshown;
      destruct (Api1_saveToHistory_panel env1 rd shown) as (Hc & _ & Hd & _);
      destruct (Api1_saveToHistory_effects env1 rd shown) as (logs & Heff & Hnofetch & Hnoset)
    end.
    destruct (Api1_before_catch_frame form s1) as (Hfx & _).
    assert (Hfetches : List.filter is_fetch (Api1.fetches form) = Api1.fetches form
                       /\ List.filter is_storage_set (Api1.fetches form) = []
                       /\ (length (Api1.fetches form) <= 1)%nat).
    { unfold Api1.fetches. destruct (Api1.validate form) as [[? ?]|?]; cbn; auto. }
    destruct Hfetches as (Hf1 & Hf2 & Hf3).
    cbn [Api1.loading Api1.statusCode Api1.duration Api1.effects Api1.with_loading].
    rewrite Hc, Hd, Heff, Hshown.
    cbn [Api1.statusCode Api1.duration Api1.effects Api1.with_duration Api1.with_statusCode
         Api1.with_response].
    rewrite Hfx, <- app_assoc, drop_app_length, !List.filter_app, Hf1, Hf2.
    cbn [List.filter is_fetch is_storage_set app]. rewrite Hnofetch, Hnoset, app_nil_r.
    repeat split; eauto.
  - subst s'. unfold exec.
    destruct (Api_sendRequest_run env form) as (rd & code & Hrun & _).
    rewrite Hrun. cbn [fst snd].
    match goal with |- context [exec (Api.saveToHistory env rd) ?st] =>
      remember st as shown eqn:Hshown;
      destruct (Api_saveToHistory_panel env rd shown) as (Hc & _ & Hd & _);
      destruct (Api_saveToHistory_effects env rd shown) as (logs & Heff & Hnofetch & Hnoset)
    end.
    destruct (Api_before_catch_frame form s) as (Hfx & _).
    assert (Hfetches : List.filter is_fetch (Api.fetches form) = Api.fetches form
                       /\ List.filter is_storage_set (Api.fetches form) = []
                       /\ (length (Api.fetches form) <= 1)%nat).
    { unfold Api.fetches. destruct (Api.validate form) as [[? ?]|?]; cbn; auto. }
    destruct Hfetches as (Hf1 & Hf2 & Hf3).
    cbn [Api.loading Api.statusCode Api.duration Api.effects Api.with_loading].
    rewrite Hc, Hd, Heff, Hshown.
    cbn [Api.statusCode Api.duration Api.effects Api.with_duration Api.with_statusCode
         Api.with_response].
    rewrite Hfx, <- app_assoc, drop_app_length, !List.filter_app, Hf1, Hf2.
    cbn [List.filter is_fetch is_storage_set app]. rewrite Hnofetch, Hnoset, app_nil_r.
    repeat split; eauto.
Qed.
(** When the store refuses the write, a send still shows its outcome, but
    nothing of it reaches the history: the store, the list, the page, the
    totals, the statistics and the cache stay as they were (the cache is
    not cleared, the list is not loaded again), and the refusal is only
    logged to the console. Both files. *)
Theorem unsaved_send_is_only_logged (P : Platform)
    (env1 : Api1.Env) (s1 : Api1.State) (env : Api.Env) (s : Api.State) (form : Form.t) :
  Api1.setItem_throws env1 = true ->
  Api.storage_set_rejects env = true ->
  let s1' := exec (Api1.sendRequest env1 form) s1 in
  let s' := exec (Api.sendRequest env form) s in
  (Api1.localStorage s1' = Api1.localStorage s1
   /\ Api1.history s1' = Api1.history s1
   /\ Api1.historyCache s1' = Api1.historyCache s1
   /\ Api1.page s1' = Api1.page s1
   /\ Api1.totalCount s1' = Api1.totalCount s1
   /\ Api1.hasMore s1' = Api1.hasMore s1
   /\ Api1.stats s1' = Api1.stats s1
   /\ is_Some (Api1.statusCode s1')
   /\ Api1.loading s1' = false
   /\ exists issued,
        Api1.effects s1' = Api1.effects s1 ++ issued ++ [ConsoleError "Failed to save history:"])
  /\ (Api.storage s' = Api.storage s
      /\ Api.history s' = Api.history s
      /\ Api.historyCache s' = Api.historyCache s
      /\ Api.page s' = Api.page s
      /\ Api.totalCount s' = Api.totalCount s
      /\ Api.hasMore s' = Api.hasMore s
      /\ is_Some (Api.statusCode s')
      /\ Api.loading s' = false
      /\ exists issued,
           Api.effects s' = Api.effects s ++ issued ++ [ConsoleError "Failed to save history:"]).
Proof.
  intros Hthrows Hrejects s1' s'. split.
  - subst s1'. unfold exec.
    destruct (Api1_sendRequest_run env1 form) as (rd & code & Hrun & _).
    rewrite Hrun. cbn [snd]. unfold exec. rewrite Api1_saveToHistory_run, Hthrows. cbn [snd].
    destruct (Api1_before_catch_frame form s1) as (Hfx & Hls & Hc & Hh & Hp & Ht & Hm & _ & Hst).
    cbn. rewrite Hfx, Hls, Hc, Hh, Hp, Ht, Hm, Hst, <- !app_assoc.
    repeat split; eauto.
    eexists (Api1.fetches form ++ [_]). now rewrite <- !app_assoc.
  - subst s'. unfold exec.
    destruct (Api_sendRequest_run env form) as (rd & code & Hrun & _).
    rewrite Hrun. cbn [snd]. unfold exec. rewrite Api_saveToHistory_run, Hrejects. cbn [snd].
    destruct (Api_before_catch_frame form s) as (Hfx & Hls & Hc & Hh & Hp & Ht & Hm & _).
    cbn. rewrite Hfx, Hls, Hc, Hh, Hp, Ht, Hm, <- !app_assoc.
    repeat split; eauto.
    eexists (Api.fetches form ++ [_]). now rewrite <- !app_assoc.
Qed.

(** ** The list shown is always the head of the store's entries *)

Lemma take_page_app {A} (l : list A) (p : Z) :
  1 <= p ->
  take (20 * Z.to_nat p) l ++ JS.Array_slice l ((p + 1 - 1) * 20) ((p + 1 - 1) * 20 + 20)
  = take (20 * Z.to_nat (p + 1)) l.
Proof.
  intros Hp. rewrite Array_slice_page by lia.
  replace (20 * (Z.to_nat (p + 1) - 1))%nat with (20 * Z.to_nat p)%nat by lia.
  rewrite take_take_drop. f_equal. lia.
Qed.

Section Api1Current.
Context `{Platform}.
Local Arguments JS.Array_sort : simpl never.
Local Arguments JS.Array_slice : simpl never.
Local Arguments Api1.loadHistory : simpl never.
Local Arguments Api1.loadStats : simpl never.
Local Arguments Api1.saveToHistory : simpl never.
Local Arguments Api1.getRequestKeys : simpl never.
Local Arguments Api1.sortedEntries : simpl never.
Local Arguments Api1.computeStats : simpl never.
Local Arguments Storage.setItem : simpl never.
Local Arguments Storage.removeItem : simpl never.
Local Arguments String.append : simpl never.
Local Arguments pretty : simpl never.
Local Arguments Z.mul : simpl never.
Local Arguments Z.add : simpl never.
Local Arguments Z.sub : simpl never.
Local Arguments Z.ltb : simpl never.
Local Arguments Z.to_nat : simpl never.
Local Arguments Nat.mul : simpl never.

Implicit Types s : Api1.State.

Lemma Api1_list_current_ext s s' :
  Api1.localStorage s' = Api1.localStorage s ->
  Api1.page s' = Api1.page s ->
  Api1.history s' = Api1.history s ->
  Api1.hasMore s' = Api1.hasMore s ->
  Api1.isLoadingHistory s' = Api1.isLoadingHistory s ->
  Api1.list_current s -> Api1.list_current s'.
Proof.
  unfold Api1.list_current. intros -> -> -> -> ->. auto.
Qed.

(** Page 1, loaded afresh, is current. *)
Lemma Api1_reload_current s :
  Api1.historyCache s = ∅ -> Api1.page s = 1 ->
  Api1.list_current (exec (Api1.loadHistory 1 false) s).
Proof.
  intros Hempty Hpage.
  destruct (Api1_load_view 1 false s (Api1_coherent_empty s Hempty) ltac:(lia))
    as (_ & Hls & _ & Hp & _ & Hl & Hh & Hm & _).
  unfold Api1.list_current. rewrite Hls, Hp, Hl, Hh, Hm, Hpage, Hempty, lookup_empty.
  cbn [andb]. rewrite Array_slice_page by lia.
  split; [lia|]. split; [|now split].
  now replace (20 * (Z.to_nat 1 - 1))%nat with 0%nat by lia.
Qed.

Lemma Api1_loadStats_current s :
  Api1.list_current s -> Api1.list_current (exec Api1.loadStats s).
Proof.
  unfold exec. rewrite Api1_loadStats_run. cbn [snd].
  now apply Api1_list_current_ext.
Qed.

Lemma Api1_sorted_nonempty_keys ls :
  0 < Z.of_nat (length (Api1.sortedEntries ls)) -> Api1.getRequestKeys ls <> [].
Proof.
  intros Hlen Hkeys. rewrite (Api1_sortedEntries_nil ls Hkeys) in Hlen. cbn in Hlen. lia.
Qed.

(** A scroll load appends the next page. *)
Lemma Api1_observer_current isIntersecting s :
  Api1.list_current s -> Api1.list_current (exec (Api1.observerCallback isIntersecting) s).
Proof.
  intros (Hp & Hh & Hm & Hl). unfold exec, Api1.observerCallback. eff.
  destruct (Api1.hasMore s && negb (Api1.isLoadingHistory s) && isIntersecting && Api1.hasMore s)
    eqn:Hcond; [|now split].
  apply andb_true_iff in Hcond as [_ Hmore]. rewrite Hm in Hmore. apply Z.ltb_lt in Hmore.
  rewrite Api1_loadHistory_nonempty by (auto; apply Api1_sorted_nonempty_keys; cbn; lia).
  cbn [snd]. unfold Api1.list_current. cbn.
  destruct (Z.ltb_spec 1 (Api1.page s + 1)); [|lia].
  rewrite Hh, take_page_app by lia.
  split; [lia|]. split; [reflexivity|]. split; [|reflexivity]. f_equal. lia.
Qed.
End Api1Current.
Section Api1Handlers.
Context `{Platform}.
Local Arguments JS.Array_sort : simpl never.
Local Arguments JS.Array_slice : simpl never.
Local Arguments Api1.loadHistory : simpl never.
Local Arguments Api1.loadStats : simpl never.
Local Arguments Api1.saveToHistory : simpl never.
Local Arguments Api1.getRequestKeys : simpl never.
Local Arguments Api1.sortedEntries : simpl never.
Local Arguments Api1.recentEntries : simpl never.
Local Arguments Api1.computeStats : simpl never.
Local Arguments Storage.setItem : simpl never.
Local Arguments Storage.removeItem : simpl never.
Local Arguments String.append : simpl never.
Local Arguments pretty : simpl never.
Local Arguments Z.mul : simpl never.
Local Arguments Z.add : simpl never.
Local Arguments Z.sub : simpl never.
Local Arguments Z.ltb : simpl never.
Local Arguments Z.to_nat : simpl never.
Local Arguments Nat.mul : simpl never.

Implicit Types s : Api1.State.

(** A load leaves the statistics alone. *)
Lemma Api1_loadHistory_stats pageNum append s :
  Api1.stats (exec (Api1.loadHistory pageNum append) s) = Api1.stats s.
Proof.
  unfold exec.
  assert (Hmiss_or_hit :
    (append = true \/ Api1.historyCache s !! Api1.cacheKey pageNum = None)
    \/ (append = false /\ exists c, Api1.historyCache s !! Api1.cacheKey pageNum = Some c)).
  { destruct append; [now left; left|].
    destruct (Api1.historyCache s !! Api1.cacheKey pageNum) eqn:E; [right; eauto|now left; right]. }
  destruct Hmiss_or_hit as [Hmiss | [-> [c Hhit]]].
  - destruct (Api1.getRequestKeys (Api1.localStorage s)) as [|k ks] eqn:Hk.
    + now rewrite Api1_loadHistory_empty.
    + now rewrite Api1_loadHistory_nonempty by (rewrite ?Hk; congruence).
  - now rewrite (Api1_loadHistory_hit _ _ _ Hhit).
Qed.

(** After a clearing of the cache and a reset of the page, the reload and
    the statistics leave the list and the statistics current. *)
Lemma Api1_reloaded s :
  let s' := exec Api1.loadStats
              (exec (Api1.loadHistory 1 false) (Api1.with_page 1 (Api1.with_historyCache ∅ s))) in
  Api1.list_current s' /\ Api1.stats_current s'
  /\ Api1.localStorage s' = Api1.localStorage s
  /\ Api1.totalCount s' = Z.of_nat (length (Api1.getRequestKeys (Api1.localStorage s)))
  /\ Api1.page s' = 1.
Proof.
  cbv zeta.
  set (loaded := exec (Api1.loadHistory 1 false) (Api1.with_page 1 (Api1.with_historyCache ∅ s))).
  assert (Hcur : Api1.list_current loaded) by now apply Api1_reload_current.
  destruct (Api1_loadHistory_frame 1 false (Api1.with_page 1 (Api1.with_historyCache ∅ s)))
    as (_ & Hls & _ & _ & _ & _ & _ & Hp).
  fold loaded in Hls, Hp. cbn in Hls, Hp.
  split; [now apply Api1_loadStats_current|].
  unfold exec at 1 2 3 4. rewrite Api1_loadStats_run. cbn [snd].
  unfold Api1.stats_current, Api1.recentEntries. cbn. rewrite Hls, Hp. now repeat split.
Qed.

Lemma Api1_unreserved_keys ls : Api1.getRequestKeys (unreserved ls) = [].
Proof.
  rewrite Api1_getRequestKeys_reserved. unfold unreserved, Storage.keys.
  induction ls as [|[k v] ls IH]; [reflexivity|]. cbn [List.filter fst].
  destruct (reserved k) eqn:Hk; cbn [negb map List.filter fst]; [exact IH|]. now rewrite Hk.
Qed.

Lemma Api1_mount_view ls :
  let s' := exec Api1.mount (Api1.initial ls) in
  Api1.list_current s' /\ Api1.stats_current s'
  /\ Api1.localStorage s' = ls
  /\ Api1.totalCount s' = Z.of_nat (length (Api1.getRequestKeys ls)).
Proof.
  cbv zeta.
  assert (Hrun : Api1.mount (Api1.initial ls)
                 = (Normal tt, exec Api1.loadStats
                                 (exec (Api1.loadHistory 1 false)
                                    (Api1.with_page 1 (Api1.with_historyCache ∅ (Api1.initial ls)))))).
  { unfold Api1.mount. eff.
    change (Api1.with_page 1 (Api1.with_historyCache ∅ (Api1.initial ls))) with (Api1.initial ls).
    pose proof (Api1_loadHistory_frame 1 false (Api1.initial ls)) as (Hn & _).
    unfold exec.
    destruct (Api1.loadHistory 1 false (Api1.initial ls)) as [r st'] eqn:Hload.
    cbn in Hn. subst r. cbn [snd].
    pose proof (Api1_loadStats_frame st') as (Hn & _).
    destruct (Api1.loadStats st') as [r st''] eqn:Hstats.
    cbn in Hn. subst r. reflexivity. }
  unfold exec at 1 2 3 4. rewrite Hrun. cbn [snd].
  destruct (Api1_reloaded (Api1.initial ls)) as (Hl & Hs & Hls & Ht & _). auto.
Qed.

Lemma Api1_save_view env requestData s :
  let s' := exec (Api1.saveToHistory env requestData) s in
  (Api1.list_current s -> Api1.list_current s')
  /\ (Api1.stats_current s -> Api1.stats_current s').
Proof.
  cbv zeta. unfold exec at 1 2. rewrite Api1_saveToHistory_run. cbn [snd].
  destruct (Api1.setItem_throws env).
  - split; [now apply (Api1_list_current_ext s)|auto].
  - match goal with |- context [Api1.with_historyCache ∅ ?st] =>
      destruct (Api1_reloaded st) as (Hl' & Hs' & _) end.
    now split.
Qed.

Lemma Api1_delete_view id s :
  let s' := exec (Api1.deleteHistoryItem id) s in
  Api1.list_current s' /\ Api1.stats_current s'.
Proof.
  cbv zeta. unfold exec at 1 2. rewrite Api1_deleteHistoryItem_run. cbn [snd].
  match goal with |- context [Api1.with_historyCache ∅ ?st] =>
    destruct (Api1_reloaded st) as (Hl' & Hs' & _) end.
  now split.
Qed.

Lemma Api1_refresh_view s :
  let s' := exec Api1.refreshHistory s in
  Api1.list_current s' /\ Api1.stats_current s'
  /\ Api1.localStorage s' = Api1.localStorage s
  /\ Api1.totalCount s' = Z.of_nat (length (Api1.getRequestKeys (Api1.localStorage s)))
  /\ Api1.page s' = 1.
Proof.
  cbv zeta. unfold exec at 1 2 3 4 5. rewrite Api1_refreshHistory_run. cbn [snd].
  apply Api1_reloaded.
Qed.

Lemma Api1_clear_view s :
  let s' := exec Api1.clearAllHistory s in
  (Api1.isLoadingHistory s = false -> Api1.list_current s') /\ Api1.stats_current s'.
Proof.
  cbv zeta.
  pose proof (Api1_clearAllHistory_store s) as Hstore.
  unfold exec in Hstore |- *. rewrite Api1_clearAllHistory_run in Hstore |- *. cbn [snd] in Hstore |- *.
  match goal with |- context [exec Api1.loadStats ?st] => set (cleared := st) in * end.
  assert (Hls : Api1.localStorage cleared = unreserved (Api1.localStorage s)).
  { destruct (Api1_loadStats_frame cleared) as (_ & Hs & _). now rewrite <- Hs. }
  assert (Hfold : forall keys a,
            Api1.isLoadingHistory
              (foldl (fun s key =>
                        Api1.with_localStorage (Storage.removeItem key (Api1.localStorage s))
                          (Api1.with_effects (Api1.effects s ++ [StorageDelete key]) s)) a keys)
            = Api1.isLoadingHistory a).
  { induction keys as [|k keys IH]; intros a; [reflexivity|]. cbn [foldl]. now rewrite IH. }
  split.
  - intros Hload. apply Api1_loadStats_current. unfold Api1.list_current.
    rewrite Hls. unfold Api1.sortedEntries, Api1.storedEntries.
    rewrite Api1_unreserved_keys. subst cleared. cbn. rewrite Hfold, Hload.
    change (JS.Array_sort newest_first []) with (@nil HistoryEntry).
    rewrite take_nil. split; [lia|]. now repeat split.
  - unfold exec. rewrite Api1_loadStats_run. cbn [snd].
    unfold Api1.stats_current, Api1.recentEntries. reflexivity.
Qed.

Lemma Api1_observer_stats isIntersecting s :
  Api1.stats_current s -> Api1.stats_current (exec (Api1.observerCallback isIntersecting) s).
Proof.
  intros Hs. unfold exec, Api1.observerCallback. eff.
  destruct (Api1.hasMore s && negb (Api1.isLoadingHistory s) && isIntersecting && Api1.hasMore s);
    [|exact Hs].
  unfold Api1.stats_current.
  match goal with |- context [Api1.loadHistory ?p true ?st] =>
    pose proof (Api1_loadHistory_stats p true st) as Hst;
    destruct (Api1_loadHistory_frame p true st) as (_ & Hls & _)
  end.
  unfold exec in Hst, Hls. rewrite Hst, Hls. exact Hs.
Qed.

Lemma Api1_send_view env form s :
  let s' := exec (Api1.sendRequest env form) s in
  (Api1.list_current s -> Api1.list_current s')
  /\ (Api1.stats_current s -> Api1.stats_current s').
Proof.
  cbv zeta. unfold exec at 1 2.
  destruct (Api1_sendRequest_run env form) as (rd & code & Hrun & _).
  rewrite Hrun. cbn [snd].
  destruct (Api1_before_catch_frame form s) as (_ & Hls & _ & Hh & Hp & _ & Hm & Hi & Hst).
  match goal with |- context [exec (Api1.saveToHistory env rd) ?st] =>
    destruct (Api1_save_view env rd st) as (Hl' & Hs')
  end.
  split.
  - intros Hl. apply (Api1_list_current_ext _ _ eq_refl eq_refl eq_refl eq_refl eq_refl).
    apply Hl'. apply (Api1_list_current_ext s); cbn; auto.
  - intros Hs. apply Hs'. unfold Api1.stats_current. cbn. rewrite Hst, Hls. exact Hs.
Qed.

(** What a scroll does to the page number and the store. *)
Lemma Api1_observer_page isIntersecting s :
  Api1.isLoadingHistory s = false ->
  let s' := exec (Api1.observerCallback isIntersecting) s in
  Api1.page s' = (if isIntersecting && Api1.hasMore s then Api1.page s + 1 else Api1.page s)
  /\ Api1.localStorage s' = Api1.localStorage s.
Proof.
  intros Hload. cbv zeta. unfold exec, Api1.observerCallback. eff. rewrite Hload.
  destruct (Api1.hasMore s), isIntersecting; cbn [andb negb]; try now split.
  match goal with |- context [Api1.loadHistory ?p true ?st] =>
    destruct (Api1_loadHistory_frame p true st) as (_ & Hls & _ & _ & _ & _ & _ & Hp)
  end.
  unfold exec in Hls, Hp. now rewrite Hls, Hp.
Qed.

(** [k] scrolls from a current list: the page advances by one with each
    scroll until the store is exhausted. *)
Lemma Api1_scrolls k : forall s,
  Api1.list_current s ->
  let s' := Nat.iter k (exec (Api1.observerCallback true)) s in
  Api1.list_current s'
  /\ Api1.localStorage s' = Api1.localStorage s
  /\ (Api1.page s' = Api1.page s + Z.of_nat k
      \/ (Api1.page s' <= Api1.page s + Z.of_nat k
          /\ Z.of_nat (length (Api1.sortedEntries (Api1.localStorage s))) <= Api1.page s' * 20)).
Proof.
  induction k as [|k IH]; intros s Hcur; cbv zeta.
  - cbn [Nat.iter nat_rect]. split; [exact Hcur|]. split; [reflexivity|]. left. lia.
  - rewrite !Nat.iter_succ. destruct (IH s Hcur) as (Hcur' & Hls & Hpage).
    set (sk := Nat.iter k (exec (Api1.observerCallback true)) s) in *.
    destruct Hcur' as (Hp & Hh & Hm & Hl).
    destruct (Api1_observer_page true sk Hl) as (Hp' & Hls').
    split; [now apply Api1_observer_current|].
    split; [now rewrite Hls'|].
    rewrite Hp'. cbn [andb]. rewrite Hm, Hls.
    destruct (Z.ltb_spec (Api1.page sk * 20)
                (Z.of_nat (length (Api1.sortedEntries (Api1.localStorage s))))).
    + left. lia.
    + right. lia.
Qed.
End Api1Handlers.
Section ApiCurrent.
Context `{Platform} (env : Api.Env).
Local Arguments JS.Array_sort : simpl never.
Local Arguments JS.Array_slice : simpl never.
Local Arguments Api.loadHistory : simpl never.
Local Arguments Api.saveToHistory : simpl never.
Local Arguments Api.sortedEntries : simpl never.
Local Arguments Api.requestKeys : simpl never.
Local Arguments Storage.setItem : simpl never.
Local Arguments Storage.removeItem : simpl never.
Local Arguments String.append : simpl never.
Local Arguments pretty : simpl never.
Local Arguments Z.mul : simpl never.
Local Arguments Z.add : simpl never.
Local Arguments Z.sub : simpl never.
Local Arguments Z.ltb : simpl never.
Local Arguments Z.to_nat : simpl never.
Local Arguments Nat.mul : simpl never.

Implicit Types s : Api.State.
Hypothesis Hlist : Api.storage_list_reply env = Api.ListKeys.

Lemma Api_list_current_ext s s' :
  Api.storage s' = Api.storage s ->
  Api.page s' = Api.page s ->
  Api.history s' = Api.history s ->
  Api.hasMore s' = Api.hasMore s ->
  Api.totalCount s' = Api.totalCount s ->
  Api.isLoadingHistory s' = Api.isLoadingHistory s ->
  Api.list_current env s -> Api.list_current env s'.
Proof.
  unfold Api.list_current. intros -> -> -> -> -> ->. auto.
Qed.

Lemma Api_reload_current s :
  Api.historyCache s = ∅ -> Api.page s = 1 ->
  Api.list_current env (exec (Api.loadHistory env 1 false) s).
Proof.
  intros Hempty Hpage.
  destruct (Api_load_view env 1 false s (Api_coherent_empty env s Hempty) Hlist)
    as (_ & Hst & _ & Hp & Hl & Hh & Hm & Ht & _).
  unfold Api.list_current. rewrite Hst, Hp, Hl, Hh, Hm, Ht, Hpage, Hempty, lookup_empty.
  cbn [andb]. rewrite Array_slice_page by lia.
  split; [lia|]. split; [|now repeat split].
  now replace (20 * (Z.to_nat 1 - 1))%nat with 0%nat by lia.
Qed.

Lemma Api_reloaded s :
  let s' := exec (Api.loadHistory env 1 false) (Api.with_page 1 (Api.with_historyCache ∅ s)) in
  Api.list_current env s' /\ Api.storage s' = Api.storage s /\ Api.page s' = 1.
Proof.
  cbv zeta. split; [now apply Api_reload_current|].
  match goal with |- context [exec (Api.loadHistory env 1 false) ?st] =>
    destruct (Api_loadHistory_frame env 1 false st) as (_ & Hst & _ & _ & _ & _ & Hp & _)
  end.
  now rewrite Hst, Hp.
Qed.

Lemma Api_observer_current isIntersecting s :
  Api.list_current env s ->
  Api.list_current env (exec (Api.observerCallback env isIntersecting) s).
Proof.
  intros (Hp & Hh & Hm & Ht & Hl). unfold exec, Api.observerCallback. eff.
  destruct (Api.hasMore s && negb (Api.isLoadingHistory s) && isIntersecting && Api.hasMore s)
    eqn:Hcond; [|now split].
  rewrite Api_loadHistory_miss by auto.
  cbn [snd]. unfold Api.list_current. cbn.
  destruct (Z.ltb_spec 1 (Api.page s + 1)); [|lia].
  rewrite Hh, take_page_app by lia.
  split; [lia|]. split; [reflexivity|]. split; [|now split]. f_equal. lia.
Qed.

Lemma Api_save_current requestData s :
  Api.list_current env s -> Api.list_current env (exec (Api.saveToHistory env requestData) s).
Proof.
  intros Hl. unfold exec at 1. rewrite Api_saveToHistory_run. cbn [snd].
  destruct (Api.storage_set_rejects env).
  - now apply (Api_list_current_ext s).
  - match goal with |- context [Api.with_historyCache ∅ ?st] =>
      destruct (Api_reloaded st) as (Hl' & _) end.
    exact Hl'.
Qed.

Lemma Api_delete_current id s :
  Api.list_current env s -> Api.list_current env (exec (Api.deleteHistoryItem env id) s).
Proof.
  intros Hl. unfold exec at 1. rewrite Api_deleteHistoryItem_run. cbn [snd].
  destruct (Api.storage_delete_rejects env _).
  - now apply (Api_list_current_ext s).
  - match goal with |- context [Api.with_historyCache ∅ ?st] =>
      destruct (Api_reloaded st) as (Hl' & _) end.
    exact Hl'.
Qed.

Lemma Api_refresh_current s :
  let s' := exec (Api.refreshHistory env) s in
  Api.list_current env s' /\ Api.storage s' = Api.storage s /\ Api.page s' = 1.
Proof. apply Api_reloaded. Qed.

Lemma Api_mount_current st : Api.list_current env (exec (Api.mount env) (Api.initial st)).
Proof. now apply Api_reload_current. Qed.

Lemma Api_deletions_frame keys : forall s,
  let s' := Api.deletions env keys s in
  Api.isLoadingHistory s' = Api.isLoadingHistory s
  /\ Api.page s' = Api.page s
  /\ Api.totalCount s' = Api.totalCount s
  /\ Api.hasMore s' = Api.hasMore s.
Proof.
  unfold Api.deletions.
  induction keys as [|k keys IH]; intros s; [now repeat split|].
  cbn [foldl]. rewrite Api_storage_delete_run. cbn [snd].
  match goal with |- context [foldl _ ?st keys] => destruct (IH st) as (Hl & Hp & Ht & Hm) end.
  cbv zeta in Hl, Hp, Ht, Hm. rewrite Hl, Hp, Ht, Hm.
  now destruct (Api.storage_delete_rejects env k).
Qed.

Lemma Api_unreserved_keys st : Api.requestKeys (unreserved st) = [].
Proof.
  unfold Api.requestKeys, unreserved, Storage.keys.
  induction st as [|[k v] st IH]; [reflexivity|]. cbn [List.filter fst].
  destruct (reserved k) eqn:Hk; cbn [negb map List.filter fst]; [exact IH|].
  unfold reserved in Hk. now rewrite Hk.
Qed.

Lemma Api_clear_current s :
  (forall key, Api.storage_delete_rejects env key = false) ->
  Api.isLoadingHistory s = false ->
  Api.list_current env (exec (Api.clearAllHistory env) s).
Proof.
  intros Hdel Hload.
  destruct (Api_clearAllHistory_view env s) as (_ & Hs & _).
  rewrite Hlist in Hs. rewrite Api_delete_all_unrejected in Hs by exact Hdel.
  fold reserved in Hs. unfold Api.requestKeys in Hs. fold reserved in Hs.
  rewrite removeItem_reserved in Hs.
  unfold exec in Hs |- *. rewrite Api_clearAllHistory_run in Hs |- *. rewrite Hlist in Hs |- *.
  cbn [snd] in Hs |- *.
  assert (Hok : existsb (Api.storage_delete_rejects env) (Api.requestKeys (Api.storage s)) = false).
  { apply not_true_iff_false. intros Hex. apply existsb_exists in Hex as (k & _ & Hk).
    rewrite Hdel in Hk. discriminate. }
  rewrite Hok in Hs |- *.
  destruct (Api_deletions_frame (Api.requestKeys (Api.storage s)) s) as (Hl & _).
  unfold Api.list_current. cbn in Hs |- *. rewrite Hs, Hl, Hload.
  unfold Api.sortedEntries, Api.storedEntries. rewrite Api_unreserved_keys.
  change (JS.Array_sort newest_first (omap _ [])) with (@nil HistoryEntry).
  rewrite take_nil. split; [lia|]. now repeat split.
Qed.

Lemma Api_send_current form s :
  Api.list_current env s -> Api.list_current env (exec (Api.sendRequest env form) s).
Proof.
  intros Hl. unfold exec at 1.
  destruct (Api_sendRequest_run env form) as (rd & code & Hrun & _).
  rewrite Hrun. cbn [snd].
  destruct (Api_before_catch_frame form s) as (_ & Hst & _ & Hh & Hp & Ht & Hm & Hi).
  match goal with |- context [exec (Api.saveToHistory env rd) ?st] =>
    pose proof (Api_save_current rd st) as Hsave
  end.
  apply (Api_list_current_ext _ _ eq_refl eq_refl eq_refl eq_refl eq_refl eq_refl).
  apply Hsave. apply (Api_list_current_ext s); cbn; auto.
Qed.
Lemma Api_observer_page isIntersecting s :
  Api.isLoadingHistory s = false ->
  let s' := exec (Api.observerCallback env isIntersecting) s in
  Api.page s' = (if isIntersecting && Api.hasMore s then Api.page s + 1 else Api.page s)
  /\ Api.storage s' = Api.storage s.
Proof.
  intros Hload. cbv zeta. unfold exec, Api.observerCallback. eff. rewrite Hload.
  destruct (Api.hasMore s), isIntersecting; cbn [andb negb]; try now split.
  match goal with |- context [Api.loadHistory env ?p true ?st] =>
    destruct (Api_loadHistory_frame env p true st) as (_ & Hst & _ & _ & _ & _ & Hp & _)
  end.
  unfold exec in Hst, Hp. now rewrite Hst, Hp.
Qed.

Lemma Api_scrolls k : forall s,
  Api.list_current env s ->
  let s' := Nat.iter k (exec (Api.observerCallback env true)) s in
  Api.list_current env s'
  /\ Api.storage s' = Api.storage s
  /\ (Api.page s' = Api.page s + Z.of_nat k
      \/ (Api.page s' <= Api.page s + Z.of_nat k
          /\ Z.of_nat (length (Api.sortedEntries env (Api.storage s))) <= Api.page s' * 20)).
Proof.
  induction k as [|k IH]; intros s Hcur; cbv zeta.
  - cbn [Nat.iter nat_rect]. split; [exact Hcur|]. split; [reflexivity|]. left. lia.
  - rewrite !Nat.iter_succ. destruct (IH s Hcur) as (Hcur' & Hst & Hpage).
    set (sk := Nat.iter k (exec (Api.observerCallback env true)) s) in *.
    destruct Hcur' as (Hp & Hh & Hm & Ht & Hl).
    destruct (Api_observer_page true sk Hl) as (Hp' & Hst').
    split; [now apply Api_observer_current|].
    split; [now rewrite Hst'|].
    rewrite Hp'. cbn [andb]. rewrite Hm, Hst.
    destruct (Z.ltb_spec (Api.page sk * 20)
                (Z.of_nat (length (Api.sortedEntries env (Api.storage s))))).
    + left. lia.
    + right. lia.
Qed.
End ApiCurrent.
(** The list of the history panel is never stale. With [n] the page
    number, the list is the first [20 * n] of the store's parsed entries in
    the loader's order, and [hasMore] tells whether the store holds more
    (in [Api.jsx], [totalCount] is their number): this holds after the
    mount, and every handler keeps it: a send, a save, a delete, a clear, a
    refresh, a scroll load and the statistics. In [Api1.jsx] it holds
    whatever [localStorage] does; in [Api.jsx] as long as the listing is
    answered and, for a clear, no deletion is rejected. *)
Theorem list_always_current (P : Platform)
    (env1 : Api1.Env) (s1 : Api1.State) (requestData1 : Api1.RequestData.t)
    (env : Api.Env) (s : Api.State) (requestData : Api.RequestData.t)
    (form : Form.t) (id : Z) (isIntersecting : bool) (ls st : Storage.t) :
  Api1.list_current s1 ->
  Api.list_current env s ->
  Api.storage_list_reply env = Api.ListKeys ->
  (Api1.list_current (exec Api1.mount (Api1.initial ls))
   /\ Api1.list_current (exec (Api1.sendRequest env1 form) s1)
   /\ Api1.list_current (exec (Api1.saveToHistory env1 requestData1) s1)
   /\ Api1.list_current (exec (Api1.deleteHistoryItem id) s1)
   /\ Api1.list_current (exec Api1.clearAllHistory s1)
   /\ Api1.list_current (exec Api1.refreshHistory s1)
   /\ Api1.list_current (exec (Api1.observerCallback isIntersecting) s1)
   /\ Api1.list_current (exec Api1.loadStats s1))
  /\ (Api.list_current env (exec (Api.mount env) (Api.initial st))
      /\ Api.list_current env (exec (Api.sendRequest env form) s)
      /\ Api.list_current env (exec (Api.saveToHistory env requestData) s)
      /\ Api.list_current env (exec (Api.deleteHistoryItem env id) s)
      /\ ((forall key, Api.storage_delete_rejects env key = false) ->
          Api.list_current env (exec (Api.clearAllHistory env) s))
      /\ Api.list_current env (exec (Api.refreshHistory env) s)
      /\ Api.list_current env (exec (Api.observerCallback env isIntersecting) s)).
Proof.
  intros Hcur1 Hcur Hlist. split.
  - split; [apply Api1_mount_view|].
    split; [now apply Api1_send_view|].
    split; [now apply Api1_save_view|].
    split; [apply Api1_delete_view|].
    split; [apply Api1_clear_view, Hcur1|].
    split; [apply Api1_refresh_view|].
    split; [now apply Api1_observer_current|].
    now apply Api1_loadStats_current.
  - split; [now apply Api_mount_current|].
    split; [now apply Api_send_current|].
    split; [now apply Api_save_current|].
    split; [now apply Api_delete_current|].
    split; [intros Hdel; apply Api_clear_current; auto; apply Hcur|].
    split; [now apply Api_refresh_current|].
    now apply Api_observer_current.
Qed.

(** Scrolling accumulates the pages. After a refresh and [k] scroll loads
    the list is the first [20 * (k + 1)] of the store's entries in the
    loader's order (all of them once the store is exhausted, after which a
    scroll changes nothing), each once; [hasMore] tells whether more are
    left, and the page number is [k + 1] as long as every scroll found a
    page to load. Both files; in [Api.jsx] when the listing is answered. *)
Theorem scrolling_shows_next_pages (P : Platform)
    (s1 : Api1.State) (env : Api.Env) (s : Api.State) (k : nat) :
  Api.storage_list_reply env = Api.ListKeys ->
  let sorted1 := Api1.sortedEntries (Api1.localStorage s1) in
  let sorted := Api.sortedEntries env (Api.storage s) in
  let scrolled1 :=
    Nat.iter k (exec (Api1.observerCallback true)) (exec Api1.refreshHistory s1) in
  let scrolled :=
    Nat.iter k (exec (Api.observerCallback env true)) (exec (Api.refreshHistory env) s) in
  (Api1.history scrolled1 = take (20 * (k + 1)) sorted1
   /\ Api1.hasMore scrolled1 = ((Z.of_nat k + 1) * 20 <? Z.of_nat (length sorted1))
   /\ (Z.of_nat k * 20 < Z.of_nat (length sorted1) -> Api1.page scrolled1 = Z.of_nat k + 1)
   /\ Api1.localStorage scrolled1 = Api1.localStorage s1)
  /\ (Api.history scrolled = take (20 * (k + 1)) sorted
      /\ Api.hasMore scrolled = ((Z.of_nat k + 1) * 20 <? Z.of_nat (length sorted))
      /\ Api.totalCount scrolled = Z.of_nat (length sorted)
      /\ (Z.of_nat k * 20 < Z.of_nat (length sorted) -> Api.page scrolled = Z.of_nat k + 1)
      /\ Api.storage scrolled = Api.storage s).
Proof.
  intros Hlist sorted1 sorted scrolled1 scrolled. split.
  - destruct (Api1_refresh_view s1) as (Hcur & _ & Hls & _ & Hpage).
    destruct (Api1_scrolls k _ Hcur) as ((Hp & Hh & Hm & _) & Hls' & Hk).
    fold scrolled1 in Hp, Hh, Hm, Hls', Hk. rewrite Hpage, Hls in Hk.
    rewrite Hls', Hls in Hh, Hm. fold sorted1 in Hh, Hm, Hk.
    rewrite Hh, Hm, Hls', Hls.
    destruct Hk as [Hk | [Hle Hall]].
    + rewrite Hk. repeat split; try (f_equal; lia); try (intros; lia).
    + split; [|split; [|split; [intros Hlt; lia|reflexivity]]].
      * rewrite !take_ge by lia. reflexivity.
      * destruct (Z.ltb_spec (Api1.page scrolled1 * 20) (Z.of_nat (length sorted1))); [lia|].
        symmetry. apply Z.ltb_ge. lia.
  - destruct (Api_refresh_current env Hlist s) as (Hcur & Hst & Hpage).
    destruct (Api_scrolls env Hlist k _ Hcur) as ((Hp & Hh & Hm & Ht & _) & Hst' & Hk).
    fold scrolled in Hp, Hh, Hm, Ht, Hst', Hk. rewrite Hpage, Hst in Hk.
    rewrite Hst', Hst in Hh, Hm, Ht. fold sorted in Hh, Hm, Ht, Hk.
    rewrite Hh, Hm, Ht, Hst', Hst.
    destruct Hk as [Hk | [Hle Hall]].
    + rewrite Hk. repeat split; try (f_equal; lia); try (intros; lia).
    + split; [|split; [|split; [reflexivity|split; [intros Hlt; lia|reflexivity]]]].
      * rewrite !take_ge by lia. reflexivity.
      * destruct (Z.ltb_spec (Api.page scrolled * 20) (Z.of_nat (length sorted))); [lia|].
        symmetry. apply Z.ltb_ge. lia.
Qed.

Lemma length_omap_lt {A B} (f : A -> option B) (l : list A) x :
  x ∈ l -> f x = None -> (length (omap f l) < length l)%nat.
Proof.
  induction l as [|y l IH]; intros Hin Hx; [now apply elem_of_nil in Hin|].
  apply elem_of_cons in Hin as [<-|Hin]; cbn.
  - rewrite Hx. pose proof (length_omap_le f l). lia.
  - specialize (IH Hin Hx). destruct (f y); cbn; lia.
Qed.

(** The handlers of the panels. *)
Ltac panel :=
  cbv beta iota zeta delta
    [mbind M_bind mret M_ret bind ret gets modify exec
     Api1.setMethod Api1.setUrl Api1.setHeaders Api1.setBody Api1.setShowHistory
     Api1.setShowStats Api1.window_scrollTo Api1.inState Api1.with_form
     Api1.setResponse Api1.setStatusCode Api1.setDuration
     Api.setMethod Api.setUrl Api.setHeaders Api.setBody Api.setShowHistory
     Api.window_scrollTo Api.inState Api.with_form
     Api.setResponse Api.setStatusCode Api.setDuration];
  cbn.

(** The statistics panel of [Api1.jsx] is never stale: the statistics are
    those of the parsed records of the last 100 request keys of the store
    as it is. This holds after the mount and every handler keeps it (each
    mutation ends with [loadStats]; a refused write leaves store and
    statistics alone). So the button of the panel, which would load the
    statistics only if there were none, only toggles the panel. *)
Theorem statistics_always_current (P : Platform)
    (env : Api1.Env) (s : Api1.State) (c : Api1.Component)
    (requestData : Api1.RequestData.t) (form : Form.t) (id : Z) (isIntersecting : bool)
    (ls : Storage.t) :
  Api1.stats_current s ->
  Api1.stats_current (Api1.state c) ->
  Api1.stats_current (exec Api1.mount (Api1.initial ls))
  /\ Api1.stats_current (exec (Api1.sendRequest env form) s)
  /\ Api1.stats_current (exec (Api1.saveToHistory env requestData) s)
  /\ Api1.stats_current (exec (Api1.deleteHistoryItem id) s)
  /\ Api1.stats_current (exec Api1.clearAllHistory s)
  /\ Api1.stats_current (exec Api1.refreshHistory s)
  /\ Api1.stats_current (exec (Api1.observerCallback isIntersecting) s)
  /\ Api1.stats_current (exec Api1.loadStats s)
  /\ Api1.state (exec Api1.clickStats c) = Api1.state c
  /\ Api1.showStats (Api1.panel (exec Api1.clickStats c)) = negb (Api1.showStats (Api1.panel c)).
Proof.
  intros Hs Hc.
  split; [apply Api1_mount_view|].
  split; [now apply Api1_send_view|].
  split; [now apply Api1_save_view|].
  split; [apply Api1_delete_view|].
  split; [apply Api1_clear_view|].
  split; [apply Api1_refresh_view|].
  split; [now apply Api1_observer_stats|].
  split.
  { unfold exec. rewrite Api1_loadStats_run. reflexivity. }
  unfold Api1.stats_current in Hc. unfold Api1.clickStats. panel. rewrite Hc. now split.
Qed.

(** In [Api1.jsx] the total in the header is set by two functions that
    count differently. After a refresh (and likewise after a mount, a save
    or a delete, which all end with [loadStats]) it is the number of
    request keys, damaged records included; a scroll load that finds a
    next page resets it to the number of records that parse. *)
Theorem Api1_total_counts_request_keys (P : Platform) (s : Api1.State) :
  let keys := Api1.getRequestKeys (Api1.localStorage s) in
  let entries := Api1.storedEntries (Api1.localStorage s) in
  let refreshed := exec Api1.refreshHistory s in
  let scrolled := exec (Api1.observerCallback true) refreshed in
  Api1.totalCount refreshed = Z.of_nat (length keys)
  /\ Z.of_nat (length entries) <= Z.of_nat (length keys)
  /\ ((exists key, key ∈ keys /\ Api1.readItem (Api1.localStorage s) key = None) ->
      Z.of_nat (length entries) < Api1.totalCount refreshed)
  /\ (20 < Z.of_nat (length entries) ->
      Api1.totalCount scrolled = Z.of_nat (length entries))
  /\ (Z.of_nat (length entries) <= 20 ->
      Api1.totalCount scrolled = Z.of_nat (length keys)).
Proof.
  intros keys entries refreshed scrolled.
  destruct (Api1_refresh_view s) as ((Hp & Hh & Hm & Hl) & _ & Hls & Ht & Hpage).
  fold refreshed in Hp, Hh, Hm, Hl, Hls, Ht, Hpage. fold keys in Ht.
  rewrite Hls, Hpage in Hm. rewrite Api1_sorted_length in Hm. fold entries in Hm.
  split; [exact Ht|].
  split; [subst entries keys; unfold Api1.storedEntries;
          pose proof (length_omap_le (Api1.readItem (Api1.localStorage s))
                        (Api1.getRequestKeys (Api1.localStorage s))); lia|].
  split.
  { intros (key & Hin & Hnone). rewrite Ht. subst entries keys. unfold Api1.storedEntries.
    pose proof (length_omap_lt _ _ key Hin Hnone). lia. }
  subst scrolled. unfold exec, Api1.observerCallback. eff.
  rewrite Hl, Hm. cbn [negb andb].
  split; intros Hn.
  - destruct (Z.ltb_spec (1 * 20) (Z.of_nat (length entries))); [|lia]. cbn [andb].
    rewrite Api1_loadHistory_nonempty.
    + cbn [snd Api1.totalCount Api1.localStorage Api1.with_isLoadingHistory Api1.with_hasMore
           Api1.with_history Api1.with_historyCache Api1.with_totalCount Api1.with_page].
      rewrite Hls, Api1_sorted_length. reflexivity.
    + now left.
    + cbn [Api1.localStorage Api1.with_page]. rewrite Hls. apply Api1_sorted_nonempty_keys.
      rewrite Api1_sorted_length. fold entries. lia.
  - destruct (Z.ltb_spec (1 * 20) (Z.of_nat (length entries))); [lia|]. exact Ht.
Qed.

(** ** When [window.storage] fails *)

Section ApiFailures.
Context `{Platform} (env : Api.Env).
Local Arguments JS.Array_sort : simpl never.
Local Arguments JS.Array_slice : simpl never.
Local Arguments Api.loadHistory : simpl never.
Local Arguments Api.sortedEntries : simpl never.
Local Arguments Api.requestKeys : simpl never.
Local Arguments Storage.setItem : simpl never.
Local Arguments Storage.removeItem : simpl never.
Local Arguments String.append : simpl never.
Local Arguments pretty : simpl never.
Local Arguments Z.mul : simpl never.
Local Arguments Z.add : simpl never.
Local Arguments Z.sub : simpl never.
Local Arguments Z.ltb : simpl never.

Lemma Api_deletions_state keys : forall s,
  let s' := Api.deletions env keys s in
  Api.storage s' = Api.delete_all env keys (Api.storage s)
  /\ Api.effects s' = Api.effects s ++ map StorageDelete keys
  /\ Api.historyCache s' = Api.historyCache s
  /\ Api.history s' = Api.history s.
Proof. intros s. apply (Api_deletes_state env keys s). Qed.

(** What the deletions leave of a key. *)
Lemma getItem_delete_all_key key keys : forall st,
  Storage.getItem key (Api.delete_all env keys st)
  = if existsb (String.eqb key) keys && negb (Api.storage_delete_rejects env key)
    then None else Storage.getItem key st.
Proof.
  induction keys as [|k keys IH]; intros st; [reflexivity|].
  change (Api.delete_all env (k :: keys) st)
    with (Api.delete_all env keys
            (if Api.storage_delete_rejects env k then st else Storage.removeItem k st)).
  rewrite IH. cbn [existsb].
  destruct (String.eqb_spec key k) as [->|Hne]; cbn [orb].
  - destruct (Api.storage_delete_rejects env k); cbn [negb].
    + now rewrite andb_false_r.
    + rewrite andb_true_r. rewrite getItem_removeItem_eq. now destruct (existsb _ keys).
  - destruct (existsb (String.eqb key) keys && negb (Api.storage_delete_rejects env key));
      [reflexivity|].
    destruct (Api.storage_delete_rejects env k); [reflexivity|].
    now apply getItem_removeItem_ne.
Qed.
End ApiFailures.

(** A refresh in [Api.jsx], whatever the listing answers. With keys, page
    1 of the store is shown with its total. When the listing is rejected
    the list is emptied and the failure logged, but [totalCount] and
    [hasMore] keep the values they had; when it answers nothing, the list
    stays as well. In all three cases the page is 1 again, the spinner is
    off, the store is untouched and the cache holds no page that was there
    before. *)
Theorem refresh_whatever_the_listing (P : Platform) (env : Api.Env) (s : Api.State) :
  let s' := exec (Api.refreshHistory env) s in
  let sorted := Api.sortedEntries env (Api.storage s) in
  Api.history s'
  = match Api.storage_list_reply env with
    | Api.ListKeys => take 20 sorted
    | Api.ListRejects _ => []
    | Api.ListNull => Api.history s
    end
  /\ Api.totalCount s'
     = match Api.storage_list_reply env with
       | Api.ListKeys => Z.of_nat (length sorted)
       | _ => Api.totalCount s
       end
  /\ Api.hasMore s'
     = match Api.storage_list_reply env with
       | Api.ListKeys => (20 <? Z.of_nat (length sorted))
       | _ => Api.hasMore s
       end
  /\ Api.effects s'
     = Api.effects s
       ++ match Api.storage_list_reply env with
          | Api.ListRejects _ => [ConsoleError "Failed to load history:"]
          | _ => []
          end
  /\ Api.historyCache s'
     = match Api.storage_list_reply env with
       | Api.ListKeys => {[ Api.cacheKey 1 := Api.pageResult env (Api.storage s) 1 ]}
       | _ => ∅
       end
  /\ Api.page s' = 1
  /\ Api.isLoadingHistory s' = false
  /\ Api.storage s' = Api.storage s.
Proof.
  intros s' sorted. subst s'. unfold exec.
  change (Api.refreshHistory env s)
    with (Api.loadHistory env 1 false (Api.with_page 1 (Api.with_historyCache ∅ s))).
  assert (Hmiss : false = true
                  \/ Api.historyCache (Api.with_page 1 (Api.with_historyCache ∅ s))
                     !! Api.cacheKey 1 = None) by (right; apply lookup_empty).
  destruct (Api.storage_list_reply env) as [e| |] eqn:Hlist.
  - rewrite (Api_loadHistory_rejected env _ _ _ e Hmiss Hlist). cbn. now repeat split.
  - rewrite (Api_loadHistory_null env _ _ _ Hmiss Hlist). cbn. rewrite app_nil_r. now repeat split.
  - rewrite (Api_loadHistory_miss env _ _ _ Hmiss Hlist).
    cbn [snd Api.history Api.totalCount Api.hasMore Api.effects Api.historyCache Api.page
         Api.isLoadingHistory Api.storage Api.with_isLoadingHistory Api.with_hasMore
         Api.with_history Api.with_historyCache Api.with_totalCount Api.with_page andb].
    rewrite app_nil_r, insert_empty. fold sorted.
    split; [apply Array_slice_first_page|]. now repeat split.
Qed.

(** A clear in [Api.jsx] in which the store rejects a deletion. Every
    request key's deletion is still issued, in the order of the listing,
    and each record whose deletion is not rejected is gone; but the reset
    that follows is skipped: the list, the totals, the page and the cache
    stay as they were, so the list can show records that are no longer in
    the store, and the failure is only logged. *)
Theorem clear_with_rejected_deletion (P : Platform) (env : Api.Env) (s : Api.State)
    (rejected : string) :
  Api.storage_list_reply env = Api.ListKeys ->
  rejected ∈ Api.requestKeys (Api.storage s) ->
  Api.storage_delete_rejects env rejected = true ->
  let s' := exec (Api.clearAllHistory env) s in
  let keys := Api.requestKeys (Api.storage s) in
  fst (Api.clearAllHistory env s) = Normal tt
  /\ Api.effects s'
     = Api.effects s ++ map StorageDelete keys ++ [ConsoleError "Failed to clear history:"]
  /\ (forall key, key ∈ keys ->
        Storage.getItem key (Api.storage s')
        = if Api.storage_delete_rejects env key then Storage.getItem key (Api.storage s)
          else None)
  /\ Api.history s' = Api.history s
  /\ Api.historyCache s' = Api.historyCache s
  /\ Api.totalCount s' = Api.totalCount s
  /\ Api.hasMore s' = Api.hasMore s
  /\ Api.page s' = Api.page s.
Proof.
  intros Hlist Hin Hrej s' keys. subst s'. unfold exec.
  rewrite Api_clearAllHistory_run, Hlist. cbn [fst snd]. fold keys.
  assert (Hex : existsb (Api.storage_delete_rejects env) keys = true).
  { apply existsb_exists. exists rejected. split; [now apply list_elem_of_In|exact Hrej]. }
  rewrite Hex.
  destruct (Api_deletions_state env keys s) as (Hs & He & Hc & Hh).
  destruct (Api_deletions_frame env keys s) as (_ & Hp & Ht & Hm).
  cbv zeta in Hs, He, Hc, Hh, Hp, Ht, Hm.
  cbn [Api.effects Api.with_effects Api.storage Api.history Api.historyCache Api.totalCount
       Api.hasMore Api.page].
  rewrite Hs, He, Hc, Hh, Hp, Ht, Hm, <- app_assoc.
  repeat split. intros key Hkey. rewrite getItem_delete_all_key.
  assert (Hk : existsb (String.eqb key) keys = true) by now apply existsb_eqb_elem.
  rewrite Hk. now destruct (Api.storage_delete_rejects env key).
Qed.

(** ** Records and their keys *)

Section StorageWrites.
Implicit Types st : Storage.t.

Lemma existsb_keys key st :
  existsb (fun kv : string * string => String.eqb (fst kv) key) st = true
  <-> key ∈ Storage.keys st.
Proof.
  unfold Storage.keys. rewrite existsb_exists, list_elem_of_fmap. split.
  - intros ([k v] & Hin & Heq). apply String.eqb_eq in Heq. cbn in Heq. subst k.
    exists (key, v). split; [reflexivity|now apply list_elem_of_In].
  - intros ([k v] & -> & Hin). exists (k, v). split; [now apply list_elem_of_In|].
    apply String.eqb_refl.
Qed.

Lemma keys_setItem_present key value st :
  key ∈ Storage.keys st -> Storage.keys (Storage.setItem key value st) = Storage.keys st.
Proof.
  intros Hin. unfold Storage.setItem.
  apply existsb_keys in Hin. rewrite Hin. unfold Storage.keys. rewrite map_map.
  apply map_ext. intros [k v]. cbn. destruct (String.eqb_spec k key); now subst.
Qed.

Lemma keys_setItem_fresh key value st :
  key ∉ Storage.keys st ->
  Storage.keys (Storage.setItem key value st) = Storage.keys st ++ [key].
Proof.
  intros Hnotin. unfold Storage.setItem.
  destruct (existsb _ st) eqn:Hex; [apply existsb_keys in Hex; contradiction|].
  unfold Storage.keys. now rewrite map_app.
Qed.

Lemma removeItem_fresh key st :
  key ∉ Storage.keys st -> Storage.removeItem key st = st.
Proof.
  unfold Storage.removeItem, Storage.keys.
  induction st as [|[k v] st IH]; intros Hnotin; [reflexivity|]. cbn in *.
  apply not_elem_of_cons in Hnotin as [Hne Hnotin].
  destruct (String.eqb_spec k key); [congruence|]. cbn. now rewrite IH.
Qed.

(** Writing a fresh key and removing it again restores the store. *)
Lemma removeItem_setItem_fresh key value st :
  key ∉ Storage.keys st ->
  Storage.removeItem key (Storage.setItem key value st) = st.
Proof.
  intros Hnotin. unfold Storage.setItem.
  destruct (existsb _ st) eqn:Hex; [apply existsb_keys in Hex; contradiction|].
  unfold Storage.removeItem. rewrite List.filter_app. cbn.
  rewrite String.eqb_refl. cbn. rewrite app_nil_r.
  now apply removeItem_fresh.
Qed.

(** Of two writes to a key the second one stays. *)
Lemma setItem_setItem key value value' st :
  Storage.setItem key value' (Storage.setItem key value st) = Storage.setItem key value' st.
Proof.
  destruct (decide (key ∈ Storage.keys st)) as [Hin|Hnotin].
  - assert (Hin' : key ∈ Storage.keys (Storage.setItem key value st))
      by now rewrite keys_setItem_present.
    unfold Storage.setItem at 1. apply existsb_keys in Hin'. rewrite Hin'.
    unfold Storage.setItem. apply existsb_keys in Hin. rewrite Hin.
    rewrite map_map. apply map_ext. intros [k v]. cbn.
    destruct (String.eqb_spec k key) as [->|Hne]; cbn.
    + now rewrite String.eqb_refl.
    + destruct (String.eqb_spec k key); [contradiction|reflexivity].
  - assert (Hin' : key ∈ Storage.keys (Storage.setItem key value st)).
    { rewrite keys_setItem_fresh by exact Hnotin. apply elem_of_app. right.
      now apply list_elem_of_singleton. }
    unfold Storage.setItem at 1. apply existsb_keys in Hin'. rewrite Hin'.
    unfold Storage.setItem.
    destruct (existsb _ st) eqn:Hex; [apply existsb_keys in Hex; contradiction|].
    rewrite map_app. cbn. rewrite String.eqb_refl. f_equal.
    rewrite <- (map_id st) at 2. apply map_ext_in. intros [k v] Hkv. cbn.
    destruct (String.eqb_spec k key) as [->|Hne]; [|reflexivity].
    exfalso. apply Hnotin. unfold Storage.keys. apply list_elem_of_fmap.
    exists (key, v). split; [reflexivity|now apply list_elem_of_In].
Qed.
End StorageWrites.
Section SaveDelete.
Context `{Platform}.
Local Arguments JS.Array_sort : simpl never.
Local Arguments JS.Array_slice : simpl never.
Local Arguments Api.loadHistory : simpl never.
Local Arguments Api.sortedEntries : simpl never.
Local Arguments Api1.loadHistory : simpl never.
Local Arguments Api1.loadStats : simpl never.
Local Arguments Api1.sortedEntries : simpl never.
Local Arguments Api1.getRequestKeys : simpl never.
Local Arguments Api1.recentEntries : simpl never.
Local Arguments Api1.computeStats : simpl never.
Local Arguments Storage.setItem : simpl never.
Local Arguments Storage.removeItem : simpl never.
Local Arguments String.append : simpl never.
Local Arguments pretty : simpl never.
Local Arguments Z.mul : simpl never.
Local Arguments Z.to_nat : simpl never.
Local Arguments Nat.mul : simpl never.

(** Two states of [Api1.jsx] that show the same list, totals and
    statistics over the same store. *)
Lemma Api1_reloaded_same (a b : Api1.State) :
  Api1.localStorage a = Api1.localStorage b ->
  let reload s :=
    exec Api1.loadStats
      (exec (Api1.loadHistory 1 false) (Api1.with_page 1 (Api1.with_historyCache ∅ s))) in
  Api1.localStorage (reload a) = Api1.localStorage (reload b)
  /\ Api1.history (reload a) = Api1.history (reload b)
  /\ Api1.hasMore (reload a) = Api1.hasMore (reload b)
  /\ Api1.totalCount (reload a) = Api1.totalCount (reload b)
  /\ Api1.stats (reload a) = Api1.stats (reload b)
  /\ Api1.page (reload a) = Api1.page (reload b).
Proof.
  intros Hls reload. subst reload. cbv beta.
  destruct (Api1_reloaded a) as ((_ & Hh & Hm & _) & Hs & Hl & Ht & Hp).
  destruct (Api1_reloaded b) as ((_ & Hh' & Hm' & _) & Hs' & Hl' & Ht' & Hp').
  unfold Api1.stats_current in Hs, Hs'.
  rewrite Hh, Hm, Hs, Hl, Ht, Hp, Hh', Hm', Hs', Hl', Ht', Hp', Hls.
  repeat (split; [reflexivity|]); reflexivity.
Qed.

Lemma Api_reloaded_same env (a b : Api.State) :
  Api.storage_list_reply env = Api.ListKeys ->
  Api.storage a = Api.storage b ->
  let reload s :=
    exec (Api.loadHistory env 1 false) (Api.with_page 1 (Api.with_historyCache ∅ s)) in
  Api.storage (reload a) = Api.storage (reload b)
  /\ Api.history (reload a) = Api.history (reload b)
  /\ Api.hasMore (reload a) = Api.hasMore (reload b)
  /\ Api.totalCount (reload a) = Api.totalCount (reload b)
  /\ Api.page (reload a) = Api.page (reload b).
Proof.
  intros Hlist Hst reload. subst reload. cbv beta.
  destruct (Api_reloaded env Hlist a) as ((_ & Hh & Hm & Ht & _) & Hl & Hp).
  destruct (Api_reloaded env Hlist b) as ((_ & Hh' & Hm' & Ht' & _) & Hl' & Hp').
  rewrite Hh, Hm, Ht, Hl, Hp, Hh', Hm', Ht', Hl', Hp', Hst.
  repeat (split; [reflexivity|]); reflexivity.
Qed.
End SaveDelete.

(** Saving an item and deleting it again by its [id] is a round trip: when
    no record of that millisecond was in the store and the store accepts
    both operations, the store is as before, and the panel shows what a
    refresh of the state before would show. Both files. *)
Theorem save_then_delete_restores (P : Platform)
    (env1 : Api1.Env) (s1 : Api1.State) (requestData1 : Api1.RequestData.t)
    (env : Api.Env) (s : Api.State) (requestData : Api.RequestData.t) :
  let item1 := Api1.itemWithId env1 requestData1 (Api1.Date_now env1) in
  let item := Api.itemWithId requestData (Api.Date_now env) in
  "request:" +:+ pretty (Api1.Date_now env1) ∉ Storage.keys (Api1.localStorage s1) ->
  Api1.setItem_throws env1 = false ->
  "request:" +:+ pretty (Api.Date_now env) ∉ Storage.keys (Api.storage s) ->
  Api.storage_set_rejects env = false ->
  Api.storage_delete_rejects env ("request:" +:+ pretty (Api.Date_now env)) = false ->
  Api.storage_list_reply env = Api.ListKeys ->
  let back1 :=
    exec (Api1.deleteHistoryItem (Item.id item1)) (exec (Api1.saveToHistory env1 requestData1) s1) in
  let back :=
    exec (Api.deleteHistoryItem env (Item.id item)) (exec (Api.saveToHistory env requestData) s) in
  let refreshed1 := exec Api1.refreshHistory s1 in
  let refreshed := exec (Api.refreshHistory env) s in
  (Api1.localStorage back1 = Api1.localStorage s1
   /\ Api1.history back1 = Api1.history refreshed1
   /\ Api1.hasMore back1 = Api1.hasMore refreshed1
   /\ Api1.totalCount back1 = Api1.totalCount refreshed1
   /\ Api1.stats back1 = Api1.stats refreshed1
   /\ Api1.page back1 = 1)
  /\ (Api.storage back = Api.storage s
      /\ Api.history back = Api.history refreshed
      /\ Api.hasMore back = Api.hasMore refreshed
      /\ Api.totalCount back = Api.totalCount refreshed
      /\ Api.page back = 1).
Proof.
  intros item1 item Hfresh1 Hset1 Hfresh Hset Hdel Hlist back1 back refreshed1 refreshed.
  split.
  - assert (Hrestored :
      Storage.removeItem ("request:" +:+ pretty (Item.id item1))
        (Api1.localStorage (exec (Api1.saveToHistory env1 requestData1) s1))
      = Api1.localStorage s1).
    { rewrite Api1_saveToHistory_store, Hset1. now apply removeItem_setItem_fresh. }
    split; [subst back1; now rewrite Api1_deleteHistoryItem_store|].
    subst back1 refreshed1.
    set (saved := exec (Api1.saveToHistory env1 requestData1) s1) in *.
    unfold exec. rewrite Api1_deleteHistoryItem_run, Api1_refreshHistory_run. cbn [snd].
    match goal with |- context [Api1.with_historyCache ∅ (Api1.with_localStorage ?ls ?st)] =>
      destruct (Api1_reloaded_same (Api1.with_localStorage ls st) s1) as (_ & Hh & Hm & Ht & Hs & Hp);
      [exact Hrestored|];
      destruct (Api1_reloaded (Api1.with_localStorage ls st)) as (_ & _ & _ & _ & Hp1)
    end.
    cbv beta in Hh, Hm, Ht, Hs. unfold exec in *. now rewrite Hh, Hm, Ht, Hs, Hp1.
  - assert (Hrestored :
      Storage.removeItem ("request:" +:+ pretty (Item.id item))
        (Api.storage (exec (Api.saveToHistory env requestData) s))
      = Api.storage s).
    { rewrite Api_saveToHistory_store, Hset. now apply removeItem_setItem_fresh. }
    split; [subst back; rewrite Api_deleteHistoryItem_store; cbn [Item.id item Api.itemWithId];
            now rewrite Hdel|].
    subst back refreshed.
    set (saved := exec (Api.saveToHistory env requestData) s) in *.
    unfold exec. rewrite Api_deleteHistoryItem_run. cbn [Item.id item Api.itemWithId].
    rewrite Hdel. cbn [snd].
    change (Api.refreshHistory env s)
      with (Api.loadHistory env 1 false (Api.with_page 1 (Api.with_historyCache ∅ s))).
    match goal with |- context [Api.with_historyCache ∅ (Api.with_storage ?ls ?st)] =>
      destruct (Api_reloaded_same env (Api.with_storage ls st) s Hlist) as (_ & Hh & Hm & Ht & Hp);
      [exact Hrestored|];
      destruct (Api_reloaded env Hlist (Api.with_storage ls st)) as (_ & _ & Hp1)
    end.
    cbv beta in Hh, Hm, Ht. unfold exec in *. now rewrite Hh, Hm, Ht, Hp1.
Qed.
(** The key of a record is the millisecond of its save. Two saves that
    read the same [Date.now()] therefore write the same key: the second
    overwrites the first, the store lists as many keys as after the first
    and is as if the first save had not happened. Both files. *)
Theorem saves_in_one_millisecond_leave_one (P : Platform)
    (first1 second1 : Api1.Env) (s1 : Api1.State) (requestData1 other1 : Api1.RequestData.t)
    (first second : Api.Env) (s : Api.State) (requestData other : Api.RequestData.t) :
  Api1.Date_now second1 = Api1.Date_now first1 ->
  Api1.setItem_throws first1 = false ->
  Api1.setItem_throws second1 = false ->
  Api.Date_now second = Api.Date_now first ->
  Api.storage_set_rejects first = false ->
  Api.storage_set_rejects second = false ->
  let once1 := exec (Api1.saveToHistory first1 requestData1) s1 in
  let twice1 := exec (Api1.saveToHistory second1 other1) once1 in
  let once := exec (Api.saveToHistory first requestData) s in
  let twice := exec (Api.saveToHistory second other) once in
  (Storage.keys (Api1.localStorage twice1) = Storage.keys (Api1.localStorage once1)
   /\ Api1.localStorage twice1
      = Api1.localStorage (exec (Api1.saveToHistory second1 other1) s1)
   /\ Storage.getItem ("request:" +:+ pretty (Api1.Date_now first1)) (Api1.localStorage twice1)
      = Some (JSON_stringify_entry (Api1.itemWithId second1 other1 (Api1.Date_now second1))))
  /\ (Storage.keys (Api.storage twice) = Storage.keys (Api.storage once)
      /\ Api.storage twice = Api.storage (exec (Api.saveToHistory second other) s)
      /\ Storage.getItem ("request:" +:+ pretty (Api.Date_now first)) (Api.storage twice)
         = Some (JSON_stringify_entry (Api.itemWithId other (Api.Date_now second)))).
Proof.
  intros Hnow1 Hset1 Hset1' Hnow Hset Hset' once1 twice1 once twice.
  subst once1 twice1 once twice.
  rewrite !Api1_saveToHistory_store, !Api_saveToHistory_store.
  rewrite Hset1, Hset1', Hset, Hset', Hnow1, Hnow.
  rewrite !setItem_setItem, !getItem_setItem_eq.
  split; (split; [|now split]).
  - destruct (decide ("request:" +:+ pretty (Api1.Date_now first1)
                      ∈ Storage.keys (Api1.localStorage s1))) as [Hin|Hnotin].
    + now rewrite !keys_setItem_present.
    + now rewrite !keys_setItem_fresh.
  - destruct (decide ("request:" +:+ pretty (Api.Date_now first)
                      ∈ Storage.keys (Api.storage s))) as [Hin|Hnotin].
    + now rewrite !keys_setItem_present.
    + now rewrite !keys_setItem_fresh.
Qed.

(** ** Sorting and filtering *)

Section SortFilter.
Context {A : Type} (key : A -> Z) (keep : A -> bool).

Local Abbreviation cmp := (by_key_desc key).

(** An element that is no older than the rest goes first. *)
Lemma Array_sort_insert_head x (l : list A) :
  Forall (fun y => key y <= key x) l -> JS.Array_sort_insert cmp x l = x :: l.
Proof.
  intros Hall. destruct l as [|y l]; [reflexivity|]. cbn.
  apply Forall_cons in Hall as [Hy _]. unfold by_key_desc.
  destruct (Z.leb_spec (key y - key x) 0); [reflexivity|lia].
Qed.

Lemma filter_Array_sort_insert x (l : list A) :
  StronglySorted (descending key) l ->
  List.filter keep (JS.Array_sort_insert cmp x l)
  = if keep x then JS.Array_sort_insert cmp x (List.filter keep l) else List.filter keep l.
Proof.
  induction 1 as [|y l Hs IH Hall]; [cbn; now destruct (keep x)|].
  cbn [JS.Array_sort_insert]. unfold by_key_desc at 1.
  destruct (Z.leb_spec (key y - key x) 0) as [Hle|Hgt].
  - cbn [List.filter]. destruct (keep x); [|reflexivity].
    destruct (keep y).
    + cbn [JS.Array_sort_insert]. unfold by_key_desc.
      destruct (Z.leb_spec (key y - key x) 0); [reflexivity|lia].
    + symmetry. apply Array_sort_insert_head.
      apply Forall_forall. intros z Hz. apply list_elem_of_In, List.filter_In in Hz as [Hz _].
      rewrite Forall_forall in Hall. apply list_elem_of_In, Hall in Hz.
      unfold descending in Hz. lia.
  - cbn [List.filter]. rewrite IH.
    destruct (keep y), (keep x); try reflexivity.
    cbn [JS.Array_sort_insert]. unfold by_key_desc at 2.
    destruct (Z.leb_spec (key y - key x) 0); [lia|reflexivity].
Qed.

(** Dropping elements before or after the sort is the same. *)
Lemma Array_sort_filter (l : list A) :
  JS.Array_sort cmp (List.filter keep l) = List.filter keep (JS.Array_sort cmp l).
Proof.
  induction l as [|x l IH]; [reflexivity|].
  change (JS.Array_sort cmp (x :: l)) with (JS.Array_sort_insert cmp x (JS.Array_sort cmp l)).
  rewrite filter_Array_sort_insert by apply Array_sort_desc_sorted.
  cbn [List.filter]. destruct (keep x); [|exact IH].
  change (JS.Array_sort cmp (x :: List.filter keep l))
    with (JS.Array_sort_insert cmp x (JS.Array_sort cmp (List.filter keep l))).
  now rewrite IH.
Qed.
End SortFilter.

Lemma omap_filter_comm {A B} (f : A -> option B) (p : A -> bool) (q : B -> bool) (l : list A) :
  (forall x y, x ∈ l -> f x = Some y -> p x = q y) ->
  omap f (List.filter p l) = List.filter q (omap f l).
Proof.
  induction l as [|x l IH]; intros Hpq; [reflexivity|].
  assert (IH' : omap f (List.filter p l) = List.filter q (omap f l)).
  { apply IH. intros a b Ha. apply Hpq. apply elem_of_cons. now right. }
  cbn [List.filter]. destruct (f x) as [y|] eqn:Hfx.
  - rewrite (Hpq x y) by (auto; apply elem_of_cons; now left).
    change (omap f (x :: l)) with (from_option (fun y => y :: omap f l) (omap f l) (f x)).
    rewrite Hfx. cbn [from_option List.filter].
    destruct (q y); [|exact IH'].
    change (omap f (x :: List.filter p l))
      with (from_option (fun y => y :: omap f (List.filter p l)) (omap f (List.filter p l)) (f x)).
    rewrite Hfx. cbn [from_option]. now rewrite IH'.
  - change (omap f (x :: l)) with (from_option (fun y => y :: omap f l) (omap f l) (f x)).
    rewrite Hfx. cbn [from_option].
    destruct (p x); [|exact IH'].
    change (omap f (x :: List.filter p l))
      with (from_option (fun y => y :: omap f (List.filter p l)) (omap f (List.filter p l)) (f x)).
    rewrite Hfx. exact IH'.
Qed.
Section ApiKeys.
Context `{Platform} (env : Api.Env).
Local Arguments JS.Array_sort : simpl never.
Local Arguments JS.Array_slice : simpl never.
Local Arguments Api.loadHistory : simpl never.
Local Arguments Api.sortedEntries : simpl never.
Local Arguments Api.requestKeys : simpl never.
Local Arguments Storage.setItem : simpl never.
Local Arguments Storage.removeItem : simpl never.
Local Arguments String.append : simpl never.
Local Arguments pretty : simpl never.
Local Arguments Z.mul : simpl never.
Local Arguments Z.to_nat : simpl never.
Local Arguments Nat.mul : simpl never.

Implicit Types st : Storage.t.

Lemma request_key_inj (a b : Z) :
  "request:" +:+ pretty a = "request:" +:+ pretty b -> a = b.
Proof.
  intros Heq. apply (inj (String.append "request:")) in Heq. now apply (inj pretty) in Heq.
Qed.

Lemma Api_requestKeys_setItem key value st k :
  k ∈ Api.requestKeys (Storage.setItem key value st) -> k = key \/ k ∈ Api.requestKeys st.
Proof.
  unfold Api.requestKeys. rewrite !list_elem_of_In, !List.filter_In, <- !list_elem_of_In.
  intros [Hin Hk].
  destruct (decide (key ∈ Storage.keys st)) as [Hkey|Hkey].
  - rewrite keys_setItem_present in Hin by exact Hkey. auto.
  - rewrite keys_setItem_fresh in Hin by exact Hkey.
    apply elem_of_app in Hin as [Hin|Hin]; [auto|].
    apply list_elem_of_singleton in Hin. auto.
Qed.

Lemma Api_requestKeys_setItem_elem key value st :
  reserved key = true -> key ∈ Api.requestKeys (Storage.setItem key value st).
Proof.
  intros Hres. unfold Api.requestKeys. rewrite list_elem_of_In, List.filter_In, <- list_elem_of_In.
  split; [|exact Hres].
  destruct (decide (key ∈ Storage.keys st)) as [Hkey|Hkey].
  - now rewrite keys_setItem_present.
  - rewrite keys_setItem_fresh by exact Hkey. apply elem_of_app. right.
    now apply list_elem_of_singleton.
Qed.

Lemma Api_readItem_setItem_ne key value st k :
  k <> key -> Api.readItem env (Storage.setItem key value st) k = Api.readItem env st k.
Proof. intros Hne. unfold Api.readItem. now rewrite getItem_setItem_ne. Qed.

Lemma Api_readItem_setItem_eq key value st :
  Api.readItem env (Storage.setItem key value st) key
  = if Api.storage_get_rejects env key then None else JSON_parse_entry value.
Proof. unfold Api.readItem. now rewrite getItem_setItem_eq. Qed.

Lemma keyed_by_id_removeItem key st :
  Api.keyed_by_id env st -> Api.keyed_by_id env (Storage.removeItem key st).
Proof.
  intros Hkeyed k e Hin Hread.
  rewrite Api_requestKeys_removeItem in Hin.
  apply list_elem_of_In, List.filter_In in Hin as [Hin Hne].
  apply negb_true_iff, String.eqb_neq in Hne.
  rewrite Api_readItem_removeItem_ne in Hread by exact Hne.
  apply Hkeyed; [now apply list_elem_of_In|exact Hread].
Qed.

Lemma keyed_by_id_delete_all keys : forall st,
  Api.keyed_by_id env st -> Api.keyed_by_id env (Api.delete_all env keys st).
Proof.
  induction keys as [|k keys IH]; intros st Hkeyed; [exact Hkeyed|].
  change (Api.delete_all env (k :: keys) st)
    with (Api.delete_all env keys
            (if Api.storage_delete_rejects env k then st else Storage.removeItem k st)).
  apply IH. destruct (Api.storage_delete_rejects env k); [exact Hkeyed|].
  now apply keyed_by_id_removeItem.
Qed.

Lemma keyed_by_id_setItem (id : Z) item st :
  Item.id item = id ->
  JSON_parse_entry (JSON_stringify_entry item) = Some item ->
  Api.keyed_by_id env st ->
  Api.keyed_by_id env
    (Storage.setItem ("request:" +:+ pretty id) (JSON_stringify_entry item) st).
Proof.
  intros Hid Hparse Hkeyed k e Hin Hread.
  destruct (decide (k = "request:" +:+ pretty id)) as [->|Hne].
  - rewrite Api_readItem_setItem_eq in Hread.
    destruct (Api.storage_get_rejects env _); [discriminate|].
    rewrite Hparse in Hread. injection Hread as <-. now rewrite Hid.
  - rewrite Api_readItem_setItem_ne in Hread by exact Hne.
    apply Api_requestKeys_setItem in Hin as [->|Hin]; [contradiction|].
    now apply Hkeyed.
Qed.

(** The entries of a store without one record. *)
Lemma Api_storedEntries_without (id : Z) st :
  Api.keyed_by_id env st ->
  Api.storedEntries env (Storage.removeItem ("request:" +:+ pretty id) st)
  = List.filter (fun e => negb (Item.id e =? id)) (Api.storedEntries env st).
Proof.
  intros Hkeyed. unfold Api.storedEntries. rewrite Api_requestKeys_removeItem.
  rewrite <- (omap_filter_comm (Api.readItem env st)
                (fun k => negb (String.eqb k ("request:" +:+ pretty id)))).
  - apply omap_ext_in. intros k Hk.
    apply list_elem_of_In, List.filter_In in Hk as [_ Hne].
    apply negb_true_iff, String.eqb_neq in Hne.
    now apply Api_readItem_removeItem_ne.
  - intros k e Hk Hread. f_equal. rewrite (Hkeyed k e Hk Hread).
    destruct (Z.eqb_spec (Item.id e) id) as [->|Hne].
    + apply String.eqb_refl.
    + apply String.eqb_neq. intros Heq. now apply request_key_inj in Heq.
Qed.

Lemma Api_sortedEntries_without (id : Z) st :
  Api.keyed_by_id env st ->
  Api.sortedEntries env (Storage.removeItem ("request:" +:+ pretty id) st)
  = List.filter (fun e => negb (Item.id e =? id)) (Api.sortedEntries env st).
Proof.
  intros Hkeyed. unfold Api.sortedEntries. rewrite Api_storedEntries_without by exact Hkeyed.
  apply (Array_sort_filter Item.timestamp).
Qed.
End ApiKeys.

(** In [Api.jsx] every record is filed under its own [id]: a record that
    reads as an entry [e] is stored under ["request:" + e.id]. The empty
    store has this property, and a save (of an item that the platform
    reads back as it was written), a delete and a clear keep it, whatever
    the store rejects. *)
Theorem records_keyed_by_id (P : Platform) (env : Api.Env) (s : Api.State)
    (requestData : Api.RequestData.t) (id : Z) :
  let item := Api.itemWithId requestData (Api.Date_now env) in
  Api.keyed_by_id env (Api.storage s) ->
  JSON_parse_entry (JSON_stringify_entry item) = Some item ->
  Api.keyed_by_id env []
  /\ Api.keyed_by_id env (Api.storage (exec (Api.saveToHistory env requestData) s))
  /\ Api.keyed_by_id env (Api.storage (exec (Api.deleteHistoryItem env id) s))
  /\ Api.keyed_by_id env (Api.storage (exec (Api.clearAllHistory env) s)).
Proof.
  intros item Hkeyed Hparse.
  split; [intros k e Hin; now apply elem_of_nil in Hin|].
  split; [|split].
  - rewrite Api_saveToHistory_store.
    destruct (Api.storage_set_rejects env); [exact Hkeyed|].
    now apply keyed_by_id_setItem.
  - rewrite Api_deleteHistoryItem_store.
    destruct (Api.storage_delete_rejects env _); [exact Hkeyed|].
    now apply keyed_by_id_removeItem.
  - destruct (Api_clearAllHistory_view env s) as (_ & Hs & _). rewrite Hs.
    destruct (Api.storage_list_reply env); try exact Hkeyed.
    now apply keyed_by_id_delete_all.
Qed.

(** The delete button of a row removes that row and nothing else. In a
    store whose records are filed under their ids, after the button of
    [item] the entries of the store are those of before whose [id] is not
    the item's, in the same order; the panel shows the first 20 of them
    and their number, on page 1. ([Api.jsx], when the store answers.) *)
Theorem delete_button_removes_the_row (P : Platform) (env : Api.Env) (c : Api.Component)
    (item : HistoryEntry) :
  Api.keyed_by_id env (Api.storage (Api.state c)) ->
  Api.storage_list_reply env = Api.ListKeys ->
  Api.storage_delete_rejects env ("request:" +:+ pretty (Item.id item)) = false ->
  let others :=
    List.filter (fun e => negb (Item.id e =? Item.id item))
      (Api.sortedEntries env (Api.storage (Api.state c))) in
  let c' := exec (Api.clickDelete env item) c in
  Api.sortedEntries env (Api.storage (Api.state c')) = others
  /\ Api.history (Api.state c') = take 20 others
  /\ Api.totalCount (Api.state c') = Z.of_nat (length others)
  /\ Api.hasMore (Api.state c') = (20 <? Z.of_nat (length others))
  /\ Api.page (Api.state c') = 1
  /\ (item ∉ Api.history (Api.state c'))
  /\ Api.panel c' = Api.panel c.
Proof.
  intros Hkeyed Hlist Hdel others c'.
  assert (Hstate : Api.state c' = exec (Api.deleteHistoryItem env (Item.id item)) (Api.state c)).
  { subst c'. unfold Api.clickDelete, exec, Api.inState.
    now destruct (Api.deleteHistoryItem env (Item.id item) (Api.state c)). }
  assert (Hpanel : Api.panel c' = Api.panel c).
  { subst c'. unfold Api.clickDelete, exec, Api.inState.
    now destruct (Api.deleteHistoryItem env (Item.id item) (Api.state c)). }
  rewrite Hstate.
  assert (Hstore : Api.storage (exec (Api.deleteHistoryItem env (Item.id item)) (Api.state c))
                   = Storage.removeItem ("request:" +:+ pretty (Item.id item))
                       (Api.storage (Api.state c))).
  { now rewrite Api_deleteHistoryItem_store, Hdel. }
  assert (Hwithout : Api.sortedEntries env
                       (Storage.removeItem ("request:" +:+ pretty (Item.id item))
                          (Api.storage (Api.state c)))
                     = others) by now apply Api_sortedEntries_without.
  assert (Hsorted : Api.sortedEntries env
                      (Api.storage (exec (Api.deleteHistoryItem env (Item.id item)) (Api.state c)))
                    = others) by now rewrite Hstore.
  unfold exec at 2 3 4 5 6. rewrite Api_deleteHistoryItem_run, Hdel. cbn [snd].
  match goal with |- context [Api.with_historyCache ∅ ?st] =>
    destruct (Api_reloaded env Hlist st) as ((_ & Hh & Hm & Ht & _) & Hst & Hp)
  end.
  rewrite Hp in Hh, Hm. rewrite Hst in Hh, Hm, Ht.
  cbn [Api.storage Api.with_storage] in Hh, Hm, Ht.
  rewrite Hwithout in Hh, Hm, Ht.
  rewrite Hh, Hm, Ht, Hp.
  split; [exact Hsorted|]. split; [reflexivity|]. split; [reflexivity|].
  split; [reflexivity|]. split; [reflexivity|]. split; [|exact Hpanel].
  intros Hin. apply (subseteq_take 20 others) in Hin.
  subst others. apply list_elem_of_In, List.filter_In in Hin as [_ Hne].
  now rewrite Z.eqb_refl in Hne.
Qed.
(** The newest element of a list sorted newest first is its head. *)
Lemma newest_is_head (item : HistoryEntry) (sorted : list HistoryEntry) :
  StronglySorted (descending Item.timestamp) sorted ->
  item ∈ sorted ->
  (forall e, e ∈ sorted -> e = item \/ Item.timestamp e < Item.timestamp item) ->
  exists rest, sorted = item :: rest.
Proof.
  intros Hsorted Hin Hnewest. destruct sorted as [|x rest]; [now apply elem_of_nil in Hin|].
  exists rest. f_equal.
  destruct (Hnewest x ltac:(apply elem_of_cons; now left)) as [->|Hlt]; [reflexivity|].
  apply elem_of_cons in Hin as [->|Hin]; [reflexivity|].
  apply StronglySorted_inv in Hsorted as [_ Hall].
  rewrite Forall_forall in Hall. apply Hall in Hin.
  unfold descending in Hin. lia.
Qed.

(** A saved item heads the list. In [Api.jsx], when the store accepts the
    write and answers the reads, the platform reads the item back as it
    was written, and the item's timestamp is later than that of every
    entry in the store, the list shown after the save starts with the
    item. *)
Theorem saved_item_is_shown_first (P : Platform) (env : Api.Env) (s : Api.State)
    (requestData : Api.RequestData.t) :
  let item := Api.itemWithId requestData (Api.Date_now env) in
  let key := "request:" +:+ pretty (Api.Date_now env) in
  Api.storage_list_reply env = Api.ListKeys ->
  Api.storage_set_rejects env = false ->
  Api.storage_get_rejects env key = false ->
  JSON_parse_entry (JSON_stringify_entry item) = Some item ->
  Forall (fun e => Item.timestamp e < Item.timestamp item)
    (Api.storedEntries env (Api.storage s)) ->
  let s' := exec (Api.saveToHistory env requestData) s in
  (exists rest, Api.history s' = item :: rest)
  /\ 1 <= Api.totalCount s'
  /\ Api.page s' = 1
  /\ Storage.getItem key (Api.storage s') = Some (JSON_stringify_entry item).
Proof.
  intros item key Hlist Hset Hget Hparse Holder s'.
  assert (Hstore : Api.storage s'
                   = Storage.setItem key (JSON_stringify_entry item) (Api.storage s)).
  { subst s'. now rewrite Api_saveToHistory_store, Hset. }
  set (st' := Storage.setItem key (JSON_stringify_entry item) (Api.storage s)) in *.
  assert (Hin : item ∈ Api.storedEntries env st').
  { apply Api_storedEntries_spec. exists key, (JSON_stringify_entry item).
    split; [apply Api_requestKeys_setItem_elem, reserved_request_key|].
    split; [exact Hget|]. split; [apply getItem_setItem_eq|exact Hparse]. }
  assert (Hnewest : forall e, e ∈ Api.storedEntries env st' ->
                      e = item \/ Item.timestamp e < Item.timestamp item).
  { intros e He. apply Api_storedEntries_spec in He as (k & value & Hk & Hrej & Hvalue & He).
    destruct (decide (k = key)) as [->|Hne].
    - left. subst st'. rewrite getItem_setItem_eq in Hvalue. injection Hvalue as <-.
      congruence.
    - right. rewrite Forall_forall in Holder. apply Holder.
      apply Api_storedEntries_spec. exists k, value.
      subst st'. rewrite getItem_setItem_ne in Hvalue by exact Hne.
      apply Api_requestKeys_setItem in Hk as [->|Hk]; [contradiction|]. auto. }
  destruct (newest_is_head item (Api.sortedEntries env st')) as [rest Hrest].
  { apply Array_sort_desc_sorted. }
  { unfold Api.sortedEntries. now rewrite Array_sort_perm. }
  { intros e He. apply Hnewest. unfold Api.sortedEntries in He. now rewrite Array_sort_perm in He. }
  clear Hstore. subst s'. unfold exec at 1 2 3 4. rewrite Api_saveToHistory_run, Hset. cbn [snd].
  match goal with |- context [Api.with_historyCache ∅ ?st] =>
    destruct (Api_reloaded env Hlist st) as ((_ & Hh & _ & Ht & _) & Hst & Hp)
  end.
  rewrite Hp in Hh. rewrite Hst in Hh, Ht.
  cbn [Api.storage Api.with_storage] in Hh, Ht.
  subst st' key item. rewrite Hrest in Hh, Ht.
  rewrite Hh, Ht, Hp, Hst. cbn [Api.storage Api.with_storage].
  split; [exists (take 19 rest); reflexivity|].
  split; [cbn [length]; lia|]. split; [reflexivity|].
  apply getItem_setItem_eq.
Qed.

(** ** The form and the history *)

Lemma string_or_empty (s : string) : string_or s "" = s.
Proof. now destruct s. Qed.

Lemma string_or_nonempty (s d : string) : s <> "" -> string_or s d = s.
Proof. now destruct s. Qed.

Section Written.
Context `{Platform}.
Local Arguments Api.saveToHistory : simpl never.
Local Arguments Api1.saveToHistory : simpl never.
Local Arguments String.append : simpl never.
Local Arguments pretty : simpl never.

(** The one item a send writes records the form as it stands. *)
Lemma Api_sendRequest_written env form s :
  exists requestData,
    List.filter is_storage_set
      (drop (length (Api.effects s)) (Api.effects (exec (Api.sendRequest env form) s)))
    = [StorageSet ("request:" +:+ pretty (Api.Date_now env))
         (JSON_stringify_entry (Api.itemWithId requestData (Api.Date_now env)))]
    /\ Api.RequestData.method requestData = Form.method form
    /\ Api.RequestData.url requestData = Form.url form
    /\ Api.RequestData.headers requestData = Form.headers form
    /\ Api.RequestData.body requestData = Form.body form.
Proof.
  destruct (Api_sendRequest_run env form) as (rd & code & Hrun & Hfields).
  exists rd. split; [|exact Hfields].
  unfold exec. rewrite Hrun. cbn [snd].
  match goal with |- context [exec (Api.saveToHistory env rd) ?st] =>
    remember st as shown eqn:Hshown;
    destruct (Api_saveToHistory_effects env rd shown) as (logs & Heff & _ & Hnoset)
  end.
  destruct (Api_before_catch_frame form s) as (Hfx & _).
  cbn [Api.effects Api.with_loading]. rewrite Heff, Hshown.
  cbn [Api.effects Api.with_duration Api.with_statusCode Api.with_response].
  rewrite Hfx, <- app_assoc, drop_app_length, !List.filter_app.
  assert (Hf : List.filter is_storage_set (Api.fetches form) = []).
  { unfold Api.fetches. now destruct (Api.validate form) as [[? ?]|?]. }
  rewrite Hf. cbn [List.filter is_storage_set app]. now rewrite Hnoset.
Qed.

Lemma Api1_sendRequest_written env form s :
  exists requestData,
    List.filter is_storage_set
      (drop (length (Api1.effects s)) (Api1.effects (exec (Api1.sendRequest env form) s)))
    = [StorageSet ("request:" +:+ pretty (Api1.Date_now env))
         (JSON_stringify_entry (Api1.itemWithId env requestData (Api1.Date_now env)))]
    /\ Api1.RequestData.method requestData = Form.method form
    /\ Api1.RequestData.url requestData = Form.url form
    /\ Api1.RequestData.headers requestData
       = match JSON_parse (Form.headers form) with Some v => v | None => JObject [] end
    /\ Api1.RequestData.body requestData = Form.body form.
Proof.
  destruct (Api1_sendRequest_run env form) as (rd & code & Hrun & Hfields).
  exists rd. split; [|exact Hfields].
  unfold exec. rewrite Hrun. cbn [snd].
  match goal with |- context [exec (Api1.saveToHistory env rd) ?st] =>
    remember st as shown eqn:Hshown;
    destruct (Api1_saveToHistory_effects env rd shown) as (logs & Heff & _ & Hnoset)
  end.
  destruct (Api1_before_catch_frame form s) as (Hfx & _).
  cbn [Api1.effects Api1.with_loading]. rewrite Heff, Hshown.
  cbn [Api1.effects Api1.with_duration Api1.with_statusCode Api1.with_response].
  rewrite Hfx, <- app_assoc, drop_app_length, !List.filter_app.
  assert (Hf : List.filter is_storage_set (Api1.fetches form) = []).
  { unfold Api1.fetches. now destruct (Api1.validate form) as [[? ?]|?]. }
  rewrite Hf. cbn [List.filter is_storage_set app]. now rewrite Hnoset.
Qed.
End Written.

(** A handler of the state, run on the component, changes the state only. *)
Lemma Api1_inState_run {A} (m : M Api1.State A) (c : Api1.Component) :
  exec (Api1.inState m) c
  = {| Api1.panel := Api1.panel c; Api1.state := exec m (Api1.state c);
       Api1.scrolls := Api1.scrolls c |}.
Proof. unfold exec, Api1.inState. now destruct (m (Api1.state c)). Qed.

Lemma Api_inState_run {A} (m : M Api.State A) (c : Api.Component) :
  exec (Api.inState m) c
  = {| Api.panel := Api.panel c; Api.state := exec m (Api.state c);
       Api.scrolls := Api.scrolls c |}.
Proof. unfold exec, Api.inState. now destruct (m (Api.state c)). Qed.

Lemma Api1_clickSend_run `{Platform} env (c : Api1.Component) :
  exec (Api1.clickSend env) c
  = {| Api1.panel := Api1.panel c;
       Api1.state := exec (Api1.sendRequest env (Api1.form (Api1.panel c))) (Api1.state c);
       Api1.scrolls := Api1.scrolls c |}.
Proof.
  change (exec (Api1.clickSend env) c)
    with (exec (Api1.inState (Api1.sendRequest env (Api1.form (Api1.panel c)))) c).
  apply Api1_inState_run.
Qed.

Lemma Api_clickSend_run `{Platform} env (c : Api.Component) :
  exec (Api.clickSend env) c
  = {| Api.panel := Api.panel c;
       Api.state := exec (Api.sendRequest env (Api.form (Api.panel c))) (Api.state c);
       Api.scrolls := Api.scrolls c |}.
Proof.
  change (exec (Api.clickSend env) c)
    with (exec (Api.inState (Api.sendRequest env (Api.form (Api.panel c)))) c).
  apply Api_inState_run.
Qed.

(** What a click on an entry of the history leaves in the component. *)
Lemma Api1_loadHistoryItem_run `{Platform} (item : HistoryEntry) (c : Api1.Component) :
  exec (Api1.loadHistoryItem item) c
  = {| Api1.panel :=
         {| Api1.form :=
              {| Form.method := Item.method item; Form.url := Item.url item;
                 Form.headers :=
                   match Item.headers item with
                   | HeadersObject v => if truthy v then JSON_stringify_pretty v else "{}"
                   | HeadersText text =>
                       if truthy_string text then JSON_stringify_pretty (JString text)
                       else "{}"
                   end;
                 Form.body := string_or (Item.body item) "" |};
            Api1.showHistory := false;
            Api1.showStats := Api1.showStats (Api1.panel c) |};
       Api1.state :=
         Api1.with_duration (Some (Item.duration item))
           (Api1.with_statusCode (Some (Item.statusCode item))
              (Api1.with_response (string_or (Item.response item) "") (Api1.state c)));
       Api1.scrolls :=
         Api1.scrolls c ++ [{| scroll_top := 0; scroll_behavior := "smooth" |}] |}.
Proof. reflexivity. Qed.

Lemma Api_loadHistoryItem_run (item : HistoryEntry) (text : string) :
  Item.headers item = HeadersText text ->
  exists load,
    Api.loadHistoryItem item = Some load
    /\ forall c,
         exec load c
         = {| Api.panel :=
                {| Api.form :=
                     {| Form.method := Item.method item; Form.url := Item.url item;
                        Form.headers := string_or text "{}";
                        Form.body := string_or (Item.body item) "" |};
                   Api.showHistory := false |};
              Api.state :=
                Api.with_duration (Some (Item.duration item))
                  (Api.with_statusCode (Some (Item.statusCode item))
                     (Api.with_response (string_or (Item.response item) "") (Api.state c)));
              Api.scrolls :=
                Api.scrolls c ++ [{| scroll_top := 0; scroll_behavior := "smooth" |}] |}.
Proof.
  intros Hh. unfold Api.loadHistoryItem. rewrite Hh. cbn [Api.headers_or_default mbind option_bind].
  eexists. split; [reflexivity|]. intros c. reflexivity.
Qed.

(** A click on an entry of the history puts the request back into the
    form. The item that the send button writes to the store, loaded into
    any later state of the component, restores the method, the URL and the
    body of the form it was sent from, shows the recorded response, status
    and duration, closes the history panel and scrolls to the top; it
    touches neither the list nor the store. The headers come back as they
    were typed in [Api.jsx] (an empty field comes back as [{}]), and as
    the parsed headers printed again in [Api1.jsx] ([{}] printed when they
    did not parse, the text [{}] when they parsed to a falsy value). *)
Theorem history_item_restores_the_form (P : Platform)
    (env1 : Api1.Env) (c1 later1 : Api1.Component)
    (env : Api.Env) (c later : Api.Component) :
  let form1 := Api1.form (Api1.panel c1) in
  let form := Api.form (Api.panel c) in
  let parsed :=
    match JSON_parse (Form.headers form1) with Some v => v | None => JObject [] end in
  (exists item,
     List.filter is_storage_set
       (drop (length (Api1.effects (Api1.state c1)))
          (Api1.effects (Api1.state (exec (Api1.clickSend env1) c1))))
     = [StorageSet ("request:" +:+ pretty (Api1.Date_now env1)) (JSON_stringify_entry item)]
     /\ let c' := exec (Api1.loadHistoryItem item) later1 in
        Api1.form (Api1.panel c')
        = {| Form.method := Form.method form1; Form.url := Form.url form1;
             Form.headers := if truthy parsed then JSON_stringify_pretty parsed else "{}";
             Form.body := Form.body form1 |}
        /\ Api1.showHistory (Api1.panel c') = false
        /\ Api1.response (Api1.state c') = Item.response item
        /\ Api1.statusCode (Api1.state c') = Some (Item.statusCode item)
        /\ Api1.duration (Api1.state c') = Some (Item.duration item)
        /\ Api1.scrolls c'
           = Api1.scrolls later1 ++ [{| scroll_top := 0; scroll_behavior := "smooth" |}]
        /\ Api1.history (Api1.state c') = Api1.history (Api1.state later1)
        /\ Api1.localStorage (Api1.state c') = Api1.localStorage (Api1.state later1)
        /\ Api1.effects (Api1.state c') = Api1.effects (Api1.state later1))
  /\ (exists item load,
        List.filter is_storage_set
          (drop (length (Api.effects (Api.state c)))
             (Api.effects (Api.state (exec (Api.clickSend env) c))))
        = [StorageSet ("request:" +:+ pretty (Api.Date_now env)) (JSON_stringify_entry item)]
        /\ Api.loadHistoryItem item = Some load
        /\ let c' := exec load later in
           Api.form (Api.panel c')
           = {| Form.method := Form.method form; Form.url := Form.url form;
                Form.headers := string_or (Form.headers form) "{}";
                Form.body := Form.body form |}
           /\ (Form.headers form <> "" -> Api.form (Api.panel c') = form)
           /\ Api.showHistory (Api.panel c') = false
           /\ Api.response (Api.state c') = Item.response item
           /\ Api.statusCode (Api.state c') = Some (Item.statusCode item)
           /\ Api.duration (Api.state c') = Some (Item.duration item)
           /\ Api.scrolls c'
              = Api.scrolls later ++ [{| scroll_top := 0; scroll_behavior := "smooth" |}]
           /\ Api.history (Api.state c') = Api.history (Api.state later)
           /\ Api.storage (Api.state c') = Api.storage (Api.state later)
           /\ Api.effects (Api.state c') = Api.effects (Api.state later)).
Proof.
  intros form1 form parsed. split.
  - destruct (Api1_sendRequest_written env1 form1 (Api1.state c1))
      as (rd & Hset & Hm & Hu & Hh & Hb).
    exists (Api1.itemWithId env1 rd (Api1.Date_now env1)). split.
    + rewrite Api1_clickSend_run. exact Hset.
    + clear Hset. rewrite Api1_loadHistoryItem_run.
      cbn [Api1.panel Api1.state Api1.scrolls Api1.form Api1.showHistory
           Api1.response Api1.statusCode Api1.duration Api1.history Api1.localStorage
           Api1.effects Api1.with_duration Api1.with_statusCode Api1.with_response
           Api1.itemWithId Item.method Item.url Item.headers Item.body Item.response
           Item.statusCode Item.duration].
      rewrite Hm, Hu, Hh, Hb, !string_or_empty. fold parsed.
      repeat (split; [reflexivity|]); reflexivity.
  - destruct (Api_sendRequest_written env form (Api.state c))
      as (rd & Hset & Hm & Hu & Hh & Hb).
    destruct (Api_loadHistoryItem_run (Api.itemWithId rd (Api.Date_now env))
                (Api.RequestData.headers rd) eq_refl) as (load & Hload & Hrun).
    exists (Api.itemWithId rd (Api.Date_now env)), load.
    split; [|split; [exact Hload|]].
    + rewrite Api_clickSend_run. exact Hset.
    + clear Hset Hload. rewrite Hrun.
      cbn [Api.panel Api.state Api.scrolls Api.form Api.showHistory
           Api.response Api.statusCode Api.duration Api.history Api.storage
           Api.effects Api.with_duration Api.with_statusCode Api.with_response
           Api.itemWithId Item.method Item.url Item.headers Item.body Item.response
           Item.statusCode Item.duration].
      rewrite Hm, Hu, Hh, Hb, !string_or_empty.
      split; [reflexivity|]. split; [|repeat (split; [reflexivity|]); reflexivity].
      intros Hne. subst form. rewrite string_or_nonempty by exact Hne.
      now destruct (Api.form (Api.panel c)).
Qed.
(** ** The sample buttons *)

(** A sample button fills the method, the URL and the body, all three, so
    that nothing of an earlier sample stays behind: a sample clicked after
    another one leaves the form that it leaves when clicked alone, and the
    body it leaves is empty unless its method is [POST] or [PUT] (the sample
    of a [GET] or of a [DELETE] empties the body that the sample of a [POST]
    wrote). A type that is none of the five changes nothing. No sample
    touches the headers, the panels, the response, the list, the store or
    the scroll position. *)
Theorem sample_replaces_sample (earlier type : string)
    (c1 : Api1.Component) (c : Api.Component) :
  let known := ["post-create"; "post-get"; "post-update"; "post-delete"; "users"] in
  let after1 := exec (Api1.insertSampleData type) c1 in
  let after := exec (Api.insertSampleData type) c in
  let sends_body (form : Form.t) :=
    Form.method form = POST \/ Form.method form = PUT in
  (type ∈ known ->
     exec (Api1.insertSampleData type) (exec (Api1.insertSampleData earlier) c1) = after1
     /\ exec (Api.insertSampleData type) (exec (Api.insertSampleData earlier) c) = after
     /\ (Form.body (Api1.form (Api1.panel after1)) <> ""
         <-> sends_body (Api1.form (Api1.panel after1)))
     /\ (Form.body (Api.form (Api.panel after)) <> ""
         <-> sends_body (Api.form (Api.panel after))))
  /\ (type ∉ known -> after1 = c1 /\ after = c)
  /\ Form.headers (Api1.form (Api1.panel after1)) = Form.headers (Api1.form (Api1.panel c1))
  /\ Api1.showHistory (Api1.panel after1) = Api1.showHistory (Api1.panel c1)
  /\ Api1.showStats (Api1.panel after1) = Api1.showStats (Api1.panel c1)
  /\ Api1.state after1 = Api1.state c1
  /\ Api1.scrolls after1 = Api1.scrolls c1
  /\ Form.headers (Api.form (Api.panel after)) = Form.headers (Api.form (Api.panel c))
  /\ Api.showHistory (Api.panel after) = Api.showHistory (Api.panel c)
  /\ Api.state after = Api.state c
  /\ Api.scrolls after = Api.scrolls c.
Proof.
  intros known after1 after sends_body. subst known after1 after sends_body.
  split; [|split].
  - intros Hin.
    repeat (apply elem_of_cons in Hin as [->|Hin]);
      [..|now apply elem_of_nil in Hin];
      (split; [|split];
       [unfold Api1.insertSampleData at 2
       |unfold Api.insertSampleData at 2
       |split; vm_compute; split; intros Hbody;
        solve [now left | now right | discriminate | now destruct Hbody
              | exfalso; now apply Hbody]];
       repeat (match goal with
               | |- context [String.eqb earlier ?t] => destruct (String.eqb earlier t)
               end);
       reflexivity).
  - intros Hout.
    unfold Api1.insertSampleData, Api.insertSampleData.
    repeat (match goal with
            | |- context [String.eqb type ?t] =>
                destruct (String.eqb_spec type t) as [Heq|_];
                [exfalso; apply Hout; rewrite Heq; set_solver|]
            end).
    split; reflexivity.
  - unfold Api1.insertSampleData, Api.insertSampleData.
    repeat (match goal with
            | |- context [String.eqb type ?t] => destruct (String.eqb type t)
            end);
      repeat (split; [reflexivity|]); reflexivity.
Qed.


(** ** Sample runs *)

Section SampleRuns.
#[local] Existing Instance sample_platform.

Lemma sample_coherent1 ls : Api1.cache_coherent (Api1.initial ls).
Proof. apply Api1_coherent_empty. reflexivity. Qed.

Lemma sample_coherent st : Api.cache_coherent sample_env (Api.initial st).
Proof. apply Api_coherent_empty. reflexivity. Qed.

Example page_one_sample :
  map Item.timestamp
    (Api1.history (exec (Api1.loadHistory 1 false) (Api1.initial sample_store)))
  = [3000; 2000; 1000].
Proof. vm_compute. reflexivity. Qed.

Lemma C1_page_one_newest_first_witness :
  newest_first_page (Api1.storedEntries sample_store)
    (Api1.history (exec (Api1.loadHistory 1 false) (Api1.initial sample_store)))
  /\ newest_first_page (Api.storedEntries sample_env sample_store)
       (Api.history (exec (Api.loadHistory sample_env 1 false) (Api.initial sample_store))).
Proof.
  apply (C1_page_one_newest_first sample_platform
           (Api1.initial sample_store) sample_env (Api.initial sample_store)).
  - apply sample_coherent1.
  - apply sample_coherent.
  - reflexivity.
Defined.

Lemma C2_pagination_exhaustive_witness :
  concat
    (map (fun p => Api1.history (exec (Api1.loadHistory p false) (Api1.initial sample_long_store)))
       [1; 2; 3])
  = Api1.sortedEntries sample_long_store
  /\ concat
       (map (fun p =>
               Api.history (exec (Api.loadHistory sample_env p false) (Api.initial sample_long_store)))
          [1; 2; 3])
     = Api.sortedEntries sample_env sample_long_store.
Proof.
  destruct (C2_pagination_exhaustive sample_platform
              (Api1.initial sample_long_store) sample_env (Api.initial sample_long_store)
              (sample_coherent1 _) (sample_coherent _) eq_refl)
    as [(_ & _ & Hcat1) (_ & _ & Hcat)].
  split; [apply (Hcat1 3%nat)|apply (Hcat 3%nat)]; vm_compute; lia.
Defined.

Lemma C3_hasMore_iff_witness :
  (Api1.hasMore (exec (Api1.loadHistory 2 false) (Api1.initial sample_long_store)) = true
   <-> 2 * 20 < Z.of_nat (length (Api1.storedEntries sample_long_store)))
  /\ (Api.hasMore (exec (Api.loadHistory sample_env 2 false) (Api.initial sample_long_store)) = true
      <-> 2 * 20 < Z.of_nat (length (Api.storedEntries sample_env sample_long_store)))
  /\ Api.totalCount (exec (Api.loadHistory sample_env 2 false) (Api.initial sample_long_store))
     = Z.of_nat (length (Api.storedEntries sample_env sample_long_store)).
Proof.
  apply (C3_hasMore_iff sample_platform
           (Api1.initial sample_long_store) sample_env (Api.initial sample_long_store) 2 false).
  - lia.
  - apply sample_coherent1.
  - apply sample_coherent.
  - reflexivity.
Defined.

Lemma C6_corrupt_records_skipped_witness :
  Api1.readItem sample_store "request:1500" = None
  /\ Api1.history
       (exec (Api1.loadHistory 1 false)
          (Api1.with_localStorage (Storage.removeItem "request:1500" sample_store)
             (Api1.initial sample_store)))
     = Api1.history (exec (Api1.loadHistory 1 false) (Api1.initial sample_store)).
Proof.
  split; [reflexivity|].
  destruct (C6_corrupt_records_skipped sample_platform
              (Api1.initial sample_store) sample_env (Api.initial sample_store) 1
              ltac:(lia) (sample_coherent1 _) (sample_coherent _) eq_refl)
    as [(_ & _ & _ & Hskip) _].
  apply (Hskip "request:1500"). reflexivity.
Defined.

Lemma C7_computeStats_witness :
  Stats.avgDuration
    (Api1.computeStats [sample_entry 1000 200 100; sample_entry 2000 200 200; sample_entry 3000 404 300]) = 200
  /\ map Stats.count
       (Stats.methodStats
          (Api1.computeStats [sample_entry 1000 200 100; sample_entry 2000 200 200; sample_entry 3000 404 300]))
     = [2; 1].
Proof.
  destruct (C7_computeStats [sample_entry 1000 200 100; sample_entry 2000 200 200; sample_entry 3000 404 300]
              ltac:(discriminate))
    as (_ & _ & Havg & _).
  split; [rewrite Havg|]; reflexivity.
Defined.

Lemma C8_stats_recent_window_witness :
  Stats.total
    <$> Api1.stats (exec Api1.loadStats (Api1.initial (sample_records 101))) = Some 100
  /\ Api1.totalCount (exec Api1.loadStats (Api1.initial (sample_records 101))) = 101
  /\ Api1.stats (exec Api1.loadStats (Api1.initial (("request:0", "entry:900000:500:900000") :: sample_records 100)))
     = Api1.stats (exec Api1.loadStats (Api1.initial (("request:0", "{damaged") :: sample_records 100))).
Proof.
  pose proof (C8_stats_recent_window
                (Api1.initial (sample_records 101)) (Api1.initial (sample_records 101)))
    as (Hstats & _ & _ & _ & _ & Hcount & _).
  pose proof (C8_stats_recent_window
                (Api1.initial (("request:0", "{damaged") :: sample_records 100))
                (Api1.initial (("request:0", "entry:900000:500:900000") :: sample_records 100)))
    as (_ & _ & _ & _ & _ & _ & Hsame).
  split; [rewrite Hstats; vm_compute; reflexivity|].
  split; [rewrite Hcount; vm_compute; reflexivity|].
  apply Hsame; [vm_compute; reflexivity|].
  intros key Hkey. vm_compute in Hkey.
  repeat (apply elem_of_cons in Hkey as [->|Hkey]; [vm_compute; reflexivity|]).
  now apply elem_of_nil in Hkey.
Defined.

Lemma C5_validation_failure_recorded_witness :
  Api.validate sample_bad_form = Throw (JS.new_Error "Invalid JSON in headers")
  /\ Api.effects (exec (Api.sendRequest sample_env sample_bad_form) (Api.initial sample_store))
     = [StorageSet "request:5000" "entry:5000:400:3"]
  /\ Api.statusCode (exec (Api.sendRequest sample_env sample_bad_form) (Api.initial sample_store))
     = Some 400.
Proof.
  split; [reflexivity|].
  destruct (C5_validation_failure_recorded sample_platform sample_env sample_bad_form
              (Api.initial sample_store) (JS.new_Error "Invalid JSON in headers") eq_refl)
    as (_ & _ & _ & _ & _ & Hcode & _).
  split; [vm_compute; reflexivity|exact Hcode].
Defined.

Lemma C4_failures_recorded_as_400_witness :
  Api1.thrown sample_offline1 sample_form = Some sample_network_error
  /\ Api1.statusCode (exec (Api1.sendRequest sample_offline1 sample_form) (Api1.initial []))
     = Some 0
  /\ map Item.statusCode
       (Api1.history (exec (Api1.sendRequest sample_offline1 sample_form) (Api1.initial [])))
     = [400]
  /\ Api.statusCode (exec (Api.sendRequest sample_offline sample_form) (Api.initial []))
     = Some 400
  /\ map Item.statusCode
       (Api.history (exec (Api.sendRequest sample_offline sample_form) (Api.initial [])))
     = [400].
Proof.
  destruct (C4_failures_recorded_as_400 sample_platform
              sample_offline1 (Api1.initial []) sample_network_error
              sample_offline (Api.initial []) sample_network_error sample_form
              eq_refl eq_refl)
    as [(_ & _ & Hshown1) (_ & _ & Hshown)].
  split; [reflexivity|].
  split; [exact Hshown1|].
  split; [vm_compute; reflexivity|].
  split; [exact Hshown|vm_compute; reflexivity].
Defined.


Lemma C10_mutations_touch_reserved_keys_witness :
  Api1.localStorage (exec Api1.clearAllHistory (Api1.initial sample_store)) = [("theme", "dark")]
  /\ Api.storage (exec (Api.clearAllHistory sample_env) (Api.initial sample_store))
     = [("theme", "dark")]
  /\ Storage.getItem "theme"
       (Api.storage (exec (Api.deleteHistoryItem sample_env 1000) (Api.initial sample_store)))
     = Some "dark".
Proof.
  destruct (C10_mutations_touch_reserved_keys sample_platform
              sample_env1 (Api1.initial sample_store) sample_request1
              sample_env sample_env (Api.initial sample_store) sample_request 1000
              eq_refl (fun _ => eq_refl))
    as ((Hclear1 & Hclear & _) & _ & Hframe).
  split; [rewrite Hclear1; reflexivity|].
  split; [rewrite Hclear; reflexivity|].
  destruct (Hframe "theme" eq_refl) as (_ & _ & _ & _ & Hdelete & _).
  rewrite Hdelete. reflexivity.
Defined.

(** ** Further sample runs *)

Lemma request_body_rule_witness :
  fetch_body (Api.fetchOptionsOf sample_post_form (JObject []) (JObject [])) = Some "{}"
  /\ Api.validate
       {| Form.method := GET; Form.url := "https://example.test/ok";
          Form.headers := "{}"; Form.body := "{not json" |}
     = Normal (JObject [], JNull).
Proof.
  pose proof (request_body_rule sample_platform sample_post_form (JObject []) (JObject [])
                eq_refl) as Hpost.
  pose proof (request_body_rule sample_platform sample_form (JObject []) JNull eq_refl) as Hget.
  cbv zeta in Hpost, Hget.
  destruct Hpost as (Hbody & _). destruct Hget as (_ & _ & _ & Hany & _).
  split; [rewrite Hbody; reflexivity|].
  apply (Hany eq_refl "{not json").
Defined.


Lemma unsaved_send_is_only_logged_witness :
  Api1.localStorage
    (exec (Api1.sendRequest sample_full1 sample_form) (Api1.state sample_component1))
  = sample_store
  /\ map Item.timestamp
       (Api1.history
          (exec (Api1.sendRequest sample_full1 sample_form) (Api1.state sample_component1)))
     = [3000; 2000; 1000]
  /\ Api.storage (exec (Api.sendRequest sample_full sample_form) (Api.state sample_component))
     = sample_store
  /\ map Item.timestamp
       (Api.history (exec (Api.sendRequest sample_full sample_form) (Api.state sample_component)))
     = [3000; 2000; 1000].
Proof.
  pose proof (unsaved_send_is_only_logged sample_platform
                sample_full1 (Api1.state sample_component1)
                sample_full (Api.state sample_component) sample_form eq_refl eq_refl) as Hw.
  cbv zeta in Hw.
  destruct Hw as ((Hstore1 & Hlist1 & _) & (Hstore & Hlist & _)).
  split; [rewrite Hstore1; reflexivity|].
  split; [rewrite Hlist1; reflexivity|].
  split; [rewrite Hstore; reflexivity|].
  rewrite Hlist. reflexivity.
Defined.

Lemma list_always_current_witness :
  map Item.timestamp
    (Api1.history
       (exec (Api1.sendRequest sample_env1 sample_form) (Api1.state sample_component1)))
  = [5000; 3000; 2000; 1000]
  /\ map Item.timestamp
       (Api.history (exec (Api.deleteHistoryItem sample_env 1000) (Api.state sample_component)))
     = [3000; 2000]
  /\ Api.totalCount (exec (Api.deleteHistoryItem sample_env 1000) (Api.state sample_component))
     = 2.
Proof.
  destruct (Api1_mount_view sample_store) as (Hcur1 & _).
  pose proof (Api_mount_current sample_env eq_refl sample_store) as Hcur.
  destruct (list_always_current sample_platform
              sample_env1 (Api1.state sample_component1) sample_request1
              sample_env (Api.state sample_component) sample_request
              sample_form 1000 true sample_store sample_store Hcur1 Hcur eq_refl)
    as ((_ & (_ & Hsent & _) & _) & (_ & _ & _ & (_ & Hdeleted & _ & Htotal & _) & _)).
  split; [rewrite Hsent; vm_compute; reflexivity|].
  split; [rewrite Hdeleted|rewrite Htotal]; vm_compute; reflexivity.
Defined.

Lemma scrolling_shows_next_pages_witness :
  length
    (Api1.history
       (Nat.iter 1 (exec (Api1.observerCallback true))
          (exec Api1.refreshHistory (Api1.initial sample_long_store)))) = 40%nat
  /\ Api1.page
       (Nat.iter 1 (exec (Api1.observerCallback true))
          (exec Api1.refreshHistory (Api1.initial sample_long_store))) = 2
  /\ length
       (Api.history
          (Nat.iter 2 (exec (Api.observerCallback sample_env true))
             (exec (Api.refreshHistory sample_env) (Api.initial sample_long_store)))) = 45%nat
  /\ Api.hasMore
       (Nat.iter 2 (exec (Api.observerCallback sample_env true))
          (exec (Api.refreshHistory sample_env) (Api.initial sample_long_store))) = false.
Proof.
  pose proof (scrolling_shows_next_pages sample_platform (Api1.initial sample_long_store)
                sample_env (Api.initial sample_long_store) 1 eq_refl) as Hone.
  pose proof (scrolling_shows_next_pages sample_platform (Api1.initial sample_long_store)
                sample_env (Api.initial sample_long_store) 2 eq_refl) as Htwo.
  cbv zeta in Hone, Htwo.
  destruct Hone as ((Hlist1 & _ & Hpage1 & _) & _).
  destruct Htwo as (_ & (Hlist & Hmore & _)).
  split; [rewrite Hlist1; vm_compute; reflexivity|].
  split; [apply Hpage1; vm_compute; reflexivity|].
  split; [rewrite Hlist|rewrite Hmore]; vm_compute; reflexivity.
Defined.

Lemma statistics_always_current_witness :
  Stats.total
    <$> Api1.stats (exec (Api1.deleteHistoryItem 1000) (Api1.state sample_component1))
  = Some 2
  /\ Api1.state (exec Api1.clickStats sample_component1) = Api1.state sample_component1
  /\ Api1.showStats (Api1.panel (exec Api1.clickStats sample_component1)) = true.
Proof.
  destruct (Api1_mount_view sample_store) as (_ & Hcur & _).
  destruct (statistics_always_current sample_platform sample_env1
              (Api1.state sample_component1) sample_component1 sample_request1 sample_form
              1000 true sample_store Hcur Hcur)
    as (_ & _ & _ & Hdeleted & _ & _ & _ & _ & Hstate & Hshown).
  split; [|split; [exact Hstate|exact Hshown]].
  unfold Api1.stats_current in Hdeleted. rewrite Hdeleted. vm_compute. reflexivity.
Defined.

Lemma clear_with_rejected_deletion_witness :
  map Item.timestamp
    (Api.history (exec (Api.clearAllHistory sample_locked) (Api.state sample_component)))
  = [3000; 2000; 1000]
  /\ Storage.getItem "request:2000"
       (Api.storage (exec (Api.clearAllHistory sample_locked) (Api.state sample_component)))
     = Some "entry:2000:200:200"
  /\ Storage.getItem "request:3000"
       (Api.storage (exec (Api.clearAllHistory sample_locked) (Api.state sample_component)))
     = None.
Proof.
  assert (Hin : forall key,
            In key ["request:1000"; "request:1500"; "request:3000"; "request:2000"] ->
            key ∈ Api.requestKeys (Api.storage (Api.state sample_component))).
  { intros key Hkey. apply list_elem_of_In. exact Hkey. }
  pose proof (clear_with_rejected_deletion sample_platform sample_locked
                (Api.state sample_component) "request:2000" eq_refl
                (Hin "request:2000" ltac:(vm_compute; tauto)) eq_refl) as Hw.
  cbv zeta in Hw.
  destruct Hw as (_ & _ & Hkeys & Hlist & _).
  split; [rewrite Hlist; reflexivity|].
  split.
  - rewrite (Hkeys "request:2000" (Hin "request:2000" ltac:(vm_compute; tauto))). reflexivity.
  - rewrite (Hkeys "request:3000" (Hin "request:3000" ltac:(vm_compute; tauto))). reflexivity.
Defined.

Lemma sample_fresh_key : "request:5000" ∉ Storage.keys sample_store.
Proof. intros Hin. apply list_elem_of_In in Hin. vm_compute in Hin. intuition discriminate. Qed.

Lemma save_then_delete_restores_witness :
  Api1.localStorage
    (exec (Api1.deleteHistoryItem 5000)
       (exec (Api1.saveToHistory sample_env1 sample_request1) (Api1.initial sample_store)))
  = sample_store
  /\ Api.storage
       (exec (Api.deleteHistoryItem sample_env 5000)
          (exec (Api.saveToHistory sample_env sample_request) (Api.initial sample_store)))
     = sample_store.
Proof.
  pose proof (save_then_delete_restores sample_platform
                sample_env1 (Api1.initial sample_store) sample_request1
                sample_env (Api.initial sample_store) sample_request
                sample_fresh_key eq_refl sample_fresh_key eq_refl eq_refl eq_refl) as Hw.
  cbv zeta in Hw.
  destruct Hw as ((Hstore1 & _) & (Hstore & _)).
  split; [exact Hstore1|exact Hstore].
Defined.

Lemma saves_in_one_millisecond_leave_one_witness :
  Storage.getItem "request:5000"
    (Api1.localStorage
       (exec (Api1.saveToHistory sample_env1 sample_missing1)
          (exec (Api1.saveToHistory sample_env1 sample_request1) (Api1.initial sample_store))))
  = Some "entry:5000:404:7"
  /\ Api.storage
       (exec (Api.saveToHistory sample_env sample_missing)
          (exec (Api.saveToHistory sample_env sample_request) (Api.initial sample_store)))
     = Api.storage (exec (Api.saveToHistory sample_env sample_missing) (Api.initial sample_store)).
Proof.
  pose proof (saves_in_one_millisecond_leave_one sample_platform
                sample_env1 sample_env1 (Api1.initial sample_store)
                sample_request1 sample_missing1
                sample_env sample_env (Api.initial sample_store) sample_request sample_missing
                eq_refl eq_refl eq_refl eq_refl eq_refl eq_refl) as Hw.
  cbv zeta in Hw.
  destruct Hw as ((_ & _ & Hread1) & (_ & Hstore & _)).
  split; [exact Hread1|exact Hstore].
Defined.

Lemma sample_keyed : Api.keyed_by_id sample_env sample_store.
Proof.
  intros key e Hin Hread. apply list_elem_of_In in Hin. vm_compute in Hin.
  destruct Hin as [<-|[<-|[<-|[<-|[]]]]]; vm_compute in Hread;
    try discriminate; injection Hread as <-; reflexivity.
Qed.

Lemma records_keyed_by_id_witness :
  Api.keyed_by_id sample_env
    (Api.storage (exec (Api.saveToHistory sample_env sample_request) (Api.initial sample_store)))
  /\ Api.keyed_by_id sample_env
       (Api.storage (exec (Api.clearAllHistory sample_env) (Api.initial sample_store))).
Proof.
  pose proof (records_keyed_by_id sample_platform sample_env (Api.initial sample_store)
                sample_request 1000 sample_keyed eq_refl) as Hw.
  destruct Hw as (_ & Hsaved & _ & Hcleared).
  split; [exact Hsaved|exact Hcleared].
Defined.

Lemma delete_button_removes_the_row_witness :
  map Item.timestamp
    (Api.history
       (Api.state (exec (Api.clickDelete sample_env (sample_entry 2000 200 200)) sample_component)))
  = [3000; 1000]
  /\ Api.totalCount
       (Api.state (exec (Api.clickDelete sample_env (sample_entry 2000 200 200)) sample_component))
     = 2.
Proof.
  pose proof (delete_button_removes_the_row sample_platform sample_env sample_component
                (sample_entry 2000 200 200) sample_keyed eq_refl eq_refl) as Hw.
  cbv zeta in Hw.
  destruct Hw as (_ & Hlist & Htotal & _).
  split; [rewrite Hlist|rewrite Htotal]; vm_compute; reflexivity.
Defined.

Lemma saved_item_is_shown_first_witness :
  head (Api.history (exec (Api.saveToHistory sample_env sample_request) (Api.initial sample_store)))
  = Some (sample_entry 5000 200 42).
Proof.
  assert (Holder : Forall (fun e => Item.timestamp e < 5000)
                     (Api.storedEntries sample_env sample_store)).
  { vm_compute. repeat constructor. }
  pose proof (saved_item_is_shown_first sample_platform sample_env (Api.initial sample_store)
                sample_request eq_refl eq_refl eq_refl eq_refl Holder) as Hw.
  cbv zeta in Hw.
  destruct Hw as ((rest & Hlist) & _).
  rewrite Hlist. reflexivity.
Defined.

Lemma average_between_extremes_witness :
  100 <= Stats.avgDuration
           (Api1.computeStats
              [sample_entry 1000 200 100; sample_entry 2000 200 200; sample_entry 3000 404 300])
      <= 300.
Proof.
  apply (average_between_extremes
           [sample_entry 1000 200 100; sample_entry 2000 200 200; sample_entry 3000 404 300]
           100 300).
  - discriminate.
  - repeat constructor; cbn; lia.
Defined.

End SampleRuns.
